(** * The AI service layer of the legal-document RAG backend

    A shallow embedding of [backend/src/ai/services.py] (class [AIProcessor])
    and the verification of its contract: embedding validation, the
    ingestion path, document analysis and the retrieval-augmented chat.

    Conventions.
    - A Python [str] is a list of Unicode code points.
    - A Python [float] is a binary64 primitive float.
    - A [dict] is an association list in insertion order with unique keys.
    - The collaborators outside the file (the sentence-transformer, the
      Pinecone index, the text splitter, the HTTP transport, the clock and
      [json.loads]) are the fields of an environment [Env W] acting on an
      arbitrary world [W]; every call made to them is recorded, with its
      outcome, in a trace.
    - Python exceptions (instances of [Exception]) are the [Raise] outcome of
      the state-and-error monad [M].  Logging has no effect on results and is
      left out. *)

From Stdlib Require Import String Ascii DecimalString.
From Stdlib Require Import ZArith NArith Bool Lia Floats List Sorted.
Import ListNotations.

Set Warnings "-inexact-float,-register-all".
Local Open Scope list_scope.

(* ================================================================== *)
(** ** Strings *)
(* ================================================================== *)

Definition char := N.
Definition str := list char.

(** A source literal (all literals of the file are ASCII). *)
Definition lit (s : string) : str := map N_of_ascii (list_ascii_of_string s).
Arguments lit s%_string.

Definition NL : char := 10%N.
Definition SPACE : char := 32%N.
Definition DQUOTE : char := 34%N.

(** [s] between double quotes. *)
Definition quoted (s : str) : str := DQUOTE :: s ++ [DQUOTE].

(** [str.isspace] on one code point: the ASCII table of CPython
    (0x09-0x0D, 0x1C-0x20) and the Unicode white-space property. *)
Definition is_space (c : char) : bool :=
  ((9 <=? c) && (c <=? 13) || (28 <=? c) && (c <=? 32)
   || (c =? 133) || (c =? 160) || (c =? 5760)
   || (8192 <=? c) && (c <=? 8202)
   || (c =? 8232) || (c =? 8233) || (c =? 8239) || (c =? 8287)
   || (c =? 12288))%N.

Fixpoint lstrip (s : str) : str :=
  match s with
  | [] => []
  | c :: s' => if is_space c then lstrip s' else s
  end.

Definition rstrip (s : str) : str := rev (lstrip (rev s)).

(** [s.strip()] *)
Definition strip (s : str) : str := rstrip (lstrip s).

(** [s.replace(a, b)] for one-character [a] and [b]. *)
Definition replace_char (a b : char) (s : str) : str :=
  map (fun c => if (c =? a)%N then b else c) s.

(** [sep.join(parts)] *)
Fixpoint join (sep : str) (parts : list str) : str :=
  match parts with
  | [] => []
  | [p] => p
  | p :: ps => p ++ sep ++ join sep ps
  end.

Fixpoint str_eqb (a b : str) : bool :=
  match a, b with
  | [], [] => true
  | x :: a', y :: b' => (x =? y)%N && str_eqb a' b'
  | _, _ => false
  end.

(** [s.startswith(p)] *)
Fixpoint startswith (p s : str) : bool :=
  match p, s with
  | [], _ => true
  | x :: p', y :: s' => (x =? y)%N && startswith p' s'
  | _ :: _, [] => false
  end.

(** [s.endswith(p)] *)
Definition endswith (p s : str) : bool := startswith (rev p) (rev s).

(** [str(n)] and the [{n}] field of an f-string, for an [int]. *)
Definition str_of_Z (z : Z) : str := lit (NilZero.string_of_int (Z.to_int z)).

Definition len {A} (l : list A) : Z := Z.of_nat (length l).

(* ================================================================== *)
(** ** Values, dictionaries, exceptions *)
(* ================================================================== *)

(** The JSON-shaped values that travel through the service. *)
Inductive pyval : Type :=
| VNone
| VBool (b : bool)
| VInt (z : Z)
| VFloat (f : float)
| VStr (s : str)
| VList (l : list pyval)
| VDict (d : list (str * pyval)).

Definition dict := list (str * pyval).

(** [d.get(k)] *)
Fixpoint dict_get (k : str) (d : dict) : option pyval :=
  match d with
  | [] => None
  | (k', v) :: d' => if str_eqb k k' then Some v else dict_get k d'
  end.

(** [k in d] *)
Definition dict_has (k : str) (d : dict) : bool :=
  match dict_get k d with Some _ => true | None => false end.

(** [d[k] = v]: an existing key keeps its position, a new one goes last. *)
Fixpoint dict_set (k : str) (v : pyval) (d : dict) : dict :=
  match d with
  | [] => [(k, v)]
  | (k', v') :: d' =>
      if str_eqb k k' then (k', v) :: d' else (k', v') :: dict_set k v d'
  end.

(** [d.setdefault(k, v)], for its effect on [d]. *)
Definition dict_setdefault (k : str) (v : pyval) (d : dict) : dict :=
  if dict_has k d then d else dict_set k v d.

(** [{**d, **extra}] *)
Definition dict_update (d extra : dict) : dict :=
  fold_left (fun acc kv => dict_set (fst kv) (snd kv) acc) extra d.

(** The classes of exception the handlers of the file tell apart. *)
Inductive exn_class : Type :=
| JSONDecodeError      (* json.JSONDecodeError *)
| TimeoutException     (* httpx.TimeoutException *)
| RuntimeError
| AttributeError
| OtherException.

(** An exception: its class and [str(e)]. *)
Record exn : Type := mk_exn { exn_cls : exn_class; exn_msg : str }.

Inductive result (A : Type) : Type :=
| Ok (a : A)
| Raise (e : exn).
Arguments Ok {A} a.
Arguments Raise {A} e.

Definition is_json_decode_error (e : exn) : bool :=
  match exn_cls e with JSONDecodeError => true | _ => false end.

Definition is_timeout (e : exn) : bool :=
  match exn_cls e with TimeoutException => true | _ => false end.

(** [type(v).__name__] *)
Definition type_name (v : pyval) : str :=
  match v with
  | VNone => lit "NoneType"
  | VBool _ => lit "bool"
  | VInt _ => lit "int"
  | VFloat _ => lit "float"
  | VStr _ => lit "str"
  | VList _ => lit "list"
  | VDict _ => lit "dict"
  end.

(** The [AttributeError] of [v.attr] on a value without that attribute. *)
Definition no_attribute (v : pyval) (attr : str) : exn :=
  mk_exn AttributeError
    (lit "'" ++ type_name v ++ lit "' object has no attribute '" ++ attr ++ lit "'").

(* ================================================================== *)
(** ** The data exchanged with the collaborators *)
(* ================================================================== *)

Definition vector := list float.

(** [self.client]: the Groq settings kept by [_init_groq]. *)
Record groq_client : Type := mk_client {
  api_key : str;
  base_url : str;
  model : str;
  timeout : float
}.

(** [self.index]: the handle kept by [_init_pinecone]. *)
Record pinecone_index : Type := mk_index { index_name : str }.

(** The processor after [__init__]: [client] and [index] are [None] when the
    corresponding service is not configured. *)
Record AIProcessor : Type := mk_processor {
  client : option groq_client;
  index : option pinecone_index
}.

(** [self.embedding_dim], set once by [_init_embeddings]. *)
Definition embedding_dim : nat := 768.

(** One chat message. *)
Record message : Type := mk_message { role : str; content : str }.

(** The JSON body of a chat-completion request. *)
Record chat_payload : Type := mk_payload {
  p_model : str;
  p_messages : list message;
  p_temperature : float;
  p_max_tokens : Z
}.

Record http_request : Type := mk_request {
  req_url : str;
  req_headers : list (str * str);
  req_json : chat_payload;
  req_timeout : float
}.

(** What the transport hands back: the status, the body, and the outcome of
    [response.json()["choices"][0]["message"]["content"]] (which raises on
    a body of another shape). *)
Record http_response : Type := mk_response {
  status_code : Z;
  resp_text : str;
  resp_content : result str
}.

(** A record of the vector index, as [store_document_embeddings] builds it. *)
Record vector_record : Type := mk_record {
  rec_id : str;
  rec_values : vector;
  rec_metadata : dict
}.

(** The arguments of [index.query]. *)
Record query_args : Type := mk_query {
  q_vector : vector;
  q_top_k : Z;
  q_filter : option Z;          (* {"document_id": {"$eq": id}} or absent *)
  q_include_metadata : bool;
  q_include_values : option bool  (* absent when the caller does not pass it *)
}.

(** The metadata of a match, for the two keys the chat reads. *)
Record match_metadata : Type := mk_meta {
  meta_text : option str;
  meta_chunk_index : option Z
}.

(** One match of a query; an absent key is [None]. *)
Record index_match : Type := mk_match {
  m_score : option float;
  m_metadata : option match_metadata
}.

Record query_response : Type := mk_query_response {
  r_matches : option (list index_match)
}.

(** A call made to a collaborator, with what it returned. *)
Inductive event : Type :=
| EvEncode (texts : list str) (r : result (list vector))
| EvSplit (text : str) (r : result (list str))
| EvUpsert (batch : list vector_record) (r : result unit)
| EvQuery (q : query_args) (r : result query_response)
| EvSleep (seconds : Z)
| EvPost (req : http_request) (r : result http_response).

(** The collaborators, as transitions of a world [W]. *)
Record Env (W : Type) : Type := mk_env {
  encode : list str -> W -> result (list vector) * W;
  split_text : str -> W -> result (list str) * W;
  index_upsert : list vector_record -> W -> result unit * W;
  index_query : query_args -> W -> result query_response * W;
  http_post : http_request -> W -> result http_response * W;
  time_time : W -> float * W;
  time_sleep : Z -> W -> W;
  json_loads : str -> result pyval
}.
Arguments mk_env {W}.
Arguments encode {W}.
Arguments split_text {W}.
Arguments index_upsert {W}.
Arguments index_query {W}.
Arguments http_post {W}.
Arguments time_time {W}.
Arguments time_sleep {W}.
Arguments json_loads {W}.

(* ================================================================== *)
(** ** The state-and-error monad *)
(* ================================================================== *)

Record state (W : Type) : Type := mk_state {
  world : W;
  trace : list event
}.
Arguments mk_state {W}.
Arguments world {W}.
Arguments trace {W}.

Definition M (W A : Type) : Type := state W -> result A * state W.

Definition ret {W A} (a : A) : M W A := fun s => (Ok a, s).

Definition raise {W A} (e : exn) : M W A := fun s => (Raise e, s).

Definition bind {W A B} (c : M W A) (k : A -> M W B) : M W B :=
  fun s =>
    match c s with
    | (Ok a, s') => k a s'
    | (Raise e, s') => (Raise e, s')
    end.

(** [try: c except Exception as e: h e] *)
Definition try_except {W A} (c : M W A) (h : exn -> M W A) : M W A :=
  fun s =>
    match c s with
    | (Ok a, s') => (Ok a, s')
    | (Raise e, s') => h e s'
    end.

Declare Scope monad_scope.
Delimit Scope monad_scope with monad.
Notation "x <- c ;; k" := (bind c (fun x => k))
  (at level 61, c at next level, right associativity) : monad_scope.
Notation "c ;;; k" := (bind c (fun _ => k))
  (at level 61, right associativity) : monad_scope.
Local Open Scope monad_scope.

Section Collaborators.

Context {W : Type} (env : Env W).

(** A call that may raise: run it on the world and log it. *)
Definition call {A} (f : W -> result A * W) (ev : result A -> event) : M W A :=
  fun s =>
    let '(r, w') := f (world s) in
    (r, mk_state w' (trace s ++ [ev r])).

Definition do_encode (texts : list str) : M W (list vector) :=
  call (encode env texts) (EvEncode texts).

Definition do_split (text : str) : M W (list str) :=
  call (split_text env text) (EvSplit text).

Definition do_upsert (batch : list vector_record) : M W unit :=
  call (index_upsert env batch) (EvUpsert batch).

Definition do_query (q : query_args) : M W query_response :=
  call (index_query env q) (EvQuery q).

Definition do_post (req : http_request) : M W http_response :=
  call (http_post env req) (EvPost req).

(** [time.time()] *)
Definition now : M W float :=
  fun s =>
    let '(t, w') := time_time env (world s) in
    (Ok t, mk_state w' (trace s)).

(** [time.sleep(n)] *)
Definition sleep (n : Z) : M W unit :=
  fun s => (Ok tt, mk_state (time_sleep env n (world s)) (trace s ++ [EvSleep n])).

(** [json.loads(raw)] *)
Definition do_json_loads (raw : str) : M W pyval :=
  fun s => (json_loads env raw, s).

End Collaborators.

(* ================================================================== *)
(** ** Small Python idioms *)
(* ================================================================== *)

(** Truth value of a string or a list: it is not empty. *)
Definition nonempty {A} (l : list A) : bool :=
  match l with [] => false | _ :: _ => true end.

(** Truth value of an optional handle: it is not [None]. *)
Definition is_some {A} (o : option A) : bool :=
  match o with Some _ => true | None => false end.

(** [o.get(key, default)] on an optional key. *)
Definition get_default {A} (o : option A) (default : A) : A :=
  match o with Some a => a | None => default end.

(** [l[i:j]] for [0 <= i], [0 <= j]. *)
Definition slice {A} (i j : nat) (l : list A) : list A := firstn (j - i) (skipn i l).

(** [range(start, stop, step)] for a positive step. *)
Definition range_step (start stop step : nat) : list nat :=
  map (fun k => start + k * step) (seq 0 ((stop - start + (step - 1)) / step)).

(** Lines joined by a newline, as a triple-quoted literal spells them. *)
Definition lines (ls : list str) : str := join [NL] ls.

(** Truth value of a float: it is not zero (a NaN is true). *)
Definition float_truthy (x : float) : bool := negb (PrimFloat.eqb x 0).

(** [any(vec_list)] *)
Definition any_truthy (v : vector) : bool := existsb float_truthy v.

(* ================================================================== *)
(** ** Results *)
(* ================================================================== *)

(** One cited source of a chat answer. *)
Record source : Type := mk_source { chunk_index : Z; score : float }.

(** The dictionary returned by [chat_with_document]. *)
Record ChatAnswer : Type := mk_answer {
  answer : str;
  sources : list source;
  response_time : float
}.

Definition K_SUMMARY : str := lit "summary".
Definition K_KEY_POINTS : str := lit "key_points".
Definition K_CLAUSES : str := lit "clauses".
Definition K_RISKS : str := lit "risks".
Definition K_RECOMMENDATIONS : str := lit "recommendations".
Definition K_PROCESSING_TIME : str := lit "processing_time".
Definition K_ERROR : str := lit "error".

(** [_fallback_analysis] *)
Definition _fallback_analysis : dict :=
  [ (K_SUMMARY, VStr (lit "Analysis unavailable. Manual legal review required."));
    (K_KEY_POINTS, VList []);
    (K_CLAUSES, VList []);
    (K_RISKS, VList []);
    (K_RECOMMENDATIONS, VList [VStr (lit "Manual legal review required")]);
    (K_PROCESSING_TIME, VFloat 0) ].

Definition ANSWER_NO_INDEX : str :=
  lit "Vector database is not configured. Please check the AI configuration.".
Definition ANSWER_NO_MODEL : str :=
  lit "AI model is not configured. Please check the AI configuration.".
Definition ANSWER_NO_EMBEDDING : str :=
  lit "Failed to process your question. Please try again.".
Definition ANSWER_INSUFFICIENT : str :=
  lit "I cannot find sufficient information in the document to answer this question. The document may not contain relevant information or the embeddings may need to be regenerated.".
Definition ANSWER_ERROR : str :=
  lit "An error occurred while processing your request. Please try again.".

(** The system prompt of [analyze_document]. *)
Definition analysis_system_prompt : str :=
  lines
    [ lit "You are a legal document analysis expert. Analyze the legal document and return STRICT JSON format with the following structure:";
      lit "{";
      lit "  " ++ quoted (lit "summary") ++ lit ": " ++ quoted (lit "string") ++ lit ",";
      lit "  " ++ quoted (lit "key_points") ++ lit ": [" ++ quoted (lit "string") ++ lit "],";
      lit "  " ++ quoted (lit "clauses") ++ lit ": [],";
      lit "  " ++ quoted (lit "risks") ++ lit ": [],";
      lit "  " ++ quoted (lit "recommendations") ++ lit ": []";
      lit "}";
      [];
      lit "Return ONLY the JSON object, no additional text." ].

(** The system prompt of [chat_with_document]. *)
Definition chat_system_prompt : str :=
  lines
    [ lit "You are a helpful legal document assistant. Answer questions based STRICTLY on the provided context from a legal document.";
      [];
      lit "IMPORTANT RULES:";
      lit "1. Use ONLY the information in the provided context";
      lit "2. If the context has the answer, provide it clearly";
      lit "3. If you cannot find the answer in the context, say: "
        ++ quoted (lit "Based on the provided context, I cannot find specific information about [topic].");
      lit "4. Do NOT make up any information";
      lit "5. Keep answers concise but complete" ].

(** The user prompt of [chat_with_document]. *)
Definition chat_user_prompt (context question : str) : str :=
  lines
    [ lit "Here is context from a legal document:";
      [];
      context;
      [];
      lit "Based ONLY on the context above, answer this question:";
      [];
      question;
      [];
      lit "Remember:";
      lit "- Answer using ONLY the information from the context";
      lit "- If the answer isn't in the context, say so";
      lit "- Be specific and accurate" ].

Definition FENCE : str := lit "```".
Definition FENCE_JSON : str := lit "```json".

(** [re.sub] with the pattern [^```json|```$] and the empty replacement, on a
    stripped [raw]: the opening fence with its language tag goes when [raw]
    starts with it, and a closing fence goes when what is left ends with
    it. *)
Definition re_sub_fence (raw : str) : str :=
  let rest := if startswith FENCE_JSON raw then skipn (length FENCE_JSON) raw else raw in
  if endswith FENCE rest then firstn (length rest - length FENCE) rest else rest.

(** The cleaning of the model's response in [analyze_document]: strip it
    and, when it opens with a code fence, remove the fence. *)
Definition clean_response (response_text : str) : str :=
  let raw := strip response_text in
  if startswith FENCE raw then strip (re_sub_fence raw) else raw.

(** [text[:5000] if len(text) > 5000 else text] *)
Definition truncate_text (text : str) : str :=
  if (5000 <? len text)%Z then firstn 5000 text else text.

(** The [messages] of [analyze_document]. *)
Definition analysis_messages (truncated_text : str) : list message :=
  let system_prompt := analysis_system_prompt in
  let user_prompt := lit "Document to analyze:" ++ [NL] ++ truncated_text in
  [ mk_message (lit "system") system_prompt;
    mk_message (lit "user") user_prompt ].

(** The [messages] of [chat_with_document]. *)
Definition chat_messages (context question : str) : list message :=
  let system_prompt := chat_system_prompt in
  let user_prompt := chat_user_prompt context question in
  [ mk_message (lit "system") system_prompt;
    mk_message (lit "user") user_prompt ].

(** The similarity a match must exceed to be used. *)
Definition SCORE_THRESHOLD : float := 0.3%float.

(** [a > b] on floats. *)
Definition float_gtb (a b : float) : bool := PrimFloat.ltb b a.

Definition empty_metadata : match_metadata := mk_meta None None.

(** [match.get('score', 0)] *)
Definition match_score (m : index_match) : float := get_default (m_score m) 0%float.

(** [match.get('metadata', {}).get('text', '')] *)
Definition match_text (m : index_match) : str :=
  get_default (meta_text (get_default (m_metadata m) empty_metadata)) [].

(** [match.get('metadata', {}).get('chunk_index', 0)] *)
Definition match_chunk_index (m : index_match) : Z :=
  get_default (meta_chunk_index (get_default (m_metadata m) empty_metadata)) 0%Z.

(** The test [score > 0.3 and chunk_text]. *)
Definition usable (m : index_match) : bool :=
  float_gtb (match_score m) SCORE_THRESHOLD && nonempty (match_text m).

(** The loop that builds [context_chunks] and [sources] from the matches. *)
Fixpoint collect_context (matches : list index_match)
    (context_chunks : list str) (sources : list source) : list str * list source :=
  match matches with
  | [] => (context_chunks, sources)
  | m :: rest =>
      if usable m then
        collect_context rest
          (context_chunks ++ [match_text m])
          (sources ++ [mk_source (match_chunk_index m) (match_score m)])
      else collect_context rest context_chunks sources
  end.

(** The loop of [_embed] over the raw vectors. *)
Fixpoint validate_vectors (vectors : list vector) (final_vectors : list vector)
    : list vector :=
  match vectors with
  | [] => final_vectors
  | vec_list :: rest =>
      if negb (any_truthy vec_list) then validate_vectors rest final_vectors
      else if negb (length vec_list =? embedding_dim)%nat
           then validate_vectors rest final_vectors
           else validate_vectors rest (final_vectors ++ [vec_list])
  end.

(** The record [store_document_embeddings] prepares for chunk [i]. *)
Definition make_record (document_id : Z) (metadata : dict) (i : nat)
    (chunk : str) (vec : vector) : vector_record :=
  let clean_chunk := strip (replace_char NL SPACE chunk) in
  mk_record
    (lit "doc-" ++ str_of_Z document_id ++ lit "-chunk-" ++ str_of_Z (Z.of_nat i))
    vec
    (dict_update
       [ (lit "document_id", VInt document_id);
         (lit "chunk_index", VInt (Z.of_nat i));
         (lit "text", VStr (firstn 800 clean_chunk));
         (lit "chunk_length", VInt (len chunk)) ]
       metadata).

(** The loop of [store_document_embeddings] over [enumerate(zip(chunks, vectors))]. *)
Fixpoint build_payload (document_id : Z) (metadata : dict) (i : nat)
    (pairs : list (str * vector)) (payload : list vector_record) : list vector_record :=
  match pairs with
  | [] => payload
  | (chunk, vec) :: rest =>
      build_payload document_id metadata (S i) rest
        (payload ++ [make_record document_id metadata i chunk vec])
  end.

Definition BATCH_SIZE : nat := 50.

(** The query that checks the upload: one match at most, scoped to the
    document, from its first vector. *)
Definition verification_query (document_id : Z) (vectors : list vector) : query_args :=
  mk_query
    (if nonempty vectors then hd [] vectors else repeat 0%float embedding_dim)
    1 (Some document_id) false None.

(* ================================================================== *)
(** ** The methods of [AIProcessor] *)
(* ================================================================== *)

Section Methods.

Context {W : Type} (env : Env W) (self : AIProcessor).

(** [for x in xs: body x] *)
Fixpoint for_each {A} (xs : list A) (body : A -> M W unit) : M W unit :=
  match xs with
  | [] => ret tt
  | x :: rest => body x ;;; for_each rest body
  end.

(** [_embed] *)
Definition _embed (texts : list str) : M W (list vector) :=
  if negb (nonempty texts) then ret []
  else
    vectors <- do_encode env texts ;;
    ret (validate_vectors vectors []).

(** [_call_groq_api] *)
Definition _call_groq_api (messages : list message) (temperature : float) : M W str :=
  match client self with
  | None => raise (mk_exn RuntimeError (lit "Groq client not initialized"))
  | Some c =>
      let headers :=
        [ (lit "Authorization", lit "Bearer " ++ api_key c);
          (lit "Content-Type", lit "application/json") ] in
      let payload := mk_payload (model c) messages temperature 4000 in
      try_except
        (response <- do_post env
           (mk_request (base_url c ++ lit "/chat/completions") headers payload (timeout c)) ;;
         if negb (status_code response =? 200)%Z then
           let error_msg :=
             lit "Groq API error " ++ str_of_Z (status_code response)
             ++ lit ": " ++ resp_text response in
           raise (mk_exn RuntimeError error_msg)
         else
           match resp_content response with
           | Ok text => ret text
           | Raise e => raise e
           end)
        (fun e =>
           if is_timeout e
           then raise (mk_exn RuntimeError (lit "AI service timeout. Please try again."))
           else raise e)
  end.

(** The [setdefault] loop of [analyze_document]. *)
Definition backfill (data : dict) : dict :=
  fold_left
    (fun d key =>
       dict_setdefault key (if negb (str_eqb key K_SUMMARY) then VList [] else VStr []) d)
    [K_SUMMARY; K_KEY_POINTS; K_CLAUSES; K_RISKS; K_RECOMMENDATIONS]
    data.

(** The body of the [try] of [analyze_document]. *)
Definition analyze_attempt (truncated_text : str) (start : float) : M W dict :=
  let messages := analysis_messages truncated_text in
  response_text <- _call_groq_api messages 0.1%float ;;
  let raw := clean_response response_text in
  data <- do_json_loads env raw ;;
  match data with
  | VDict d =>
      let d := backfill d in
      t <- now env ;;
      ret (dict_set K_PROCESSING_TIME (VFloat (PrimFloat.sub t start)) d)
  | other => raise (no_attribute other (lit "setdefault"))
  end.

(** The two [except] clauses of [analyze_document]. *)
Definition analyze_handler (start : float) (e : exn) : M W dict :=
  let fallback := _fallback_analysis in
  t <- now env ;;
  let fallback := dict_set K_PROCESSING_TIME (VFloat (PrimFloat.sub t start)) fallback in
  if is_json_decode_error e then
    ret (dict_set K_ERROR (VStr (lit "AI response parsing failed: " ++ exn_msg e)) fallback)
  else
    ret (dict_set K_ERROR (VStr (exn_msg e)) fallback).

(** [analyze_document] *)
Definition analyze_document (text : str) : M W dict :=
  if negb (is_some (client self)) || negb (nonempty (strip text)) then
    ret _fallback_analysis
  else
    start <- now env ;;
    let truncated_text := truncate_text text in
    try_except (analyze_attempt truncated_text start) (analyze_handler start).

(** The upload loop of [store_document_embeddings]. *)
Definition upload_batches (payload : list vector_record) : M W unit :=
  let batch_size := BATCH_SIZE in
  for_each (range_step 0 (length payload) batch_size)
    (fun i =>
       let batch := slice i (i + batch_size) payload in
       do_upsert env batch).

(** The inner [try] of [store_document_embeddings]: upload, wait, verify. *)
Definition upload_and_verify (document_id : Z) (vectors : list vector)
    (payload : list vector_record) : M W bool :=
  upload_batches payload ;;;
  sleep env 2 ;;;
  test_query <- do_query env (verification_query document_id vectors) ;;
  if nonempty (get_default (r_matches test_query) []) then ret true else ret false.

(** The outer [try] of [store_document_embeddings]. *)
Definition store_attempt (document_id : Z) (text : str) (metadata : dict) : M W bool :=
  chunks <- do_split env text ;;
  if (len chunks =? 0)%Z then ret false
  else
    vectors <- _embed chunks ;;
    if (len vectors =? 0)%Z then ret false
    else
      let '(vectors, chunks) :=
        if negb (len vectors =? len chunks)%Z then
          let min_len := Nat.min (length vectors) (length chunks) in
          (firstn min_len vectors, firstn min_len chunks)
        else (vectors, chunks) in
      let payload := build_payload document_id metadata 0 (combine chunks vectors) [] in
      let successful_vectors := len payload in
      if (successful_vectors =? 0)%Z then ret false
      else
        try_except (upload_and_verify document_id vectors payload)
                   (fun _ => ret false).

(** [store_document_embeddings] *)
Definition store_document_embeddings (document_id : Z) (text : str) (metadata : dict)
    : M W bool :=
  if negb (is_some (index self)) then ret false
  else if negb (nonempty text) || negb (nonempty (strip text)) then ret false
  else try_except (store_attempt document_id text metadata) (fun _ => ret false).

(** The scoped query of [chat_with_document]. *)
Definition scoped_query (document_id : Z) (query_vec : vector) : query_args :=
  mk_query query_vec 8 (Some document_id) true (Some false).

(** The query without a filter it falls back to. *)
Definition unscoped_query (query_vec : vector) : query_args :=
  mk_query query_vec 5 None true (Some false).

(** The retrieval step of [chat_with_document]: the [try] around the scoped
    query and, in its handler, the [try] around the unscoped one.  (The loop
    that logs the first five matches inside the first [try] reads their score
    and text with defaults and has no effect.) *)
Definition retrieve_matches (document_id : Z) (query_vec : vector)
    : M W (list index_match) :=
  try_except
    (results <- do_query env (scoped_query document_id query_vec) ;;
     ret (get_default (r_matches results) []))
    (fun _ =>
       try_except
         (results <- do_query env (unscoped_query query_vec) ;;
          ret (get_default (r_matches results) []))
         (fun _ => ret [])).

(** [time.time() - start] *)
Definition elapsed (start : float) : M W float :=
  t <- now env ;; ret (PrimFloat.sub t start).

(** [chat_with_document] from the context-building loop to the answer. *)
Definition answer_from_matches (question : str) (temperature start : float)
    (matches : list index_match) : M W ChatAnswer :=
  let '(context_chunks, sources) := collect_context matches [] [] in
  let context := join [NL; NL] context_chunks in
  if negb (nonempty context) || (len (strip context) <? 50)%Z then
    t <- elapsed start ;;
    ret (mk_answer ANSWER_INSUFFICIENT [] t)
  else
    let messages := chat_messages context question in
    response_text <- _call_groq_api messages temperature ;;
    response_time <- elapsed start ;;
    ret (mk_answer response_text (firstn 5 sources) response_time).

(** The body of the [try] of [chat_with_document]. *)
Definition chat_attempt (document_id : Z) (question : str) (temperature start : float)
    : M W ChatAnswer :=
  if negb (is_some (index self)) then
    t <- elapsed start ;;
    ret (mk_answer ANSWER_NO_INDEX [] t)
  else if negb (is_some (client self)) then
    t <- elapsed start ;;
    ret (mk_answer ANSWER_NO_MODEL [] t)
  else
    query_vectors <- _embed [question] ;;
    match query_vectors with
    | [] =>
        t <- elapsed start ;;
        ret (mk_answer ANSWER_NO_EMBEDDING [] t)
    | query_vec :: _ =>
        matches <- retrieve_matches document_id query_vec ;;
        answer_from_matches question temperature start matches
    end.

(** The [except Exception] of [chat_with_document]. *)
Definition chat_handler (start : float) (e : exn) : M W ChatAnswer :=
  t <- elapsed start ;;
  ret (mk_answer ANSWER_ERROR [] t).

(** [chat_with_document] *)
Definition chat_with_document (document_id : Z) (question : str) (temperature : float)
    : M W ChatAnswer :=
  start <- now env ;;
  try_except (chat_attempt document_id question temperature start)
             (chat_handler start).

End Methods.


(* ================================================================== *)
(** ** Notions used in the statements *)
(* ================================================================== *)

(** A string made of white space only (the empty string included). *)
Definition blank (s : str) : Prop := Forall (fun c => is_space c = true) s.

(** The validation loop keeps, in order, the vectors that pass both tests. *)
Definition valid_vector (v : vector) : bool :=
  any_truthy v && (length v =? embedding_dim)%nat.

(** A vector all of whose components compare equal to zero. *)
Definition all_zero (v : vector) : Prop := Forall (fun x => PrimFloat.eqb x 0 = true) v.

Definition source_of (m : index_match) : source :=
  mk_source (match_chunk_index m) (match_score m).

(** The requests sent to the generative model, in order. *)
Fixpoint model_calls (tr : list event) : list http_request :=
  match tr with
  | [] => []
  | EvPost req _ :: rest => req :: model_calls rest
  | _ :: rest => model_calls rest
  end.

(** The queries sent to the vector index, in order. *)
Fixpoint index_queries (tr : list event) : list query_args :=
  match tr with
  | [] => []
  | EvQuery q _ :: rest => q :: index_queries rest
  | _ :: rest => index_queries rest
  end.

(** Matches in descending order of score: each one scores at least as much
    as every later one. *)
Definition matches_descending (ms : list index_match) : Prop :=
  StronglySorted (fun a b => PrimFloat.leb (match_score b) (match_score a) = true) ms.

(** Sources in descending order of score. *)
Definition sources_descending (ss : list source) : Prop :=
  StronglySorted (fun a b => PrimFloat.leb (score b) (score a) = true) ss.

(** The chat call started in [s] got as far as the context-building loop:
    both services are configured, the clock read [start], the question was
    embedded, and the retrieval step handed over [matches], leaving the
    state [s2]. *)
Definition reaches_context {W : Type} (env : Env W) (self : AIProcessor)
    (document_id : Z) (question : str) (s : state W)
    (start : float) (matches : list index_match) (s2 : state W) : Prop :=
  index self <> None /\ client self <> None /\
  exists s0 query_vec others s1,
    now env s = (Ok start, s0)
    /\ _embed env [question] s0 = (Ok (query_vec :: others), s1)
    /\ retrieve_matches env document_id query_vec s1 = (Ok matches, s2).

(** The context the chat assembles from the matches: the value of its
    variable [context]. *)
Definition context_of (matches : list index_match) : str :=
  join [NL; NL] (fst (collect_context matches [] [])).

(** The default [analyze_document] gives a missing key. *)
Definition default_for (key : str) : pyval :=
  if str_eqb key K_SUMMARY then VStr [] else VList [].

(** The keys of the model's answer that [analyze_document] backfills. *)
Definition analysis_keys : list str :=
  [K_SUMMARY; K_KEY_POINTS; K_CLAUSES; K_RISKS; K_RECOMMENDATIONS].

(** The keys every analysis result carries. *)
Definition result_keys : list str := analysis_keys ++ [K_PROCESSING_TIME].

(** The text of the [error] field for an exception. *)
Definition error_text (e : exn) : str :=
  if is_json_decode_error e then lit "AI response parsing failed: " ++ exn_msg e
  else exn_msg e.

(** The fallback result with the elapsed time and an [error] field. *)
Definition degraded (processing_time : float) (e : exn) : dict :=
  [ (K_SUMMARY, VStr (lit "Analysis unavailable. Manual legal review required."));
    (K_KEY_POINTS, VList []);
    (K_CLAUSES, VList []);
    (K_RISKS, VList []);
    (K_RECOMMENDATIONS, VList [VStr (lit "Manual legal review required")]);
    (K_PROCESSING_TIME, VFloat processing_time);
    (K_ERROR, VStr (error_text e)) ].

(** The batches the upload loop sends, in order. *)
Definition batches_of (payload : list vector_record) : list (list vector_record) :=
  map (fun i => slice i (i + BATCH_SIZE) payload)
      (range_step 0 (length payload) BATCH_SIZE).

(** The vectors [store_document_embeddings] goes on with: the valid ones
    among the raw vectors, cut to the number of chunks. *)
Definition stored_vectors (chunks : list str) (raw : list vector) : list vector :=
  let vectors := filter valid_vector raw in
  firstn (Nat.min (length vectors) (length chunks)) vectors.

(** The chunks it goes on with, cut to the number of valid vectors. *)
Definition stored_chunks (chunks : list str) (raw : list vector) : list str :=
  let vectors := filter valid_vector raw in
  firstn (Nat.min (length vectors) (length chunks)) chunks.

(** The records it uploads. *)
Definition payload_of (document_id : Z) (metadata : dict)
    (chunks : list str) (raw : list vector) : list vector_record :=
  build_payload document_id metadata 0
    (combine (stored_chunks chunks raw) (stored_vectors chunks raw)) [].

(* ================================================================== *)
(** ** Concrete collaborators, for running the methods *)
(* ================================================================== *)

(** A scripted environment: the world is the clock, each reading of which
    advances it by one second; the other collaborators answer as scripted. *)
Record script : Type := mk_script {
  sc_encode : list str -> result (list vector);
  sc_split : str -> result (list str);
  sc_upsert : result unit;
  sc_scoped : result query_response;
  sc_unscoped : result query_response;
  sc_post : result http_response;
  sc_json : str -> result pyval
}.

Definition scripted (sc : script) : Env float :=
  mk_env
    (fun texts w => (sc_encode sc texts, w))
    (fun text w => (sc_split sc text, w))
    (fun _ w => (sc_upsert sc, w))
    (fun q w => (if is_some (q_filter q) then sc_scoped sc else sc_unscoped sc, w))
    (fun _ w => (sc_post sc, w))
    (fun w => (w, PrimFloat.add w 1))
    (fun _ w => w)
    (sc_json sc).

Definition unit_vector : vector := 1%float :: repeat 0%float 767.
Definition zero_vector : vector := repeat 0%float 768.
Definition short_vector : vector := [1%float; 0%float].

Definition initial : state float := mk_state 0%float [].

Definition demo_client : groq_client :=
  mk_client (lit "key") (lit "https://api.groq.com/openai/v1") (lit "llama") 60%float.

Definition configured : AIProcessor :=
  mk_processor (Some demo_client) (Some (mk_index (lit "legal-docs"))).

Definition unconfigured : AIProcessor := mk_processor None None.

Definition no_such_service : exn := mk_exn OtherException (lit "connection refused").

(** A chunk of sixty characters. *)
Definition long_text (c : char) : str := repeat c 60.

Definition match_of (s : float) (i : Z) (text : str) : index_match :=
  mk_match (Some s) (Some (mk_meta (Some text) (Some i))).

Definition reply (text : str) : result http_response :=
  Ok (mk_response 200 [] (Ok text)).

Definition base_script : script :=
  mk_script
    (fun texts => Ok (map (fun _ => unit_vector) texts))
    (fun text => Ok [text])
    (Ok tt)
    (Ok (mk_query_response (Some [])))
    (Ok (mk_query_response (Some [])))
    (reply (lit "The notice period is thirty days."))
    (fun _ => Ok (VDict [])).

(** The embedding model returns a good vector, a zero one and a short one. *)
Definition mixed_encode_script : script :=
  mk_script
    (fun _ => Ok [unit_vector; zero_vector; short_vector])
    (sc_split base_script) (sc_upsert base_script) (sc_scoped base_script)
    (sc_unscoped base_script) (sc_post base_script) (sc_json base_script).

Definition with_scoped (r : result query_response) (sc : script) : script :=
  mk_script (sc_encode sc) (sc_split sc) (sc_upsert sc) r
            (sc_unscoped sc) (sc_post sc) (sc_json sc).

Definition with_unscoped (r : result query_response) (sc : script) : script :=
  mk_script (sc_encode sc) (sc_split sc) (sc_upsert sc) (sc_scoped sc)
            r (sc_post sc) (sc_json sc).

Definition with_post (r : result http_response) (sc : script) : script :=
  mk_script (sc_encode sc) (sc_split sc) (sc_upsert sc) (sc_scoped sc)
            (sc_unscoped sc) r (sc_json sc).

Definition found (ms : list index_match) : result query_response :=
  Ok (mk_query_response (Some ms)).

(** Matches in descending order of score, the last one below the threshold. *)
Definition ranked_matches : list index_match :=
  [ match_of 0.9%float 0 (long_text 97%N); match_of 0.5%float 1 (long_text 98%N);
    match_of 0.2%float 2 (long_text 99%N) ].

(** Matches the index returns out of order. *)
Definition unranked_matches : list index_match :=
  [ match_of 0.5%float 0 (long_text 97%N); match_of 0.9%float 1 (long_text 98%N) ].

(** One match whose text is too short to answer from. *)
Definition thin_matches : list index_match := [ match_of 0.9%float 0 (lit "Clause 1.") ].

Definition ranked_script : script := with_scoped (found ranked_matches) base_script.
Definition unranked_script : script := with_scoped (found unranked_matches) base_script.
Definition thin_script : script := with_scoped (found thin_matches) base_script.

(** The model is unreachable. *)
Definition model_down_script : script := with_post (Raise no_such_service) ranked_script.

(** The scoped query fails, the unscoped one answers. *)
Definition filter_rejected_script : script :=
  with_unscoped (found ranked_matches) (with_scoped (Raise no_such_service) base_script).

Definition the_question : str := lit "What is the notice period?".

(** The state of a scripted chat after the clock was read and the question
    embedded. *)
Definition after_embed (sc : script) (question : str) : state float :=
  snd (_embed (scripted sc) [question] (mk_state 1%float [])).

Definition lease_text : str := lit "Lease agreement between the parties.".

(** The model answers with an object that has a summary only, in a fence. *)
Definition fenced_reply : str :=
  lit "```json" ++ [NL] ++ lit "{" ++ quoted (lit "summary") ++ lit ": "
  ++ quoted (lit "A lease.") ++ lit "}" ++ [NL] ++ lit "```".

Definition with_json (f : str -> result pyval) (sc : script) : script :=
  mk_script (sc_encode sc) (sc_split sc) (sc_upsert sc) (sc_scoped sc)
            (sc_unscoped sc) (sc_post sc) f.

Definition summary_only_script : script :=
  with_json (fun _ => Ok (VDict [(K_SUMMARY, VStr (lit "A lease."))]))
            (with_post (reply fenced_reply) base_script).

Definition bad_json_script : script :=
  with_json (fun _ => Raise (mk_exn JSONDecodeError (lit "Expecting value: line 1 column 1 (char 0)")))
            base_script.

(** The index confirms the upload. *)
Definition stored_script : script :=
  with_scoped (found [mk_match (Some 1%float) None]) base_script.

From Stdlib Require DecimalPos DecimalZ.

(* ================================================================== *)
(** ** Further notions: requests, footprints *)
(* ================================================================== *)

(** The request [_call_groq_api] builds for a client. *)
Definition groq_request (c : groq_client) (messages : list message)
    (temperature : float) : http_request :=
  mk_request
    (base_url c ++ lit "/chat/completions")
    [ (lit "Authorization", lit "Bearer " ++ api_key c);
      (lit "Content-Type", lit "application/json") ]
    (mk_payload (model c) messages temperature 4000)
    (timeout c).

(** The exception [_call_groq_api] raises for a transport time-out. *)
Definition timeout_error : exn :=
  mk_exn RuntimeError (lit "AI service timeout. Please try again.").

(** What the [except] clauses of [_call_groq_api] do with an exception. *)
Definition translate_exn (e : exn) : exn :=
  if is_timeout e then timeout_error else e.

(** The outcome of [_call_groq_api] for an outcome of the transport. *)
Definition groq_outcome (r : result http_response) : result str :=
  match r with
  | Ok resp =>
      if negb (status_code resp =? 200)%Z then
        Raise (mk_exn RuntimeError
                 (lit "Groq API error " ++ str_of_Z (status_code resp)
                  ++ lit ": " ++ resp_text resp))
      else
        match resp_content resp with
        | Ok text => Ok text
        | Raise e => Raise (translate_exn e)
        end
  | Raise e => Raise (translate_exn e)
  end.

(** The calls made to the embedding model, in order. *)
Fixpoint encode_calls (tr : list event) : list (list str) :=
  match tr with
  | [] => []
  | EvEncode texts _ :: rest => texts :: encode_calls rest
  | _ :: rest => encode_calls rest
  end.

(** The batches sent to the index for writing, in order. *)
Fixpoint index_writes (tr : list event) : list (list vector_record) :=
  match tr with
  | [] => []
  | EvUpsert batch _ :: rest => batch :: index_writes rest
  | _ :: rest => index_writes rest
  end.

(** An upsert that raised. *)
Definition failed_upsert (ev : event) : bool :=
  match ev with
  | EvUpsert _ (Raise _) => true
  | _ => false
  end.

(** A stretch of trace made of at most [e] calls to the embedding model,
    [q] queries to the index and [m] requests to the generative model, and
    of nothing else. *)
Definition within (e q m : nat) (evs : list event) : Prop :=
  length (encode_calls evs) <= e
  /\ length (index_queries evs) <= q
  /\ length (model_calls evs) <= m
  /\ length evs
     = length (encode_calls evs) + length (index_queries evs) + length (model_calls evs).

(** The embedding model finds no usable vector. *)
Definition zero_encode_script : script :=
  mk_script
    (fun _ => Ok [zero_vector])
    (sc_split base_script) (sc_upsert base_script) (sc_scoped base_script)
    (sc_unscoped base_script) (sc_post base_script) (sc_json base_script).


(** A string that [strip] leaves as it is. *)
Definition stripped (s : str) : Prop := strip s = s.

(** The JSON text of an object with a summary. *)
Definition summary_json : str :=
  lit "{" ++ quoted (lit "summary") ++ lit ": " ++ quoted (lit "A lease.") ++ lit "}".

(** An upsert that went through. *)
Definition uploaded (batch : list vector_record) : event := EvUpsert batch (Ok tt).

(** What the verification query says. *)
Definition verdict (o : result query_response) : bool :=
  match o with
  | Ok resp => nonempty (get_default (r_matches resp) [])
  | Raise _ => false
  end.

(** The seven things one call of [store_document_embeddings] can do: the
    events it adds to the trace and the boolean it returns. *)
Inductive store_shape (document_id : Z) (text : str) (metadata : dict)
    : list event -> bool -> Prop :=
| shape_idle :
    store_shape document_id text metadata [] false
| shape_split_raised (e : exn) :
    store_shape document_id text metadata [EvSplit text (Raise e)] false
| shape_no_chunks :
    store_shape document_id text metadata [EvSplit text (Ok [])] false
| shape_encode_raised (chunks : list str) (e : exn) :
    chunks <> [] ->
    store_shape document_id text metadata
      [EvSplit text (Ok chunks); EvEncode chunks (Raise e)] false
| shape_no_vectors (chunks : list str) (raw : list vector) :
    chunks <> [] ->
    filter valid_vector raw = [] ->
    store_shape document_id text metadata
      [EvSplit text (Ok chunks); EvEncode chunks (Ok raw)] false
| shape_upload_failed (chunks : list str) (raw : list vector)
    (before : list (list vector_record)) (batch : list vector_record)
    (after : list (list vector_record)) (e : exn) :
    chunks <> [] ->
    batches_of (payload_of document_id metadata chunks raw) = before ++ batch :: after ->
    store_shape document_id text metadata
      ([EvSplit text (Ok chunks); EvEncode chunks (Ok raw)]
       ++ map uploaded before ++ [EvUpsert batch (Raise e)])
      false
| shape_verified (chunks : list str) (raw : list vector) (o : result query_response) :
    chunks <> [] ->
    payload_of document_id metadata chunks raw <> [] ->
    store_shape document_id text metadata
      ([EvSplit text (Ok chunks); EvEncode chunks (Ok raw)]
       ++ map uploaded (batches_of (payload_of document_id metadata chunks raw))
       ++ [EvSleep 2;
           EvQuery (verification_query document_id (stored_vectors chunks raw)) o])
      (verdict o).

(** The second upsert is refused. *)
Definition flaky_upsert_env : Env nat :=
  mk_env
    (fun texts w => (Ok (map (fun _ => unit_vector) texts), w))
    (fun text w => (Ok (repeat text 120), w))
    (fun _ w => (if (w =? 1)%nat then Raise no_such_service else Ok tt, S w))
    (fun _ w => (found [mk_match (Some 1%float) None], w))
    (fun _ w => (Raise no_such_service, w))
    (fun w => (0%float, w))
    (fun _ w => w)
    (fun _ => Ok (VDict [])).

(** The metadata a record gets before the caller's fields are merged in. *)
Definition base_metadata (document_id : Z) (i : nat) (chunk : str) : dict :=
  [ (lit "document_id", VInt document_id);
    (lit "chunk_index", VInt (Z.of_nat i));
    (lit "text", VStr (firstn 800 (strip (replace_char NL SPACE chunk))));
    (lit "chunk_length", VInt (len chunk)) ].

(** One hundred and twenty chunks, their vectors, and the payload made of
    them. *)
Definition many_chunks : list str := repeat lease_text 120.
Definition many_vectors : list vector := repeat unit_vector 120.
Definition many_records : list vector_record := payload_of 7 [] many_chunks many_vectors.

(** Two chunks for which the embedding model gives a zero vector and a good
    one. *)
Definition first_chunk : str := lit "First clause.".
Definition second_chunk : str := lit "Second clause.".

(* ================================================================== *)
(** ** Construction of the processor, deletion of embeddings *)
(* ================================================================== *)

(** The fields of [settings] the processor reads ([core/config.py]); an
    [Optional] one is [None] when unset. *)
Record Settings : Type := mk_settings {
  GROQ_API_KEY : option str;
  GROQ_MODEL : str;
  GROQ_BASE_URL : str;
  PINECONE_API_KEY : option str;
  PINECONE_ENVIRONMENT : option str;
  PINECONE_INDEX_NAME : str
}.

(** Truth value of an optional string: set and not empty. *)
Definition truthy_str (o : option str) : bool :=
  match o with Some s => nonempty s | None => false end.

(** The arguments of [pc.create_index]. *)
Record index_spec : Type := mk_index_spec {
  spec_name : str;
  spec_dimension : nat;
  spec_metric : str;
  spec_cloud : str;
  spec_region : str
}.

(** The two filters [delete_document_embeddings] tries. *)
Inductive delete_filter : Type :=
| FilterPlain (document_id : Z)    (* {"document_id": id} *)
| FilterEq (document_id : Z).      (* {"document_id": {"$eq": id}} *)

(** A call of the construction or of the deletion, with what it returned. *)
Inductive admin_event : Type :=
| AdLoadModel (name : str) (r : result unit)            (* SentenceTransformer(name) *)
| AdConnect (api_key : str) (r : result unit)           (* Pinecone(api_key=key) *)
| AdListIndexes (r : result (list str))                 (* pc.list_indexes().names() *)
| AdCreateIndex (spec : index_spec) (r : result unit)   (* pc.create_index(...) *)
| AdSleep (seconds : Z)                                 (* time.sleep(n) *)
| AdOpenIndex (name : str) (r : result pinecone_index)  (* pc.Index(name) *)
| AdDescribe (r : result unit)                          (* index.describe_index_stats() *)
| AdDelete (f : delete_filter) (r : result unit).       (* index.delete(filter=f) *)

(** The collaborators of the construction and of the deletion. *)
Record AdminEnv (W : Type) : Type := mk_admin {
  load_model : str -> W -> result unit * W;
  pc_connect : str -> W -> result unit * W;
  pc_list_indexes : W -> result (list str) * W;
  pc_create_index : index_spec -> W -> result unit * W;
  pc_open_index : str -> W -> result pinecone_index * W;
  pc_describe_index_stats : W -> result unit * W;
  index_delete : delete_filter -> W -> result unit * W;
  admin_sleep : Z -> W -> W
}.
Arguments mk_admin {W}.
Arguments load_model {W}.
Arguments pc_connect {W}.
Arguments pc_list_indexes {W}.
Arguments pc_create_index {W}.
Arguments pc_open_index {W}.
Arguments pc_describe_index_stats {W}.
Arguments index_delete {W}.
Arguments admin_sleep {W}.

(** A world together with the log of these calls. *)
Record logged (W : Type) : Type := mk_logged {
  inner : W;
  admin_log : list admin_event
}.
Arguments mk_logged {W}.
Arguments inner {W}.
Arguments admin_log {W}.

(** The log of a state. *)
Definition log_of {W : Type} (s : state (logged W)) : list admin_event :=
  admin_log (world s).

Definition EMBEDDING_MODEL_NAME : str := lit "sentence-transformers/all-mpnet-base-v2".

(** [_init_groq]: the client kept in [self.client] ([chat_model] and
    [analysis_model] are its [model]). *)
Definition _init_groq (settings : Settings) : option groq_client :=
  if negb (truthy_str (GROQ_API_KEY settings)) then None
  else
    Some (mk_client (get_default (GROQ_API_KEY settings) [])
                    (GROQ_BASE_URL settings)
                    (GROQ_MODEL settings)
                    60%float).

(** [settings.PINECONE_API_KEY], once it is known to be set. *)
Definition pinecone_key (settings : Settings) : str :=
  get_default (PINECONE_API_KEY settings) [].

Section Construction.

Context {W : Type} (adm : AdminEnv W).

(** A call that may raise: run it on the inner world and log it. *)
Definition admin_call {A} (f : W -> result A * W) (ev : result A -> admin_event)
    : M (logged W) A :=
  fun s =>
    let '(r, w') := f (inner (world s)) in
    (r, mk_state (mk_logged w' (admin_log (world s) ++ [ev r])) (trace s)).

(** [time.sleep(n)] during construction. *)
Definition admin_wait (n : Z) : M (logged W) unit :=
  fun s =>
    (Ok tt,
     mk_state (mk_logged (admin_sleep adm n (inner (world s)))
                         (admin_log (world s) ++ [AdSleep n]))
              (trace s)).

(** [_init_embeddings]: the model is loaded; a failure is logged and raised
    again. *)
Definition _init_embeddings : M (logged W) unit :=
  try_except
    (admin_call (load_model adm EMBEDDING_MODEL_NAME) (AdLoadModel EMBEDDING_MODEL_NAME))
    (fun e => raise e).

(** The index [_init_pinecone] asks for when it is missing. *)
Definition wanted_index (settings : Settings) : index_spec :=
  mk_index_spec (PINECONE_INDEX_NAME settings) embedding_dim (lit "cosine")
                (lit "aws") (get_default (PINECONE_ENVIRONMENT settings) []).

(** [_init_pinecone]: the value left in [self.index]. *)
Definition _init_pinecone (settings : Settings) : M (logged W) (option pinecone_index) :=
  if negb (truthy_str (PINECONE_API_KEY settings)) then ret None
  else if negb (truthy_str (PINECONE_ENVIRONMENT settings)) then ret None
  else
    try_except
      (admin_call (pc_connect adm (pinecone_key settings))
                  (AdConnect (pinecone_key settings)) ;;;
       names <- admin_call (pc_list_indexes adm) AdListIndexes ;;
       (if negb (existsb (str_eqb (PINECONE_INDEX_NAME settings)) names) then
          admin_call (pc_create_index adm (wanted_index settings))
                     (AdCreateIndex (wanted_index settings)) ;;;
          admin_wait 30
        else ret tt) ;;;
       index <- admin_call (pc_open_index adm (PINECONE_INDEX_NAME settings))
                           (AdOpenIndex (PINECONE_INDEX_NAME settings)) ;;
       try_except
         (admin_call (pc_describe_index_stats adm) AdDescribe)
         (fun _ => ret tt) ;;;
       ret (Some index))
      (fun _ => ret None).

(** [AIProcessor.__init__] (the text splitter it also builds is the
    [split_text] of the environment). *)
Definition AIProcessor_init (settings : Settings) : M (logged W) AIProcessor :=
  let client := _init_groq settings in
  _init_embeddings ;;;
  index <- _init_pinecone settings ;;
  ret (mk_processor client index).

(** [delete_document_embeddings] *)
Definition delete_document_embeddings (self : AIProcessor) (document_id : Z)
    : M (logged W) bool :=
  if negb (is_some (index self)) then ret false
  else
    try_except
      (try_except
         (admin_call (index_delete adm (FilterPlain document_id))
                     (AdDelete (FilterPlain document_id)))
         (fun _ =>
            admin_call (index_delete adm (FilterEq document_id))
                       (AdDelete (FilterEq document_id))) ;;;
       ret true)
      (fun _ => ret false).

End Construction.

(** The creation of the index and the wait that follows, when its name is
    not among [names]; nothing when it is. *)
Definition creation (settings : Settings) (names : list str) : list admin_event :=
  if existsb (str_eqb (PINECONE_INDEX_NAME settings)) names then []
  else [AdCreateIndex (wanted_index settings) (Ok tt); AdSleep 30].

(** What the construction of the index handle can do: the calls it makes
    and the handle it leaves. *)
Inductive pinecone_init_shape (settings : Settings)
    : list admin_event -> option pinecone_index -> Prop :=
| init_unset :
    pinecone_init_shape settings [] None
| init_connect_raised (e : exn) :
    pinecone_init_shape settings [AdConnect (pinecone_key settings) (Raise e)] None
| init_list_raised (e : exn) :
    pinecone_init_shape settings
      [AdConnect (pinecone_key settings) (Ok tt); AdListIndexes (Raise e)] None
| init_create_raised (names : list str) (e : exn) :
    ~ In (PINECONE_INDEX_NAME settings) names ->
    pinecone_init_shape settings
      [AdConnect (pinecone_key settings) (Ok tt); AdListIndexes (Ok names);
       AdCreateIndex (wanted_index settings) (Raise e)] None
| init_open_raised (names : list str) (e : exn) :
    pinecone_init_shape settings
      ([AdConnect (pinecone_key settings) (Ok tt); AdListIndexes (Ok names)]
       ++ creation settings names
       ++ [AdOpenIndex (PINECONE_INDEX_NAME settings) (Raise e)]) None
| init_ready (names : list str) (h : pinecone_index) (r : result unit) :
    pinecone_init_shape settings
      ([AdConnect (pinecone_key settings) (Ok tt); AdListIndexes (Ok names)]
       ++ creation settings names
       ++ [AdOpenIndex (PINECONE_INDEX_NAME settings) (Ok h); AdDescribe r]) (Some h).

(** A scripted control plane: the world is unused. *)
Record admin_script : Type := mk_admin_script {
  as_load : result unit;
  as_connect : result unit;
  as_names : result (list str);
  as_create : result unit;
  as_open : result pinecone_index;
  as_describe : result unit;
  as_delete_plain : result unit;
  as_delete_eq : result unit
}.

Definition scripted_admin_in (W : Type) (sc : admin_script) : AdminEnv W :=
  mk_admin
    (fun _ w => (as_load sc, w))
    (fun _ w => (as_connect sc, w))
    (fun w => (as_names sc, w))
    (fun _ w => (as_create sc, w))
    (fun _ w => (as_open sc, w))
    (fun w => (as_describe sc, w))
    (fun f w => (match f with FilterPlain _ => as_delete_plain sc
                            | FilterEq _ => as_delete_eq sc end, w))
    (fun _ w => w).

Definition scripted_admin : admin_script -> AdminEnv unit := scripted_admin_in unit.

Definition admin_initial : state (logged unit) := mk_state (mk_logged tt []) [].

(** Settings with both services configured. *)
Definition full_settings : Settings :=
  mk_settings (Some (lit "gsk-key")) (lit "llama-3.3-70b-versatile")
              (lit "https://api.groq.com/openai/v1")
              (Some (lit "pc-key")) (Some (lit "us-east-1")) (lit "legal-documents").

(** Settings without the Pinecone key. *)
Definition no_pinecone_settings : Settings :=
  mk_settings (Some (lit "gsk-key")) (lit "llama-3.3-70b-versatile")
              (lit "https://api.groq.com/openai/v1")
              None (Some (lit "us-east-1")) (lit "legal-documents").

(** The index does not exist yet; reading its statistics fails. *)
Definition fresh_account : admin_script :=
  mk_admin_script (Ok tt) (Ok tt) (Ok [lit "other-index"]) (Ok tt)
                  (Ok (mk_index (lit "legal-documents"))) (Raise no_such_service)
                  (Ok tt) (Ok tt).

(** The backend refuses the plain filter. *)
Definition plain_filter_refused : admin_script :=
  mk_admin_script (Ok tt) (Ok tt) (Ok [lit "legal-documents"]) (Ok tt)
                  (Ok (mk_index (lit "legal-documents"))) (Ok tt)
                  (Raise no_such_service) (Ok tt).

(* ================================================================== *)
(** ** The routes that use the processor without the database
       ([ai/routes.py]) *)
(* ================================================================== *)

(** What a route hands back: a body, or an [HTTPException]. *)
Inductive http_reply (A : Type) : Type :=
| Returned (body : A)
| HTTPException (status_code : Z) (detail : str).
Arguments Returned {A} body.
Arguments HTTPException {A} status_code detail.

(** [getattr(ai_processor, 'chat_model', default)]: the attribute is set by
    [_init_groq] together with the client, to the client's model. *)
Definition chat_model_or (self : AIProcessor) (default : str) : str :=
  match client self with
  | Some c => model c
  | None => default
  end.

(** [list.append] on a list value. *)
Definition list_append (v : pyval) (x : pyval) : pyval :=
  match v with
  | VList l => VList (l ++ [x])
  | other => other
  end.

(** Truth value of a value. *)
Definition truthy (v : pyval) : bool :=
  match v with
  | VNone => false
  | VBool b => b
  | VInt z => negb (z =? 0)%Z
  | VFloat f => float_truthy f
  | VStr s => nonempty s
  | VList l => nonempty l
  | VDict d => nonempty d
  end.

(** [ai_health_check]: a processor that is constructed has its embedder. *)
Definition ai_health_check (self : AIProcessor) : dict :=
  let groq := is_some (client self) in
  let pinecone := is_some (index self) in
  let recommendations := VList [] in
  let recommendations :=
    if negb groq
    then list_append recommendations (VStr (lit "Groq API key not configured"))
    else recommendations in
  let recommendations :=
    if negb pinecone
    then list_append recommendations (VStr (lit "Pinecone not configured"))
    else recommendations in
  let health_status :=
    [ (lit "status", VStr (lit "healthy"));
      (lit "services",
       VDict [ (lit "groq", VBool groq);
               (lit "pinecone", VBool pinecone);
               (lit "embeddings", VBool true) ]);
      (lit "model", VStr (chat_model_or self (lit "Not configured")));
      (lit "recommendations", recommendations) ] in
  if truthy recommendations
  then dict_set (lit "status") (VStr (lit "degraded")) health_status
  else health_status.

Definition TEST_TEXT : str :=
  lit "This is a test document for analysis. It contains sample legal text for testing purposes.".

Section Routes.

Context {W : Type} (env : Env W) (self : AIProcessor).

(** [analyze_text] *)
Definition analyze_text (text : str) : M W (http_reply dict) :=
  try_except
    (result <- analyze_document env self text ;;
     ret (Returned result))
    (fun e =>
       ret (HTTPException 500 (lit "AI analysis failed: " ++ exn_msg e))).

(** [test_ai_configuration] *)
Definition test_ai_configuration : M W dict :=
  let config_status :=
    [ (lit "groq_configured", VBool (is_some (client self)));
      (lit "pinecone_configured", VBool (is_some (index self)));
      (lit "embedding_model", VStr (lit "sentence-transformers/all-mpnet-base-v2"));
      (lit "groq_model", VStr (chat_model_or self (lit "Not configured"))) ] in
  let test_text := TEST_TEXT in
  try_except
    (result <- analyze_document env self test_text ;;
     let config_status := dict_set (lit "ai_test_passed") (VBool true) config_status in
     let config_status :=
       dict_set (lit "test_result")
         (VDict [ (lit "summary", get_default (dict_get (lit "summary") result) (VStr []));
                  (lit "has_error", VBool (dict_has (lit "error") result)) ])
         config_status in
     let config_status :=
       if dict_has (lit "error") result
       then dict_set (lit "error")
              (get_default (dict_get (lit "error") result) VNone) config_status
       else config_status in
     ret config_status)
    (fun e =>
       let config_status := dict_set (lit "ai_test_passed") (VBool false) config_status in
       ret (dict_set (lit "error") (VStr (exn_msg e)) config_status)).

End Routes.

(** A processor with the model client but without the index. *)
Definition client_only : AIProcessor := mk_processor (Some demo_client) None.

(* ================================================================== *)
(** ** Stored documents: the document service ([documents/services.py])
       and the routes over stored documents ([ai/routes.py]) *)
(* ================================================================== *)

Definition bytes : Type := list Byte.byte.

(** A [datetime], as an instant. *)
Definition datetime : Type := Z.

Inductive DocumentStatus : Type := PENDING | PROCESSING | PROCESSED | FAILED.

(** [status.value] *)
Definition status_value (st : DocumentStatus) : str :=
  match st with
  | PENDING => lit "pending"
  | PROCESSING => lit "processing"
  | PROCESSED => lit "processed"
  | FAILED => lit "failed"
  end.

Definition status_eqb (a b : DocumentStatus) : bool :=
  match a, b with
  | PENDING, PENDING | PROCESSING, PROCESSING
  | PROCESSED, PROCESSED | FAILED, FAILED => true
  | _, _ => false
  end.

(** The columns of [Document] the service and the routes touch.  A column
    holds whatever was assigned to it: [summary] any value of the analysis. *)
Record Document : Type := mk_document {
  doc_id : Z;
  doc_user_id : Z;
  doc_original_filename : str;
  doc_file_path : str;
  doc_file_type : str;
  doc_extracted_text : option str;
  doc_summary : pyval;
  doc_status : DocumentStatus;
  doc_processing_started_at : option datetime;
  doc_processing_completed_at : option datetime;
  doc_processing_error : option str;
  doc_ai_analysis : option dict
}.

(** Assignments to the attributes of a document. *)
Definition set_status (v : DocumentStatus) (d : Document) : Document :=
  mk_document (doc_id d) (doc_user_id d) (doc_original_filename d) (doc_file_path d)
    (doc_file_type d) (doc_extracted_text d) (doc_summary d) v
    (doc_processing_started_at d) (doc_processing_completed_at d)
    (doc_processing_error d) (doc_ai_analysis d).

Definition set_processing_started_at (v : datetime) (d : Document) : Document :=
  mk_document (doc_id d) (doc_user_id d) (doc_original_filename d) (doc_file_path d)
    (doc_file_type d) (doc_extracted_text d) (doc_summary d) (doc_status d)
    (Some v) (doc_processing_completed_at d)
    (doc_processing_error d) (doc_ai_analysis d).

Definition set_processing_completed_at (v : datetime) (d : Document) : Document :=
  mk_document (doc_id d) (doc_user_id d) (doc_original_filename d) (doc_file_path d)
    (doc_file_type d) (doc_extracted_text d) (doc_summary d) (doc_status d)
    (doc_processing_started_at d) (Some v)
    (doc_processing_error d) (doc_ai_analysis d).

Definition set_processing_error (v : str) (d : Document) : Document :=
  mk_document (doc_id d) (doc_user_id d) (doc_original_filename d) (doc_file_path d)
    (doc_file_type d) (doc_extracted_text d) (doc_summary d) (doc_status d)
    (doc_processing_started_at d) (doc_processing_completed_at d)
    (Some v) (doc_ai_analysis d).

Definition set_extracted_text (v : str) (d : Document) : Document :=
  mk_document (doc_id d) (doc_user_id d) (doc_original_filename d) (doc_file_path d)
    (doc_file_type d) (Some v) (doc_summary d) (doc_status d)
    (doc_processing_started_at d) (doc_processing_completed_at d)
    (doc_processing_error d) (doc_ai_analysis d).

Definition set_summary (v : pyval) (d : Document) : Document :=
  mk_document (doc_id d) (doc_user_id d) (doc_original_filename d) (doc_file_path d)
    (doc_file_type d) (doc_extracted_text d) v (doc_status d)
    (doc_processing_started_at d) (doc_processing_completed_at d)
    (doc_processing_error d) (doc_ai_analysis d).

Definition set_ai_analysis (v : dict) (d : Document) : Document :=
  mk_document (doc_id d) (doc_user_id d) (doc_original_filename d) (doc_file_path d)
    (doc_file_type d) (doc_extracted_text d) (doc_summary d) (doc_status d)
    (doc_processing_started_at d) (doc_processing_completed_at d)
    (doc_processing_error d) (Some v).

(** The fields of a [ChatHistory] row the chat route fills in. *)
Record ChatHistory : Type := mk_chat_history {
  ch_document_id : Z;
  ch_user_id : Z;
  ch_question : str;
  ch_answer : str;
  ch_model_used : str;
  ch_temperature : float;
  ch_context_chunks : list source;
  ch_response_time_ms : Z
}.

Record ChatRequest : Type := mk_chat_request {
  req_document_id : Z;
  req_question : str;
  req_temperature : float
}.

Record ChatResponse : Type := mk_chat_response {
  resp_answer : str;
  resp_sources : list source;
  resp_response_time_ms : Z
}.

(** A call of the document side, with what it returned. *)
Inductive doc_event : Type :=
| DbFirstDocument (document_id : Z) (user_id : option Z)
    (r : result (option Document))          (* db.query(Document).filter(...).first() *)
| DbAdd (c : ChatHistory) (r : result unit)                   (* db.add(record) *)
| DbDelete (d : Document) (r : result unit)                   (* db.delete(document) *)
| DbCommit (dirty : list Document) (r : result unit)          (* db.commit() *)
| DbRefresh (c : ChatHistory) (r : result unit)               (* db.refresh(record) *)
| StRead (path : str) (r : result bytes)                      (* storage.read_file *)
| StDelete (path : str) (r : result bool)                     (* storage.delete_file *)
| PdfFitz (content : bytes) (r : result (list str))           (* PyMuPDF, page texts *)
| PdfPlumber (content : bytes) (r : result (list (option str)))  (* pdfplumber *)
| PdfPyPDF2 (content : bytes) (r : result (list (option str)))   (* PyPDF2 *)
| DocxParagraphs (content : bytes) (r : result (list str)).   (* python-docx *)

(** The collaborators of the document side.  [db_first_document] takes the
    document id and the owner the query filters on, [db_commit] the modified
    documents of the session as they are when it is called; a PDF library
    hands back the texts of the pages or raises (a missing library raises
    [ImportError] here).  The last three are pure: [bytes.decode('utf-8')],
    [str(e)] of an [HTTPException], and the exception raised by slicing a
    value that is neither a string nor a list. *)
Record DocEnv (W : Type) : Type := mk_docs {
  db_first_document : Z -> option Z -> W -> result (option Document) * W;
  db_add : ChatHistory -> W -> result unit * W;
  db_delete : Document -> W -> result unit * W;
  db_commit : list Document -> W -> result unit * W;
  db_refresh : ChatHistory -> W -> result unit * W;
  storage_read_file : str -> W -> result bytes * W;
  storage_delete_file : str -> W -> result bool * W;
  fitz_pages : bytes -> W -> result (list str) * W;
  pdfplumber_pages : bytes -> W -> result (list (option str)) * W;
  pypdf2_pages : bytes -> W -> result (list (option str)) * W;
  docx_paragraphs : bytes -> W -> result (list str) * W;
  utc_now : W -> datetime * W;
  decode_utf8 : bytes -> result str;
  http_exception_str : Z -> str -> str;
  slice_failure : pyval -> exn
}.
Arguments mk_docs {W}.
Arguments db_first_document {W}.
Arguments db_add {W}.
Arguments db_delete {W}.
Arguments db_commit {W}.
Arguments db_refresh {W}.
Arguments storage_read_file {W}.
Arguments storage_delete_file {W}.
Arguments fitz_pages {W}.
Arguments pdfplumber_pages {W}.
Arguments pypdf2_pages {W}.
Arguments docx_paragraphs {W}.
Arguments utc_now {W}.
Arguments decode_utf8 {W}.
Arguments http_exception_str {W}.
Arguments slice_failure {W}.

(** The world of the whole backend: what the collaborators act on, the log
    of the index control plane and the log of the document side. *)
Record backend (V : Type) : Type := mk_backend {
  shared : V;
  index_log : list admin_event;
  doc_log : list doc_event
}.
Arguments mk_backend {V}.
Arguments shared {V}.
Arguments index_log {V}.
Arguments doc_log {V}.

(** What an [except Exception as e] catches: a plain exception or an
    [HTTPException]. *)
Inductive caught : Type :=
| CaughtExn (e : exn)
| CaughtHTTP (status_code : Z) (detail : str).

(** [int(x)] on a float: truncation; infinities and NaN raise. *)
Definition int_of_float (x : float) : result Z :=
  match Prim2SF x with
  | S754_zero _ => Ok 0%Z
  | S754_infinity _ =>
      Raise (mk_exn OtherException (lit "cannot convert float infinity to integer"))
  | S754_nan =>
      Raise (mk_exn OtherException (lit "cannot convert float NaN to integer"))
  | S754_finite sign m e =>
      let magnitude :=
        if (0 <=? e)%Z then (Z.pos m * 2 ^ e)%Z else (Z.pos m / 2 ^ (- e))%Z in
      Ok (if sign then (- magnitude)%Z else magnitude)
  end.

(** [v != s] for a value [v] and a string [s]. *)
Definition differs_from_str (v : pyval) (s : str) : bool :=
  match v with
  | VStr t => negb (str_eqb t s)
  | _ => true
  end.

(** [v[:n]] succeeds on strings and lists only. *)
Definition sliceable (v : pyval) : bool :=
  match v with
  | VStr _ | VList _ => true
  | _ => false
  end.

(** [text += page + NL] over the pages. *)
Definition page_lines (pages : list str) : str :=
  concat (map (fun page_text => page_text ++ [NL]) pages).

(** The pages kept by [if page_text:]. *)
Definition kept_pages (pages : list (option str)) : list str :=
  flat_map (fun page_text =>
              match page_text with
              | Some t => if nonempty t then [t] else []
              | None => []
              end) pages.

Section DocumentService.

Context {V : Type} (env : Env V) (adm : AdminEnv V) (docs : DocEnv V)
        (self : AIProcessor).

(** A function that may also raise an [HTTPException]. *)
Definition Http (A : Type) : Type := M (backend V) (http_reply A).

Definition hret {A} (a : A) : Http A := ret (Returned a).

Definition hraise {A} (status_code : Z) (detail : str) : Http A :=
  ret (HTTPException status_code detail).

Definition hbind {A B} (c : Http A) (k : A -> Http B) : Http B :=
  r <- c ;;
  match r with
  | Returned a => k a
  | HTTPException status_code detail => ret (HTTPException status_code detail)
  end.

Definition hlift {A} (c : M (backend V) A) : Http A := a <- c ;; ret (Returned a).

(** [try: c except Exception as e: h e] *)
Definition except_Exception {A} (c : Http A) (h : caught -> Http A) : Http A :=
  fun s =>
    match c s with
    | (Ok (Returned a), s') => (Ok (Returned a), s')
    | (Ok (HTTPException status_code detail), s') => h (CaughtHTTP status_code detail) s'
    | (Raise e, s') => h (CaughtExn e) s'
    end.

(** [str(e)] *)
Definition caught_str (e : caught) : str :=
  match e with
  | CaughtExn e => exn_msg e
  | CaughtHTTP status_code detail => http_exception_str docs status_code detail
  end.

(** A call of the document side: run it on the shared world and log it. *)
Definition doc_call {A} (f : V -> result A * V) (ev : result A -> doc_event) : M (backend V) A :=
  fun s =>
    let '(r, v) := f (shared (world s)) in
    (r, mk_state (mk_backend v (index_log (world s)) (doc_log (world s) ++ [ev r]))
                 (trace s)).

(** [datetime.now(timezone.utc)] *)
Definition utcnow : M (backend V) datetime :=
  fun s =>
    let '(t, v) := utc_now docs (shared (world s)) in
    (Ok t, mk_state (mk_backend v (index_log (world s)) (doc_log (world s))) (trace s)).

(** A method of the processor, run on the shared world. *)
Definition with_processor {A} (c : M V A) : M (backend V) A :=
  fun s =>
    let '(r, s1) := c (mk_state (shared (world s)) (trace s)) in
    (r, mk_state (mk_backend (world s1) (index_log (world s)) (doc_log (world s)))
                 (trace s1)).

(** A method of the processor that talks to the index control plane. *)
Definition with_index_admin {A} (c : M (logged V) A) : M (backend V) A :=
  fun s =>
    let '(r, s1) :=
      c (mk_state (mk_logged (shared (world s)) (index_log (world s))) (trace s)) in
    (r, mk_state (mk_backend (inner (world s1)) (admin_log (world s1))
                             (doc_log (world s)))
                 (trace s1)).

Definition commit (dirty : list Document) : M (backend V) unit :=
  doc_call (db_commit docs dirty) (DbCommit dirty).

(** [get_document] *)
Definition get_document (document_id user_id : Z) : Http Document :=
  hbind
    (hlift (doc_call (db_first_document docs document_id (Some user_id))
                     (DbFirstDocument document_id (Some user_id))))
    (fun document =>
       match document with
       | None => hraise 404 (lit "Document not found")
       | Some document => hret document
       end).

(** [_extract_pdf_text] *)
Definition _extract_pdf_text (content : bytes) : Http str :=
  first <- try_except
             (pages <- doc_call (fitz_pages docs content) (PdfFitz content) ;;
              let text := page_lines pages in
              if (len (strip text) >? 100)%Z then ret (Some (strip text)) else ret None)
             (fun _ => ret None) ;;
  match first with
  | Some text => hret text
  | None =>
      second <- try_except
                  (pages <- doc_call (pdfplumber_pages docs content) (PdfPlumber content) ;;
                   let text := page_lines (kept_pages pages) in
                   if (len (strip text) >? 100)%Z then ret (Some (strip text))
                   else ret None)
                  (fun _ => ret None) ;;
      match second with
      | Some text => hret text
      | None =>
          try_except
            (pages <- doc_call (pypdf2_pages docs content) (PdfPyPDF2 content) ;;
             let text := page_lines (kept_pages pages) in
             hret (strip text))
            (fun e =>
               hraise 400
                 (lit "Failed to extract text from PDF. The PDF might be scanned or image-based. Error: "
                  ++ exn_msg e))
      end
  end.

(** [_extract_docx_text] *)
Definition _extract_docx_text (content : bytes) : Http str :=
  try_except
    (paragraphs <- doc_call (docx_paragraphs docs content) (DocxParagraphs content) ;;
     let text := join [NL] paragraphs in
     hret (strip text))
    (fun e => hraise 400 (lit "Failed to extract text from DOCX: " ++ exn_msg e)).

(** The text of a file, by its type (the [if]/[elif] chain of
    [_process_document_async]). *)
Definition extract_text (file_type : str) (content : bytes) : Http str :=
  if str_eqb file_type (lit ".pdf") then _extract_pdf_text content
  else if str_eqb file_type (lit ".docx") then _extract_docx_text content
  else if str_eqb file_type (lit ".txt") then
         fun s => (match decode_utf8 docs content with
                   | Ok text => Ok (Returned text)
                   | Raise e => Raise e
                   end, s)
  else hret [].

(** A step inside the outer [try] of [_process_document_async]: when it
    fails, the run stops with the document as it is at that point. *)
Definition step {A} (document : Document) (c : Http A)
    (k : A -> M (backend V) (Document * option caught)) : M (backend V) (Document * option caught) :=
  fun s =>
    match c s with
    | (Ok (Returned a), s') => k a s'
    | (Ok (HTTPException status_code detail), s') =>
        (Ok (document, Some (CaughtHTTP status_code detail)), s')
    | (Raise e, s') => (Ok (document, Some (CaughtExn e)), s')
    end.

(** The analysis block of [_process_document_async], with its own
    [try]/[except]: the document it leaves. *)
Definition analysis_step (document : Document) (extracted_text : str) : M (backend V) Document :=
  let on_error (document : Document) (e : exn) :=
    ret (set_ai_analysis [(K_ERROR, VStr (exn_msg e))] document) in
  try_except
    (analysis <- with_processor (analyze_document env self extracted_text) ;;
     if dict_has K_ERROR analysis then
       ret (set_ai_analysis analysis document)
     else
       let document := set_ai_analysis analysis document in
       let summary := get_default (dict_get K_SUMMARY analysis) VNone in
       if truthy summary then
         let document := set_summary summary document in
         (* the log line slices the summary *)
         if sliceable summary then ret document
         else on_error document (slice_failure docs summary)
       else ret document)
    (on_error document).

(** The embeddings block of [_process_document_async]: its outcome is
    ignored. *)
Definition embeddings_step (document : Document) (extracted_text : str) : M (backend V) unit :=
  try_except
    (with_processor
       (store_document_embeddings env self (doc_id document) extracted_text
          [ (lit "user_id", VInt (doc_user_id document));
            (lit "filename", VStr (doc_original_filename document)) ]) ;;;
     ret tt)
    (fun _ => ret tt).

(** [_process_document_async] once the document is found: the document as
    it is at the end of the [try], and what stopped it, if anything. *)
Definition process_found (document : Document) : M (backend V) (Document * option caught) :=
  let document := set_status PROCESSING document in
  started <- utcnow ;;
  let document := set_processing_started_at started document in
  step document (hlift (commit [document])) (fun _ =>
  step document
       (hlift (doc_call (storage_read_file docs (doc_file_path document))
                        (StRead (doc_file_path document)))) (fun content =>
  step document (extract_text (doc_file_type document) content) (fun extracted_text =>
  let document := set_extracted_text extracted_text document in
  document <- analysis_step document extracted_text ;;
  embeddings_step document extracted_text ;;;
  let document := set_status PROCESSED document in
  completed <- utcnow ;;
  let document := set_processing_completed_at completed document in
  step document (hlift (commit [document])) (fun _ =>
  ret (document, None))))).

(** [_process_document_async]: when the query raises there is no document
    for the handler to mark; the commit of the failure is in the handler, so
    what it raises leaves the function. *)
Definition _process_document_async (document_id : Z) : M (backend V) unit :=
  document <- try_except
                (doc_call (db_first_document docs document_id None)
                          (DbFirstDocument document_id None))
                (fun _ => ret None) ;;
  match document with
  | None => ret tt
  | Some document =>
      out <- process_found document ;;
      match out with
      | (_, None) => ret tt
      | (document, Some e) =>
          let document := set_status FAILED document in
          let document := set_processing_error (caught_str e) document in
          commit [document]
      end
  end.

(** [delete_document] *)
Definition delete_document (document_id user_id : Z) : Http bool :=
  hbind (get_document document_id user_id) (fun document =>
  except_Exception
    (hlift
       (doc_call (storage_delete_file docs (doc_file_path document))
                 (StDelete (doc_file_path document)) ;;;
        doc_call (db_delete docs document) (DbDelete document) ;;;
        commit [] ;;;
        with_index_admin (delete_document_embeddings adm self document_id) ;;;
        ret true))
    (fun _ => hraise 500 (lit "Failed to delete document"))).

(** [get_document_analysis] *)
Definition get_document_analysis (document_id user_id : Z) : Http dict :=
  hbind (get_document document_id user_id) (fun document =>
  match doc_ai_analysis document with
  | Some analysis =>
      if nonempty analysis then hret analysis
      else hraise 404 (lit "Document analysis not available")
  | None => hraise 404 (lit "Document analysis not available")
  end).

(** [ai_processor.chat_model]: the attribute exists when the client does. *)
Definition chat_model : M (backend V) str :=
  match client self with
  | Some c => ret (model c)
  | None =>
      raise (mk_exn AttributeError
               (lit "'AIProcessor' object has no attribute 'chat_model'"))
  end.

(** [int(result[response_time] * 1000)] *)
Definition response_time_ms (result : ChatAnswer) : M (backend V) Z :=
  fun s => (int_of_float (PrimFloat.mul (response_time result) 1000), s).

(** The route [chat_with_document] of [ai/routes.py]. *)
Definition chat_with_document_route (request : ChatRequest) (current_user_id : Z)
    : Http ChatResponse :=
  hbind (get_document (req_document_id request) current_user_id) (fun document =>
  if negb (status_eqb (doc_status document) PROCESSED) then
    hraise 400
      (lit "Document is not ready for chat. Current status: "
       ++ status_value (doc_status document)
       ++ lit ". Please wait for processing to complete.")
  else
    hlift
      (result <- with_processor
                   (chat_with_document env self (req_document_id request)
                      (req_question request) (req_temperature request)) ;;
       model_used <- chat_model ;;
       elapsed_ms <- response_time_ms result ;;
       let chat_record :=
         mk_chat_history (req_document_id request) current_user_id
           (req_question request) (answer result) model_used
           (req_temperature request) (sources result) elapsed_ms in
       doc_call (db_add docs chat_record) (DbAdd chat_record) ;;;
       commit [] ;;;
       doc_call (db_refresh docs chat_record) (DbRefresh chat_record) ;;;
       elapsed_ms <- response_time_ms result ;;
       ret (mk_chat_response (answer result) (sources result) elapsed_ms))).

(** The route [summarize_document]. *)
Definition summarize_document (document_id current_user_id : Z) : Http dict :=
  hbind (get_document document_id current_user_id) (fun document =>
  if negb (truthy_str (doc_extracted_text document)) then
    hraise 400 (lit "Document text not available")
  else if truthy (doc_summary document) then
    hret [(K_SUMMARY, doc_summary document)]
  else
    except_Exception
      (hlift
         (result <- with_processor
                      (analyze_document env self
                         (get_default (doc_extracted_text document) [])) ;;
          let summary := get_default (dict_get K_SUMMARY result) (VStr []) in
          (if truthy summary && differs_from_str summary (lit "Analysis unavailable.")
           then commit [set_summary summary document]
           else ret tt) ;;;
          ret [(K_SUMMARY, summary)]))
      (fun e => hraise 500 (lit "Failed to generate summary: " ++ caught_str e))).

End DocumentService.

(** A scripted document side: the world is unused. *)
Record doc_script : Type := mk_doc_script {
  ds_first : result (option Document);
  ds_commit : result unit;
  ds_read : result bytes;
  ds_delete_file : result bool;
  ds_fitz : result (list str);
  ds_plumber : result (list (option str));
  ds_pypdf2 : result (list (option str));
  ds_docx : result (list str);
  ds_decode : result str
}.

Definition scripted_docs {V : Type} (sc : doc_script) : DocEnv V :=
  mk_docs
    (fun _ _ w => (ds_first sc, w))
    (fun _ w => (Ok tt, w))
    (fun _ w => (Ok tt, w))
    (fun _ w => (ds_commit sc, w))
    (fun _ w => (Ok tt, w))
    (fun _ w => (ds_read sc, w))
    (fun _ w => (ds_delete_file sc, w))
    (fun _ w => (ds_fitz sc, w))
    (fun _ w => (ds_plumber sc, w))
    (fun _ w => (ds_pypdf2 sc, w))
    (fun _ w => (ds_docx sc, w))
    (fun w => (0%Z, w))
    (fun _ => ds_decode sc)
    (fun status_code detail => str_of_Z status_code ++ lit ": " ++ detail)
    (fun _ => mk_exn OtherException (lit "object is not subscriptable")).

Definition backend_initial : state (backend float) :=
  mk_state (mk_backend 0%float [] []) [].

(** The threshold of the first two PDF libraries: more than 100 characters
    once stripped. *)
Definition long_enough (text : str) : bool := (len (strip text) >? 100)%Z.

(** PyMuPDF was of no use: it raised, or its text was too short. *)
Definition fitz_of_no_use (r : result (list str)) : Prop :=
  match r with
  | Ok pages => long_enough (page_lines pages) = false
  | Raise _ => True
  end.

(** The same for pdfplumber. *)
Definition plumber_of_no_use (r : result (list (option str))) : Prop :=
  match r with
  | Ok pages => long_enough (page_lines (kept_pages pages)) = false
  | Raise _ => True
  end.

(** What [_extract_pdf_text] can do: the libraries it consults and what it
    hands back. *)
Inductive pdf_shape (content : bytes) : list doc_event -> http_reply str -> Prop :=
| pdf_by_fitz (pages : list str) :
    long_enough (page_lines pages) = true ->
    pdf_shape content
      [PdfFitz content (Ok pages)]
      (Returned (strip (page_lines pages)))
| pdf_by_plumber (r1 : result (list str)) (pages : list (option str)) :
    fitz_of_no_use r1 ->
    long_enough (page_lines (kept_pages pages)) = true ->
    pdf_shape content
      [PdfFitz content r1; PdfPlumber content (Ok pages)]
      (Returned (strip (page_lines (kept_pages pages))))
| pdf_by_pypdf2 (r1 : result (list str)) (r2 : result (list (option str)))
    (pages : list (option str)) :
    fitz_of_no_use r1 ->
    plumber_of_no_use r2 ->
    pdf_shape content
      [PdfFitz content r1; PdfPlumber content r2; PdfPyPDF2 content (Ok pages)]
      (Returned (strip (page_lines (kept_pages pages))))
| pdf_unreadable (r1 : result (list str)) (r2 : result (list (option str))) (e : exn) :
    fitz_of_no_use r1 ->
    plumber_of_no_use r2 ->
    pdf_shape content
      [PdfFitz content r1; PdfPlumber content r2; PdfPyPDF2 content (Raise e)]
      (HTTPException 400
         (lit "Failed to extract text from PDF. The PDF might be scanned or image-based. Error: "
          ++ exn_msg e)).

(** A scanned PDF: PyMuPDF finds a few characters, pdfplumber fails, PyPDF2
    finds nothing. *)
Definition scanned_pdf : doc_script :=
  mk_doc_script (Ok None) (Ok tt) (Ok []) (Ok true)
    (Ok [lit "Page 1"]) (Raise no_such_service) (Ok [None; Some []]) (Ok []) (Ok []).

(** The summary of the fallback analysis. *)
Definition CANNED_SUMMARY : pyval :=
  VStr (lit "Analysis unavailable. Manual legal review required.").

(** What a document that went through the analysis carries: its text and a
    non-empty analysis, which without a model client is the fallback, with
    the canned summary as the summary of the document. *)
Definition analysed (self : AIProcessor) (d : Document) : Prop :=
  exists text a,
    doc_extracted_text d = Some text
    /\ doc_ai_analysis d = Some a
    /\ a <> []
    /\ (client self = None -> a = _fallback_analysis /\ doc_summary d = CANNED_SUMMARY).

(** A text file as [upload_document] leaves it. *)
Definition uploaded_txt : Document :=
  mk_document 7 3 (lit "lease.txt") (lit "3/lease.txt") (lit ".txt")
              None VNone PENDING None None None None.

(** The row is there and so is the file. *)
Definition txt_on_disk : doc_script :=
  mk_doc_script (Ok (Some uploaded_txt)) (Ok tt) (Ok []) (Ok true)
                (Ok []) (Ok []) (Ok []) (Ok []) (Ok lease_text).

(** The row is there, the file is not. *)
Definition file_missing : doc_script :=
  mk_doc_script (Ok (Some uploaded_txt))
                (Ok tt) (Raise (mk_exn OtherException (lit "File not found: 3/lease.txt")))
                (Ok true) (Ok []) (Ok []) (Ok []) (Ok []) (Ok lease_text).

(** [uploaded_txt] while it is processed. *)
Definition processing_txt : Document :=
  mk_document 7 3 (lit "lease.txt") (lit "3/lease.txt") (lit ".txt")
              None VNone PROCESSING (Some 0%Z) None None None.

(** [uploaded_txt] after processing without a model client. *)
Definition processed_txt : Document :=
  mk_document 7 3 (lit "lease.txt") (lit "3/lease.txt") (lit ".txt")
              (Some lease_text) CANNED_SUMMARY PROCESSED (Some 0%Z) (Some 0%Z) None
              (Some _fallback_analysis).

(** The document side answers every query with [d]. *)
Definition serving (d : Document) : doc_script :=
  mk_doc_script (Ok (Some d)) (Ok tt) (Ok []) (Ok true)
                (Ok []) (Ok []) (Ok []) (Ok []) (Ok []).

(** A chat request on document 7. *)
Definition chat_request : ChatRequest := mk_chat_request 7 the_question 0.1%float.

(** [processed_txt] before any summary was kept. *)
Definition unsummarised_txt : Document := set_summary VNone processed_txt.

(** Both filters of the index are refused. *)
Definition index_refuses : admin_script :=
  mk_admin_script (Ok tt) (Ok tt) (Ok []) (Ok tt)
                  (Ok (mk_index (lit "legal-documents")))
                  (Ok tt) (Raise no_such_service) (Raise no_such_service).
(* ================================================================== *)
(** ** Facts about strings and lists *)
(* ================================================================== *)

Lemma lstrip_blank (s : str) : blank s -> lstrip s = [].
Proof.
  induction 1 as [|c s Hc _ IH]; simpl; [reflexivity|].
  now rewrite Hc.
Qed.

Lemma lstrip_nil_blank (s : str) : lstrip s = [] -> blank s.
Proof.
  induction s as [|c s IH]; simpl; intros H; [constructor|].
  destruct (is_space c) eqn:Hc; [|discriminate].
  constructor; [exact Hc | exact (IH H)].
Qed.

Lemma lstrip_head (s : str) (c : char) (r : str) :
  lstrip s = c :: r -> is_space c = false.
Proof.
  induction s as [|x s IH]; simpl; [discriminate|].
  destruct (is_space x) eqn:Hx; [exact IH|].
  intros H; injection H as -> _; exact Hx.
Qed.

Lemma blank_rev (s : str) : blank (rev s) -> blank s.
Proof.
  unfold blank; rewrite !Forall_forall; intros H c Hc.
  apply H, in_rev; rewrite rev_involutive; exact Hc.
Qed.

Lemma strip_blank (s : str) : blank s -> strip s = [].
Proof.
  intros H; unfold strip, rstrip; rewrite (lstrip_blank s H); reflexivity.
Qed.

Lemma strip_nil_blank (s : str) : strip s = [] -> blank s.
Proof.
  unfold strip, rstrip; intros H.
  assert (Hl : lstrip (rev (lstrip s)) = []).
  { rewrite <- (rev_involutive (lstrip (rev (lstrip s)))), H; reflexivity. }
  apply lstrip_nil_blank, blank_rev in Hl.
  destruct (lstrip s) as [|c r] eqn:E; [now apply lstrip_nil_blank|].
  apply lstrip_head in E.
  inversion Hl as [|? ? Hc _]; congruence.
Qed.

Lemma nonempty_false {A} (l : list A) : nonempty l = false <-> l = [].
Proof. destruct l; simpl; split; congruence. Qed.

Lemma nonempty_true {A} (l : list A) : nonempty l = true <-> l <> [].
Proof. destruct l; simpl; split; congruence. Qed.

Lemma len_zero {A} (l : list A) : (len l =? 0)%Z = negb (nonempty l).
Proof. destruct l; reflexivity. Qed.

Lemma validate_vectors_filter (vectors acc : list vector) :
  validate_vectors vectors acc = acc ++ filter valid_vector vectors.
Proof.
  revert acc; induction vectors as [|v vs IH]; intros acc; simpl.
  - now rewrite app_nil_r.
  - unfold valid_vector.
    destruct (any_truthy v); simpl; [|apply IH].
    destruct (length v =? embedding_dim)%nat; simpl; [|apply IH].
    rewrite IH, <- app_assoc; reflexivity.
Qed.

Lemma any_truthy_not_all_zero (v : vector) : any_truthy v = true -> ~ all_zero v.
Proof.
  unfold any_truthy, all_zero; intros H Hz.
  apply existsb_exists in H as (x & Hx & Ht).
  rewrite Forall_forall in Hz; specialize (Hz x Hx).
  unfold float_truthy in Ht; rewrite Hz in Ht; discriminate.
Qed.

Lemma all_zero_not_truthy (v : vector) : all_zero v -> any_truthy v = false.
Proof.
  intros Hz; destruct (any_truthy v) eqn:E; [|reflexivity].
  now apply any_truthy_not_all_zero in E.
Qed.

Lemma collect_context_filter (matches : list index_match) (cs : list str) (ss : list source) :
  collect_context matches cs ss =
    (cs ++ map match_text (filter usable matches),
     ss ++ map source_of (filter usable matches)).
Proof.
  revert cs ss; induction matches as [|m ms IH]; intros cs ss; simpl.
  - now rewrite !app_nil_r.
  - destruct (usable m); simpl; [|apply IH].
    rewrite IH, <- !app_assoc; reflexivity.
Qed.

Lemma not_truthy_all_zero (v : vector) : any_truthy v = false -> all_zero v.
Proof.
  unfold any_truthy, all_zero; induction v as [|x v IH]; simpl; intros H; [constructor|].
  apply orb_false_iff in H as [Hx Hv].
  constructor; [|exact (IH Hv)].
  unfold float_truthy in Hx; now apply negb_false_iff in Hx.
Qed.

Lemma valid_vector_iff (v : vector) :
  valid_vector v = true <-> length v = embedding_dim /\ ~ all_zero v.
Proof.
  unfold valid_vector; rewrite andb_true_iff, Nat.eqb_eq; split.
  - intros [Ha Hl]; split; [exact Hl | now apply any_truthy_not_all_zero].
  - intros [Hl Hz]; split; [|exact Hl].
    destruct (any_truthy v) eqn:E; [reflexivity|].
    exfalso; apply Hz; now apply not_truthy_all_zero.
Qed.

Lemma context_of_filter (matches : list index_match) :
  context_of matches = join [NL; NL] (map match_text (filter usable matches)).
Proof.
  unfold context_of; rewrite (collect_context_filter matches [] []); reflexivity.
Qed.

Lemma usable_iff (m : index_match) :
  usable m = true <->
  float_gtb (match_score m) SCORE_THRESHOLD = true /\ match_text m <> [].
Proof.
  unfold usable; rewrite andb_true_iff, nonempty_true; reflexivity.
Qed.

(* ------------------------------------------------------------------ *)
(** *** Traces *)

Lemma model_calls_app (a b : list event) :
  model_calls (a ++ b) = model_calls a ++ model_calls b.
Proof.
  induction a as [|ev a IH]; simpl; [reflexivity|].
  destruct ev; simpl; rewrite IH; reflexivity.
Qed.

Lemma index_queries_app (a b : list event) :
  index_queries (a ++ b) = index_queries a ++ index_queries b.
Proof.
  induction a as [|ev a IH]; simpl; [reflexivity|].
  destruct ev; simpl; rewrite IH; reflexivity.
Qed.

Ltac run_monad :=
  unfold do_encode, do_split, do_upsert, do_query, do_post, do_json_loads, elapsed in *;
  unfold bind, ret, raise, try_except, now, sleep, call in *.

Section Runs.

Context {W : Type} (env : Env W) (self : AIProcessor).

Lemma now_run (s : state W) :
  now env s =
    (Ok (fst (time_time env (world s))),
     mk_state (snd (time_time env (world s))) (trace s)).
Proof. unfold now; destruct (time_time env (world s)); reflexivity. Qed.

Lemma now_trace (s s' : state W) (r : result float) :
  now env s = (r, s') -> trace s' = trace s /\ exists t, r = Ok t.
Proof. rewrite now_run; intros H; injection H as <- <-; eauto. Qed.

Lemma elapsed_run (start : float) (s : state W) :
  elapsed env start s =
    (Ok (PrimFloat.sub (fst (time_time env (world s))) start),
     mk_state (snd (time_time env (world s))) (trace s)).
Proof. unfold elapsed, bind; rewrite now_run; reflexivity. Qed.

Lemma embed_trace (texts : list str) (s s' : state W) (r : result (list vector)) :
  _embed env texts s = (r, s') ->
  exists evs, trace s' = trace s ++ evs /\ model_calls evs = [] /\ index_queries evs = [].
Proof.
  unfold _embed; run_monad.
  destruct (nonempty texts); simpl.
  - destruct (encode env texts (world s)) as [[raw|e] w']; simpl;
      intros H; injection H as <- <-; simpl; eexists; (split; [reflexivity|split; reflexivity]).
  - intros H; injection H as <- <-; exists []; rewrite app_nil_r; auto.
Qed.

(** The three ways the retrieval step can go. *)
Lemma retrieve_matches_run (document_id : Z) (query_vec : vector) (s1 : state W) :
  match index_query env (scoped_query document_id query_vec) (world s1) with
  | (Ok r, w2) =>
      retrieve_matches env document_id query_vec s1 =
        (Ok (get_default (r_matches r) []),
         mk_state w2 (trace s1 ++ [EvQuery (scoped_query document_id query_vec) (Ok r)]))
  | (Raise e, w2) =>
      match index_query env (unscoped_query query_vec) w2 with
      | (Ok r', w3) =>
          retrieve_matches env document_id query_vec s1 =
            (Ok (get_default (r_matches r') []),
             mk_state w3
               ((trace s1 ++ [EvQuery (scoped_query document_id query_vec) (Raise e)])
                ++ [EvQuery (unscoped_query query_vec) (Ok r')]))
      | (Raise e', w3) =>
          retrieve_matches env document_id query_vec s1 =
            (Ok [],
             mk_state w3
               ((trace s1 ++ [EvQuery (scoped_query document_id query_vec) (Raise e)])
                ++ [EvQuery (unscoped_query query_vec) (Raise e')]))
      end
  end.
Proof.
  unfold retrieve_matches; run_monad.
  destruct (index_query env (scoped_query document_id query_vec) (world s1))
    as [[r|e] w2]; simpl; [reflexivity|].
  destruct (index_query env (unscoped_query query_vec) w2) as [[r'|e'] w3];
    reflexivity.
Qed.

Lemma retrieve_matches_trace (document_id : Z) (query_vec : vector)
    (s1 s2 : state W) (r : result (list index_match)) :
  retrieve_matches env document_id query_vec s1 = (r, s2) ->
  exists evs, trace s2 = trace s1 ++ evs /\ model_calls evs = [].
Proof.
  pose proof (retrieve_matches_run document_id query_vec s1) as H.
  destruct (index_query env (scoped_query document_id query_vec) (world s1))
    as [[r1|e] w2].
  - rewrite H; intros E; injection E as <- <-; simpl; eauto.
  - destruct (index_query env (unscoped_query query_vec) w2) as [[r'|e'] w3];
      rewrite H; intros E; injection E as <- <-; simpl;
      rewrite <- app_assoc; eexists; split; reflexivity.
Qed.

Lemma call_groq_trace (messages : list message) (temperature : float)
    (s s' : state W) (r : result str) :
  _call_groq_api env self messages temperature s = (r, s') ->
  exists evs, trace s' = trace s ++ evs /\ index_queries evs = [].
Proof.
  unfold _call_groq_api; run_monad.
  destruct (client self) as [c|].
  - destruct (http_post env _ (world s)) as [[resp|e] w']; simpl;
      [destruct (negb (status_code resp =? 200)%Z); simpl;
       [|destruct (resp_content resp) as [text|e]; simpl]|];
      try (destruct (is_timeout e); simpl);
      intros H; injection H as <- <-; simpl; eauto.
  - intros H; injection H as <- <-; exists []; rewrite app_nil_r; auto.
Qed.

(** The handler of the chat always answers. *)
Lemma chat_handler_run (start : float) (e : exn) (s : state W) :
  chat_handler env start e s =
    (Ok (mk_answer ANSWER_ERROR [] (PrimFloat.sub (fst (time_time env (world s))) start)),
     mk_state (snd (time_time env (world s))) (trace s)).
Proof. unfold chat_handler, bind; rewrite elapsed_run; reflexivity. Qed.

Lemma chat_with_document_unfold (document_id : Z) (question : str)
    (temperature : float) (s : state W) :
  chat_with_document env self document_id question temperature s =
    try_except
      (chat_attempt env self document_id question temperature
         (fst (time_time env (world s))))
      (chat_handler env (fst (time_time env (world s))))
      (mk_state (snd (time_time env (world s))) (trace s)).
Proof.
  unfold chat_with_document, bind; rewrite now_run; reflexivity.
Qed.

(** Once the retrieval is done the chat is the context step under the
    top-level handler. *)
Lemma chat_after_retrieval (document_id : Z) (question : str) (temperature : float)
    (s : state W) (start : float) (matches : list index_match) (s2 : state W) :
  reaches_context env self document_id question s start matches s2 ->
  chat_with_document env self document_id question temperature s =
    try_except (answer_from_matches env self question temperature start matches)
               (chat_handler env start) s2.
Proof.
  intros (Hi & Hc & s0 & qv & others & s1 & Hnow & Hemb & Hret).
  rewrite chat_with_document_unfold.
  rewrite now_run in Hnow; injection Hnow as <- <-.
  unfold try_except, chat_attempt.
  destruct (index self); [|congruence].
  destruct (client self); [|congruence].
  simpl; unfold bind; rewrite Hemb, Hret; reflexivity.
Qed.

Lemma reaches_context_trace (document_id : Z) (question : str)
    (s : state W) (start : float) (matches : list index_match) (s2 : state W) :
  reaches_context env self document_id question s start matches s2 ->
  model_calls (trace s2) = model_calls (trace s).
Proof.
  intros (_ & _ & s0 & qv & others & s1 & Hnow & Hemb & Hret).
  apply now_trace in Hnow as [Hnow _].
  apply embed_trace in Hemb as (ev1 & E1 & M1 & _).
  apply retrieve_matches_trace in Hret as (ev2 & E2 & M2).
  rewrite E2, E1, Hnow, !model_calls_app, M1, M2, !app_nil_r; reflexivity.
Qed.

End Runs.

(* ------------------------------------------------------------------ *)
(** *** Order *)

Lemma matches_descending_filter (f : index_match -> bool) (ms : list index_match) :
  matches_descending ms -> matches_descending (filter f ms).
Proof.
  unfold matches_descending; induction 1 as [|m ms Hs IH Hm]; simpl; [constructor|].
  destruct (f m); [|exact IH].
  constructor; [exact IH|].
  rewrite Forall_forall in *; intros x Hx; apply Hm.
  now apply filter_In in Hx as [Hx _].
Qed.

Lemma sources_descending_map (ms : list index_match) :
  matches_descending ms -> sources_descending (map source_of ms).
Proof.
  unfold matches_descending, sources_descending.
  induction 1 as [|m ms Hs IH Hm]; simpl; constructor; [exact IH|].
  rewrite Forall_forall in *; intros x Hx.
  apply in_map_iff in Hx as (m' & <- & Hm'); simpl; now apply Hm.
Qed.

Lemma in_firstn {A} (n : nat) (l : list A) (x : A) : In x (firstn n l) -> In x l.
Proof.
  revert l; induction n as [|n IH]; intros [|y l]; simpl; try tauto.
  intros [->|H]; [now left | right; now apply IH].
Qed.

Lemma sources_descending_firstn (n : nat) (ss : list source) :
  sources_descending ss -> sources_descending (firstn n ss).
Proof.
  unfold sources_descending; intros H; revert n.
  induction H as [|x ss Hs IH Hx]; intros [|n]; simpl; try constructor.
  - apply IH.
  - rewrite Forall_forall in *; intros y Hy; apply Hx.
    revert Hy; apply in_firstn.
Qed.

Section Tails.

Context {W : Type} (env : Env W) (self : AIProcessor).

Lemma answer_from_matches_eq (question : str) (temperature start : float)
    (matches : list index_match) :
  answer_from_matches env self question temperature start matches =
    if negb (nonempty (context_of matches))
       || (len (strip (context_of matches)) <? 50)%Z
    then (t <- elapsed env start ;; ret (mk_answer ANSWER_INSUFFICIENT [] t))%monad
    else (response_text <-
            _call_groq_api env self (chat_messages (context_of matches) question)
              temperature ;;
          response_time <- elapsed env start ;;
          ret (mk_answer response_text
                 (firstn 5 (map source_of (filter usable matches))) response_time))%monad.
Proof.
  unfold answer_from_matches, context_of.
  rewrite (collect_context_filter matches [] []); reflexivity.
Qed.

Lemma answer_from_matches_trace (question : str) (temperature start : float)
    (matches : list index_match) (s s' : state W) (r : result ChatAnswer) :
  answer_from_matches env self question temperature start matches s = (r, s') ->
  exists evs, trace s' = trace s ++ evs /\ index_queries evs = [].
Proof.
  rewrite answer_from_matches_eq.
  destruct (negb _ || _); unfold bind.
  - rewrite elapsed_run; intros H; injection H as <- <-; simpl.
    exists []; rewrite app_nil_r; auto.
  - destruct (_call_groq_api env self _ temperature s) as [[text|e] s1] eqn:E;
      apply call_groq_trace in E as (evs & E1 & E2).
    + rewrite elapsed_run; intros H; injection H as <- <-; simpl; eauto.
    + intros H; injection H as <- <-; eauto.
Qed.

(** From the context step on, the chat always answers and sends no
    further query to the index. *)
Lemma chat_tail_run (question : str) (temperature start : float)
    (matches : list index_match) (s2 : state W) :
  exists a s3,
    try_except (answer_from_matches env self question temperature start matches)
               (chat_handler env start) s2 = (Ok a, s3)
    /\ index_queries (trace s3) = index_queries (trace s2).
Proof.
  unfold try_except.
  destruct (answer_from_matches env self question temperature start matches s2)
    as [[a|e] s'] eqn:E;
    apply answer_from_matches_trace in E as (evs & E1 & E2).
  - exists a, s'; split; [reflexivity|].
    rewrite E1, index_queries_app, E2, app_nil_r; reflexivity.
  - rewrite chat_handler_run; eexists; eexists; split; [reflexivity|]; simpl.
    rewrite E1, index_queries_app, E2, app_nil_r; reflexivity.
Qed.

End Tails.

(** A scripted chat whose embedder answers with one good vector reaches the
    context step with whatever the retrieval returns. *)
Lemma scripted_reaches_context (sc : script) (document_id : Z) (question : str)
    (matches : list index_match) (s2 : state float) :
  sc_encode sc [question] = Ok [unit_vector] ->
  retrieve_matches (scripted sc) document_id unit_vector (after_embed sc question)
    = (Ok matches, s2) ->
  reaches_context (scripted sc) configured document_id question initial
    0%float matches s2.
Proof.
  intros He Hr; split; [discriminate|split; [discriminate|]].
  exists (mk_state 1%float []), unit_vector, [], (after_embed sc question).
  split; [reflexivity|split; [|exact Hr]].
  unfold after_embed, _embed, bind, do_encode, call; simpl; rewrite He; reflexivity.
Qed.

(* ------------------------------------------------------------------ *)
(** *** Dictionaries *)

Lemma str_eqb_eq (a b : str) : str_eqb a b = true <-> a = b.
Proof.
  revert b; induction a as [|x a IH]; intros [|y b]; simpl; split;
    try congruence; try discriminate.
  - intros H; apply andb_true_iff in H as [Hx Ha].
    apply N.eqb_eq in Hx; apply IH in Ha; congruence.
  - intros H; injection H as -> ->.
    apply andb_true_iff; split; [apply N.eqb_refl | now apply IH].
Qed.

Lemma str_eqb_refl (a : str) : str_eqb a a = true.
Proof. now apply str_eqb_eq. Qed.

Lemma str_eqb_sym (a b : str) : str_eqb a b = str_eqb b a.
Proof.
  destruct (str_eqb a b) eqn:E1, (str_eqb b a) eqn:E2; try reflexivity.
  - apply str_eqb_eq in E1; subst; now rewrite str_eqb_refl in E2.
  - apply str_eqb_eq in E2; subst; now rewrite str_eqb_refl in E1.
Qed.

Lemma str_eqb_spec (a b : str) : reflect (a = b) (str_eqb a b).
Proof.
  destruct (str_eqb a b) eqn:E; constructor.
  - now apply str_eqb_eq.
  - intros H; apply str_eqb_eq in H; congruence.
Qed.

Lemma dict_get_set (k k' : str) (v : pyval) (d : dict) :
  dict_get k (dict_set k' v d) = if str_eqb k k' then Some v else dict_get k d.
Proof.
  induction d as [|[k0 v0] d IH]; simpl.
  - destruct (str_eqb k k'); reflexivity.
  - destruct (str_eqb_spec k' k0) as [->|N0]; simpl.
    + destruct (str_eqb_spec k k0) as [->|N1]; reflexivity.
    + destruct (str_eqb_spec k k0) as [->|N1]; [|exact IH].
      destruct (str_eqb_spec k0 k') as [->|N2]; [congruence|reflexivity].
Qed.

Lemma dict_get_setdefault (k k' : str) (v : pyval) (d : dict) :
  dict_get k (dict_setdefault k' v d) =
    if str_eqb k k' then Some (get_default (dict_get k d) v) else dict_get k d.
Proof.
  unfold dict_setdefault, dict_has.
  destruct (dict_get k' d) as [v'|] eqn:E.
  - destruct (str_eqb_spec k k') as [->|N]; [|reflexivity].
    rewrite E; reflexivity.
  - rewrite dict_get_set.
    destruct (str_eqb_spec k k') as [->|N]; [|reflexivity].
    rewrite E; reflexivity.
Qed.

Lemma dict_has_set (k k' : str) (v : pyval) (d : dict) :
  dict_has k d = true -> dict_has k (dict_set k' v d) = true.
Proof.
  unfold dict_has; rewrite dict_get_set.
  destruct (str_eqb k k'); [reflexivity | trivial].
Qed.

Lemma dict_has_set_same (k : str) (v : pyval) (d : dict) :
  dict_has k (dict_set k v d) = true.
Proof. unfold dict_has; rewrite dict_get_set, str_eqb_refl; reflexivity. Qed.

(** What the [setdefault] loop leaves under each key. *)
Lemma backfill_get (k : str) (data : dict) :
  dict_get k (backfill data) =
    if existsb (str_eqb k) analysis_keys
    then Some (get_default (dict_get k data) (default_for k))
    else dict_get k data.
Proof.
  unfold backfill.
  change [K_SUMMARY; K_KEY_POINTS; K_CLAUSES; K_RISKS; K_RECOMMENDATIONS]
    with analysis_keys.
  generalize analysis_keys as ks; intros ks; revert data.
  induction ks as [|k0 ks IH]; intros data; simpl; [reflexivity|].
  rewrite IH, dict_get_setdefault.
  destruct (str_eqb_spec k k0) as [<-|N]; simpl.
  - assert (Hd : (if negb (str_eqb k K_SUMMARY) then VList [] else VStr [])
                 = default_for k).
    { unfold default_for; destruct (str_eqb k K_SUMMARY); reflexivity. }
    rewrite Hd.
    destruct (existsb (str_eqb k) ks); [|reflexivity].
    destruct (dict_get k data); reflexivity.
  - reflexivity.
Qed.

Lemma backfill_has (k : str) (data : dict) :
  In k analysis_keys -> dict_has k (backfill data) = true.
Proof.
  intros Hk; unfold dict_has; rewrite backfill_get.
  assert (E : existsb (str_eqb k) analysis_keys = true).
  { apply existsb_exists; exists k; split; [exact Hk | apply str_eqb_refl]. }
  rewrite E; reflexivity.
Qed.

(* ------------------------------------------------------------------ *)
(** *** Analysis *)

Section AnalysisRuns.

Context {W : Type} (env : Env W) (self : AIProcessor).

Lemma analyze_guard (text : str) :
  negb (is_some (client self)) || negb (nonempty (strip text)) = true
  <-> client self = None \/ blank text.
Proof.
  rewrite orb_true_iff, !negb_true_iff, nonempty_false; split.
  - intros [H|H]; [left; destruct (client self); [discriminate|reflexivity]|].
    right; now apply strip_nil_blank.
  - intros [H|H]; [left; rewrite H; reflexivity|].
    right; now apply strip_blank.
Qed.

Lemma analyze_handler_run (start : float) (e : exn) (s : state W) :
  analyze_handler env start e s =
    (Ok (degraded (PrimFloat.sub (fst (time_time env (world s))) start) e),
     mk_state (snd (time_time env (world s))) (trace s)).
Proof.
  unfold analyze_handler, bind; rewrite now_run; unfold degraded, error_text.
  destruct (is_json_decode_error e); reflexivity.
Qed.

(** The outcome of the [try] body, by the outcome of the model call and of
    [json.loads]. *)
Lemma analyze_attempt_run (truncated_text : str) (start : float) (s0 : state W) :
  analyze_attempt env self truncated_text start s0 =
    match _call_groq_api env self (analysis_messages truncated_text) 0.1%float s0 with
    | (Raise e, s1) => (Raise e, s1)
    | (Ok response_text, s1) =>
        match json_loads env (clean_response response_text) with
        | Raise e => (Raise e, s1)
        | Ok (VDict data) =>
            (Ok (dict_set K_PROCESSING_TIME
                   (VFloat (PrimFloat.sub (fst (time_time env (world s1))) start))
                   (backfill data)),
             mk_state (snd (time_time env (world s1))) (trace s1))
        | Ok other => (Raise (no_attribute other (lit "setdefault")), s1)
        end
    end.
Proof.
  unfold analyze_attempt, bind, do_json_loads.
  destruct (_call_groq_api env self (analysis_messages truncated_text) 0.1%float s0)
    as [[response_text|e] s1]; [|reflexivity].
  destruct (json_loads env (clean_response response_text)) as [data|e]; [|reflexivity].
  destruct data; try reflexivity.
  rewrite now_run; reflexivity.
Qed.

Lemma analyze_document_unfold (text : str) (s : state W) :
  client self <> None -> ~ blank text ->
  analyze_document env self text s =
    try_except
      (analyze_attempt env self (truncate_text text) (fst (time_time env (world s))))
      (analyze_handler env (fst (time_time env (world s))))
      (mk_state (snd (time_time env (world s))) (trace s)).
Proof.
  intros Hc Hb; unfold analyze_document.
  destruct (negb (is_some (client self)) || negb (nonempty (strip text))) eqn:G.
  - apply analyze_guard in G; tauto.
  - unfold bind; rewrite now_run; reflexivity.
Qed.

End AnalysisRuns.

Lemma degraded_has_keys (t : float) (e : exn) :
  Forall (fun k => dict_has k (degraded t e) = true) result_keys.
Proof. repeat constructor. Qed.

Lemma fallback_has_keys :
  Forall (fun k => dict_has k _fallback_analysis = true) result_keys.
Proof. repeat constructor. Qed.

Lemma backfilled_has_keys (v : pyval) (data : dict) :
  Forall (fun k => dict_has k (dict_set K_PROCESSING_TIME v (backfill data)) = true)
         result_keys.
Proof.
  unfold result_keys; apply Forall_app; split.
  - apply Forall_forall; intros k Hk.
    now apply dict_has_set, backfill_has.
  - constructor; [apply dict_has_set_same | constructor].
Qed.

(* ------------------------------------------------------------------ *)
(** *** Batches *)

Lemma slice_width {A} (i b : nat) (l : list A) :
  slice i (i + b) l = firstn b (skipn i l).
Proof. unfold slice; f_equal; lia. Qed.

Lemma concat_slices {A} (b c : nat) (l : list A) :
  length l <= c * b ->
  concat (map (fun k => firstn b (skipn (k * b) l)) (seq 0 c)) = l.
Proof.
  revert l; induction c as [|c IH]; intros l Hl.
  - destruct l; [reflexivity | simpl in Hl; lia].
  - cbn [seq map concat]; rewrite <- seq_shift, map_map.
    rewrite (map_ext _ (fun k => firstn b (skipn (k * b) (skipn b l)))).
    + rewrite IH.
      * apply firstn_skipn.
      * rewrite length_skipn; lia.
    + intros k; rewrite skipn_skipn; do 2 f_equal; lia.
Qed.

Lemma batch_count_covers (n b : nat) : 0 < b -> n <= (n + (b - 1)) / b * b.
Proof.
  intros Hb.
  pose proof (Nat.mul_succ_div_gt (n + (b - 1)) b ltac:(lia)) as H.
  nia.
Qed.

Lemma batch_count_tight (n b k : nat) :
  0 < b -> k < (n + (b - 1)) / b -> k * b < n.
Proof.
  intros Hb Hk.
  pose proof (Nat.Div0.mul_div_le (n + (b - 1)) b) as H.
  nia.
Qed.

Lemma batches_of_eq (payload : list vector_record) :
  batches_of payload =
    map (fun k => firstn BATCH_SIZE (skipn (k * BATCH_SIZE) payload))
        (seq 0 ((length payload + (BATCH_SIZE - 1)) / BATCH_SIZE)).
Proof.
  unfold batches_of, range_step; rewrite map_map, Nat.sub_0_r.
  apply map_ext; intros k; rewrite slice_width; reflexivity.
Qed.

Lemma batches_concat (payload : list vector_record) :
  concat (batches_of payload) = payload.
Proof.
  rewrite batches_of_eq; apply concat_slices.
  apply batch_count_covers; unfold BATCH_SIZE; lia.
Qed.

Lemma batches_sizes (payload : list vector_record) :
  Forall (fun b => 1 <= length b <= BATCH_SIZE) (batches_of payload).
Proof.
  rewrite batches_of_eq; apply Forall_forall; intros b Hb.
  apply in_map_iff in Hb as (k & <- & Hk); apply in_seq in Hk as [_ Hk].
  apply batch_count_tight in Hk; [|unfold BATCH_SIZE; lia].
  rewrite length_firstn, length_skipn.
  assert (0 < BATCH_SIZE) by (unfold BATCH_SIZE; lia); lia.
Qed.

Lemma slice_full {A} (l : list A) (b k : nat) :
  S k * b < length l -> length (firstn b (skipn (k * b) l)) = b.
Proof. intros H; rewrite length_firstn, length_skipn; lia. Qed.

Lemma batches_full (payload : list vector_record) (k : nat) (b : list vector_record) :
  nth_error (batches_of payload) k = Some b ->
  S k < length (batches_of payload) ->
  length b = BATCH_SIZE.
Proof.
  rewrite batches_of_eq, length_map, length_seq, nth_error_map; intros H Hk.
  destruct (nth_error (seq 0 ((length payload + (BATCH_SIZE - 1)) / BATCH_SIZE)) k)
    as [i|] eqn:E; [|discriminate].
  apply (nth_error_nth _ _ 0) in E; rewrite seq_nth in E by lia.
  cbn [option_map] in H.
  assert (Hb : firstn BATCH_SIZE (skipn (i * BATCH_SIZE) payload) = b) by congruence.
  rewrite <- Hb, <- E.
  apply slice_full, batch_count_tight; [unfold BATCH_SIZE; lia | exact Hk].
Qed.

Lemma build_payload_map (document_id : Z) (metadata : dict) (i : nat)
    (pairs : list (str * vector)) (acc : list vector_record) :
  build_payload document_id metadata i pairs acc =
    acc ++ map (fun kp => make_record document_id metadata (fst kp) (fst (snd kp)) (snd (snd kp)))
               (combine (seq i (length pairs)) pairs).
Proof.
  revert i acc; induction pairs as [|[chunk vec] rest IH]; intros i acc; simpl.
  - now rewrite app_nil_r.
  - rewrite IH, <- app_assoc; reflexivity.
Qed.

Lemma build_payload_length (document_id : Z) (metadata : dict)
    (pairs : list (str * vector)) :
  length (build_payload document_id metadata 0 pairs []) = length pairs.
Proof.
  rewrite build_payload_map; simpl.
  rewrite length_map, length_combine, length_seq; lia.
Qed.

(* ------------------------------------------------------------------ *)
(** *** Ingestion *)

Section StoreRuns.

Context {W : Type} (env : Env W) (self : AIProcessor).

Lemma for_each_upsert_run {A} (f : A -> list vector_record) (xs : list A)
    (s s' : state W) (u : unit) :
  for_each xs (fun i => do_upsert env (f i)) s = (Ok u, s') ->
  trace s' = trace s ++ map (fun i => EvUpsert (f i) (Ok tt)) xs.
Proof.
  revert s; induction xs as [|x xs IH]; intros s; simpl.
  - unfold ret; intros H; injection H as _ <-; now rewrite app_nil_r.
  - unfold bind at 1, do_upsert at 1, call.
    destruct (index_upsert env (f x) (world s)) as [[[]|e] w']; [|discriminate].
    intros H; apply IH in H; rewrite H; simpl.
    rewrite <- app_assoc; reflexivity.
Qed.

Lemma upload_batches_run (payload : list vector_record) (s s' : state W) (u : unit) :
  upload_batches env payload s = (Ok u, s') ->
  trace s' = trace s ++ map (fun b => EvUpsert b (Ok tt)) (batches_of payload).
Proof.
  unfold upload_batches; intros H.
  apply for_each_upsert_run in H; rewrite H.
  unfold batches_of; rewrite map_map; reflexivity.
Qed.

Lemma upload_and_verify_true (document_id : Z) (vectors : list vector)
    (payload : list vector_record) (s s' : state W) :
  upload_and_verify env document_id vectors payload s = (Ok true, s') ->
  exists resp m ms,
    trace s' = trace s
               ++ map (fun b => EvUpsert b (Ok tt)) (batches_of payload)
               ++ [EvSleep 2; EvQuery (verification_query document_id vectors) (Ok resp)]
    /\ r_matches resp = Some (m :: ms).
Proof.
  unfold upload_and_verify; unfold bind at 1.
  destruct (upload_batches env payload s) as [[u|e] s1] eqn:E; [|discriminate].
  apply upload_batches_run in E.
  run_monad; simpl.
  destruct (index_query env _ _) as [[resp|e] w']; simpl; [|discriminate].
  destruct (r_matches resp) as [[|m ms]|] eqn:Em; simpl; try discriminate.
  intros H; injection H as <-; simpl.
  exists resp, m, ms; split; [|exact Em].
  rewrite E, <- !app_assoc; reflexivity.
Qed.

Lemma stored_lists_same (chunks : list str) (raw : list vector) :
  (len (filter valid_vector raw) =? len chunks)%Z = true ->
  stored_vectors chunks raw = filter valid_vector raw
  /\ stored_chunks chunks raw = chunks.
Proof.
  unfold len, stored_vectors, stored_chunks; intros H.
  apply Z.eqb_eq, Nat2Z.inj in H; rewrite H, Nat.min_id.
  rewrite <- H at 1; rewrite !firstn_all; auto.
Qed.

(** What a successful [try] body has done. *)
Lemma store_attempt_true (document_id : Z) (text : str) (metadata : dict)
    (s s' : state W) :
  store_attempt env document_id text metadata s = (Ok true, s') ->
  exists chunks raw resp m ms,
    trace s' = trace s
               ++ [EvSplit text (Ok chunks); EvEncode chunks (Ok raw)]
               ++ map (fun b => EvUpsert b (Ok tt))
                      (batches_of (payload_of document_id metadata chunks raw))
               ++ [EvSleep 2;
                   EvQuery (verification_query document_id (stored_vectors chunks raw))
                           (Ok resp)]
    /\ payload_of document_id metadata chunks raw <> []
    /\ r_matches resp = Some (m :: ms).
Proof.
  unfold store_attempt; unfold bind at 1, do_split, call.
  destruct (split_text env text (world s)) as [[chunks|e] w1]; [|discriminate].
  rewrite len_zero; destruct (nonempty chunks) eqn:Hch; simpl; [|discriminate].
  unfold bind at 1, _embed; rewrite Hch; simpl.
  unfold bind at 1, do_encode, call; simpl.
  destruct (encode env chunks w1) as [[raw|e] w2]; [|discriminate].
  unfold ret at 1; rewrite validate_vectors_filter; simpl.
  rewrite len_zero.
  destruct (nonempty (filter valid_vector raw)) eqn:Hv; simpl; [|discriminate].
  assert (Hpair :
    (if negb (len (filter valid_vector raw) =? len chunks)%Z
     then (firstn (Nat.min (length (filter valid_vector raw)) (length chunks))
                  (filter valid_vector raw),
           firstn (Nat.min (length (filter valid_vector raw)) (length chunks)) chunks)
     else (filter valid_vector raw, chunks))
    = (stored_vectors chunks raw, stored_chunks chunks raw)).
  { destruct (len (filter valid_vector raw) =? len chunks)%Z eqn:E; simpl.
    - destruct (stored_lists_same chunks raw E) as [-> ->]; reflexivity.
    - reflexivity. }
  rewrite Hpair; fold (payload_of document_id metadata chunks raw).
  rewrite len_zero.
  destruct (nonempty (payload_of document_id metadata chunks raw)) eqn:Hp;
    simpl; [|discriminate].
  unfold try_except.
  destruct (upload_and_verify env document_id (stored_vectors chunks raw)
              (payload_of document_id metadata chunks raw) _) as [[b|e] s2] eqn:E;
    [|discriminate].
  intros H; injection H as -> <-.
  apply upload_and_verify_true in E as (resp & m & ms & Ht & Hm); simpl in Ht.
  exists chunks, raw, resp, m, ms; split; [|split; [|exact Hm]].
  - rewrite Ht, <- !app_assoc; reflexivity.
  - now apply nonempty_true.
Qed.

Lemma store_guard (text : str) :
  blank text -> negb (nonempty text) || negb (nonempty (strip text)) = true.
Proof.
  intros H; rewrite (strip_blank text H); apply orb_true_r.
Qed.

Lemma store_guard_false (text : str) :
  negb (nonempty text) || negb (nonempty (strip text)) = false -> ~ blank text.
Proof.
  intros H Hb; rewrite (store_guard text Hb) in H; discriminate.
Qed.

Lemma not_blank_guard (text : str) :
  ~ blank text -> negb (nonempty text) || negb (nonempty (strip text)) = false.
Proof.
  intros Hb; apply orb_false_iff; split; apply negb_false_iff, nonempty_true.
  - intros ->; apply Hb; constructor.
  - intros E; apply Hb; now apply strip_nil_blank.
Qed.

End StoreRuns.

(* ================================================================== *)
(** ** The embedder *)
(* ================================================================== *)

(** C8.  Whatever raw vectors the embedding model produces for a non-empty
    list of texts, [_embed] returns, without raising, exactly those of them
    that have 768 components and are not all zero, in order (so possibly
    fewer than it was given); every vector it ever returns has length 768 and
    is not all zero; and on the empty list it returns the empty list without
    calling the model (the state, trace included, is untouched). *)
Theorem embed_vectors_valid {W : Type} (env : Env W) (texts : list str) (s : state W) :
  (forall raw w',
      texts <> [] ->
      encode env texts (world s) = (Ok raw, w') ->
      exists kept,
        _embed env texts s = (Ok kept, mk_state w' (trace s ++ [EvEncode texts (Ok raw)]))
        /\ kept = filter valid_vector raw
        /\ (forall v, In v kept <-> In v raw /\ length v = 768 /\ ~ all_zero v)
        /\ length kept <= length raw)
  /\ (forall kept s',
         _embed env texts s = (Ok kept, s') ->
         Forall (fun v => length v = 768 /\ ~ all_zero v) kept)
  /\ _embed env [] s = (Ok [], s).
Proof.
  split; [|split].
  - intros raw w' Hne He.
    exists (filter valid_vector raw).
    split; [|split; [reflexivity|split]].
    + unfold _embed, bind, do_encode, call, ret.
      apply nonempty_true in Hne; rewrite Hne; simpl.
      rewrite He, validate_vectors_filter; reflexivity.
    + intros v; rewrite filter_In, valid_vector_iff; reflexivity.
    + apply filter_length_le.
  - intros kept s' H.
    unfold _embed, bind, do_encode, call, ret in H.
    destruct (nonempty texts); simpl in H.
    + destruct (encode env texts (world s)) as [[raw|e] w']; [|discriminate].
      injection H as <- _.
      rewrite validate_vectors_filter; simpl.
      apply Forall_forall; intros v Hv.
      apply filter_In in Hv as [_ Hv]; now apply valid_vector_iff in Hv.
    + injection H as <- _; constructor.
  - reflexivity.
Qed.

(** At a model that returns one good vector, one zero vector and one short
    vector, only the good one comes back. *)
Lemma embed_vectors_valid_witness :
  exists kept,
    _embed (scripted mixed_encode_script) [lit "a"; lit "b"; lit "c"] initial
    = (Ok kept,
       mk_state 0%float
         [EvEncode [lit "a"; lit "b"; lit "c"] (Ok [unit_vector; zero_vector; short_vector])])
    /\ kept = filter valid_vector [unit_vector; zero_vector; short_vector]
    /\ (forall v, In v kept <->
                  In v [unit_vector; zero_vector; short_vector] /\ length v = 768 /\ ~ all_zero v)
    /\ length kept <= 3.
Proof.
  destruct (embed_vectors_valid (scripted mixed_encode_script)
              [lit "a"; lit "b"; lit "c"] initial) as [H _].
  apply (H [unit_vector; zero_vector; short_vector] 0%float).
  - discriminate.
  - reflexivity.
Defined.

Example embed_mixed_run :
  fst (_embed (scripted mixed_encode_script) [lit "a"; lit "b"; lit "c"] initial)
  = Ok [unit_vector].
Proof. vm_compute. reflexivity. Qed.

(* ================================================================== *)
(** ** Context assembly *)
(* ================================================================== *)

(** C2.  The loop over the matches keeps a match exactly when its score is
    strictly greater than 0.3 and its stored text is not empty; the context
    chunks are the texts of the kept matches and [sources] their
    [(chunk_index, score)] pairs, both in the order the index returned them;
    the context is the kept texts joined by a blank line (two newlines); and
    the chat goes on with that context and those sources. *)
Theorem context_and_sources_follow_filter (matches : list index_match) :
  let kept := filter usable matches in
  collect_context matches [] [] = (map match_text kept, map source_of kept)
  /\ (forall m, In m kept <->
                In m matches
                /\ float_gtb (match_score m) 0.3%float = true
                /\ match_text m <> [])
  /\ context_of matches = join [NL; NL] (map match_text kept)
  /\ (forall (W : Type) (env : Env W) (self : AIProcessor) (question : str)
             (temperature start : float),
        answer_from_matches env self question temperature start matches =
          let context := join [NL; NL] (map match_text kept) in
          if negb (nonempty context) || (len (strip context) <? 50)%Z then
            (t <- elapsed env start ;; ret (mk_answer ANSWER_INSUFFICIENT [] t))
          else
            (response_text <-
               _call_groq_api env self
                 [ mk_message (lit "system") chat_system_prompt;
                   mk_message (lit "user") (chat_user_prompt context question) ]
                 temperature ;;
             response_time <- elapsed env start ;;
             ret (mk_answer response_text (firstn 5 (map source_of kept)) response_time))).
Proof.
  intros kept; split; [|split; [|split]].
  - apply (collect_context_filter matches [] []).
  - intros m; unfold kept; rewrite filter_In, usable_iff; reflexivity.
  - apply context_of_filter.
  - intros; unfold answer_from_matches.
    rewrite (collect_context_filter matches [] []); reflexivity.
Qed.

(** Of three ranked matches the two above the threshold make the context. *)
Lemma context_and_sources_follow_filter_witness :
  collect_context ranked_matches [] []
  = ([long_text 97%N; long_text 98%N], [mk_source 0 0.9%float; mk_source 1 0.5%float])
  /\ context_of ranked_matches = long_text 97%N ++ [NL; NL] ++ long_text 98%N.
Proof.
  destruct (context_and_sources_follow_filter ranked_matches) as (H1 & _ & H3 & _).
  split; [rewrite H1 | rewrite H3]; vm_compute; reflexivity.
Defined.

(** The example of the specification: scores 0.9, 0.5 and 0.2. *)
Example similarity_filter_example :
  fst (collect_context
         [ match_of 0.9%float 0 (lit "first"); match_of 0.5%float 1 (lit "second");
           match_of 0.2%float 2 (lit "third") ] [] [])
  = [lit "first"; lit "second"].
Proof. vm_compute. reflexivity. Qed.

(* ================================================================== *)
(** ** The chat *)
(* ================================================================== *)

(** C10.  The index is checked before the model client: when the index
    handle is absent, whatever the model client is, the chat answers with the
    message that begins [Vector database is not configured] and no sources,
    without calling any collaborator; this is not the [AI model is not
    configured] message. *)
Theorem chat_checks_index_before_model {W : Type} (env : Env W) (self : AIProcessor)
    (document_id : Z) (question : str) (temperature : float) (s : state W) :
  index self = None ->
  exists t s',
    chat_with_document env self document_id question temperature s
      = (Ok (mk_answer ANSWER_NO_INDEX [] t), s')
    /\ trace s' = trace s
    /\ startswith (lit "Vector database is not configured") ANSWER_NO_INDEX = true
    /\ ANSWER_NO_INDEX <> ANSWER_NO_MODEL.
Proof.
  intros Hi.
  rewrite chat_with_document_unfold.
  unfold try_except, chat_attempt; rewrite Hi; simpl.
  unfold bind; rewrite elapsed_run; simpl.
  eexists; eexists; split; [reflexivity|].
  split; [reflexivity|]; split; [reflexivity|].
  intros H; vm_compute in H; discriminate.
Qed.

(** With neither service configured the message is the one about the
    vector database. *)
Lemma chat_checks_index_before_model_witness :
  exists t s',
    chat_with_document (scripted base_script) unconfigured 7 the_question 0.1%float initial
      = (Ok (mk_answer ANSWER_NO_INDEX [] t), s')
    /\ trace s' = trace initial
    /\ startswith (lit "Vector database is not configured") ANSWER_NO_INDEX = true
    /\ ANSWER_NO_INDEX <> ANSWER_NO_MODEL.
Proof.
  apply (chat_checks_index_before_model (scripted base_script) unconfigured
           7 the_question 0.1%float initial).
  reflexivity.
Defined.

(** C5.  The chat never raises: for every processor, document, question and
    behaviour of the collaborators it returns an answer (a record with
    [answer], [sources] and [response_time]); and when anything inside its
    [try] raised, that answer is the fixed error message with no sources. *)
Theorem chat_never_raises {W : Type} (env : Env W) (self : AIProcessor)
    (document_id : Z) (question : str) (temperature : float) (s : state W) :
  exists a s',
    chat_with_document env self document_id question temperature s = (Ok a, s')
    /\ (forall start s0 e s1,
          now env s = (Ok start, s0) ->
          chat_attempt env self document_id question temperature start s0 = (Raise e, s1) ->
          answer a = ANSWER_ERROR /\ sources a = []).
Proof.
  rewrite chat_with_document_unfold; unfold try_except.
  destruct (chat_attempt env self document_id question temperature
              (fst (time_time env (world s)))
              (mk_state (snd (time_time env (world s))) (trace s)))
    as [[a|e] s1] eqn:E.
  - exists a, s1; split; [reflexivity|].
    intros start s0 e' s1' Hnow Hraise.
    rewrite now_run in Hnow; injection Hnow as <- <-.
    rewrite E in Hraise; discriminate.
  - rewrite chat_handler_run.
    eexists; eexists; split; [reflexivity|].
    intros; split; reflexivity.
Qed.

(** When the model cannot be reached the chat still answers, with the error
    message. *)
Lemma chat_never_raises_witness :
  exists a s',
    chat_with_document (scripted model_down_script) configured 7 the_question 0.1%float initial
      = (Ok a, s')
    /\ answer a = ANSWER_ERROR /\ sources a = [].
Proof.
  destruct (chat_never_raises (scripted model_down_script) configured 7 the_question
              0.1%float initial) as (a & s' & Hrun & Herr).
  exists a, s'; split; [exact Hrun|].
  eapply Herr; vm_compute; reflexivity.
Defined.

(** C3.  When the chat reaches the context step and the assembled context
    is empty, or shorter than 50 characters once stripped, it returns the
    fixed refusal with no sources, and the generative model is not called:
    nothing is added to the trace after the retrieval, and the requests sent
    to the model are those sent before the call. *)
Theorem chat_refuses_on_thin_context {W : Type} (env : Env W) (self : AIProcessor)
    (document_id : Z) (question : str) (temperature : float) (s : state W)
    (start : float) (matches : list index_match) (s2 : state W) :
  reaches_context env self document_id question s start matches s2 ->
  context_of matches = [] \/ length (strip (context_of matches)) < 50 ->
  exists t s',
    chat_with_document env self document_id question temperature s
      = (Ok (mk_answer ANSWER_INSUFFICIENT [] t), s')
    /\ trace s' = trace s2
    /\ model_calls (trace s') = model_calls (trace s).
Proof.
  intros Hreach Hthin.
  rewrite (@chat_after_retrieval _ env self _ _ temperature _ _ _ _ Hreach).
  unfold try_except; rewrite answer_from_matches_eq.
  assert (Hc : negb (nonempty (context_of matches))
               || (len (strip (context_of matches)) <? 50)%Z = true).
  { apply orb_true_iff; destruct Hthin as [H|H].
    - left; rewrite H; reflexivity.
    - right; unfold len; apply Z.ltb_lt; lia. }
  rewrite Hc; unfold bind; rewrite elapsed_run; simpl.
  eexists; eexists; split; [reflexivity|]; simpl.
  split; [reflexivity|].
  apply (@reaches_context_trace _ env self _ _ _ _ _ _ Hreach).
Qed.

(** A single match of nine characters gives the refusal. *)
Lemma chat_refuses_on_thin_context_witness :
  exists t s',
    chat_with_document (scripted thin_script) configured 7 the_question 0.1%float initial
      = (Ok (mk_answer ANSWER_INSUFFICIENT [] t), s')
    /\ trace s' = trace (after_embed thin_script the_question)
                  ++ [EvQuery (scoped_query 7 unit_vector) (found thin_matches)]
    /\ model_calls (trace s') = model_calls (trace initial).
Proof.
  apply (@chat_refuses_on_thin_context float (scripted thin_script) configured 7
           the_question 0.1%float initial 0%float thin_matches
           (mk_state 1%float
              (trace (after_embed thin_script the_question)
               ++ [EvQuery (scoped_query 7 unit_vector) (found thin_matches)]))).
  - apply scripted_reaches_context; reflexivity.
  - right; vm_compute; lia.
Defined.

(** C1 (as the code has it).  When the chat reaches the context step with a
    context of at least 50 characters and the model returns a completion,
    the answer carries that completion and, as [sources], the first five
    [(chunk_index, score)] pairs of the matches that pass the filter, in the
    order in which the index returned them; they are in descending order of
    score whenever the index returned its matches in that order. *)
Theorem chat_sources_first_five_in_index_order {W : Type} (env : Env W)
    (self : AIProcessor) (document_id : Z) (question : str) (temperature : float)
    (s : state W) (start : float) (matches : list index_match) (s2 : state W)
    (text : str) (s3 : state W) :
  reaches_context env self document_id question s start matches s2 ->
  context_of matches <> [] ->
  50 <= length (strip (context_of matches)) ->
  _call_groq_api env self (chat_messages (context_of matches) question) temperature s2
    = (Ok text, s3) ->
  exists t s4,
    chat_with_document env self document_id question temperature s
      = (Ok (mk_answer text (firstn 5 (map source_of (filter usable matches))) t), s4)
    /\ (matches_descending matches ->
        sources_descending (firstn 5 (map source_of (filter usable matches)))).
Proof.
  intros Hreach Hne Hlen Hcall.
  rewrite (@chat_after_retrieval _ env self _ _ temperature _ _ _ _ Hreach).
  unfold try_except; rewrite answer_from_matches_eq.
  assert (Hc : negb (nonempty (context_of matches))
               || (len (strip (context_of matches)) <? 50)%Z = false).
  { apply orb_false_iff; split.
    - apply negb_false_iff, nonempty_true; exact Hne.
    - unfold len; apply Z.ltb_ge; lia. }
  rewrite Hc; unfold bind; rewrite Hcall, elapsed_run; unfold ret.
  eexists; eexists; split; [reflexivity|].
  intros Hd.
  apply sources_descending_firstn, sources_descending_map, matches_descending_filter, Hd.
Qed.

(** Three ranked matches, two of them above the threshold. *)
Lemma chat_sources_first_five_in_index_order_witness :
  exists t s4,
    chat_with_document (scripted ranked_script) configured 7 the_question 0.1%float initial
      = (Ok (mk_answer (lit "The notice period is thirty days.")
               (firstn 5 (map source_of (filter usable ranked_matches))) t), s4)
    /\ (matches_descending ranked_matches ->
        sources_descending (firstn 5 (map source_of (filter usable ranked_matches)))).
Proof.
  eapply (@chat_sources_first_five_in_index_order float (scripted ranked_script) configured 7
            the_question 0.1%float initial 0%float ranked_matches
            (mk_state 1%float
               (trace (after_embed ranked_script the_question)
                ++ [EvQuery (scoped_query 7 unit_vector) (found ranked_matches)]))).
  - apply scripted_reaches_context; reflexivity.
  - vm_compute; discriminate.
  - vm_compute; lia.
  - vm_compute; reflexivity.
Defined.

(** C1 (as stated) fails: the index returns a match of score 0.5 before one
    of score 0.9, the model is called and answers, and the sources come back
    in that order, which is not descending. *)
Lemma chat_sources_not_sorted :
  exists t s',
    chat_with_document (scripted unranked_script) configured 7 the_question 0.1%float initial
      = (Ok (mk_answer (lit "The notice period is thirty days.")
               [mk_source 0 0.5%float; mk_source 1 0.9%float] t), s')
    /\ length (model_calls (trace s')) = 1
    /\ ~ sources_descending [mk_source 0 0.5%float; mk_source 1 0.9%float].
Proof.
  eexists; eexists; split; [vm_compute; reflexivity|].
  split; [vm_compute; reflexivity|].
  intros H; inversion H as [|? ? _ Hall]; subst.
  inversion Hall as [|? ? Hle _]; subst.
  vm_compute in Hle; discriminate.
Qed.

(** C9.  Once the question is embedded, the chat queries the index with an
    equality filter on the given document id and [top_k] 8.  When that query
    returns, the chat goes on with its matches and sends no other query.
    When it raises, the chat sends exactly one more query, without a filter,
    and goes on with its matches, or with no match when that one raises too.
    In every case the retrieval step does not raise and the chat returns an
    answer. *)
Theorem chat_retrieval_scoped_then_unscoped {W : Type} (env : Env W) (self : AIProcessor)
    (document_id : Z) (question : str) (temperature : float) (s : state W)
    (start : float) (s0 : state W) (query_vec : vector) (others : list vector)
    (s1 : state W) :
  index self <> None ->
  client self <> None ->
  now env s = (Ok start, s0) ->
  _embed env [question] s0 = (Ok (query_vec :: others), s1) ->
  scoped_query document_id query_vec
    = mk_query query_vec 8 (Some document_id) true (Some false)
  /\ q_filter (unscoped_query query_vec) = None
  /\ exists matches s2 a s3,
       retrieve_matches env document_id query_vec s1 = (Ok matches, s2)
       /\ chat_with_document env self document_id question temperature s
          = try_except (answer_from_matches env self question temperature start matches)
                       (chat_handler env start) s2
       /\ chat_with_document env self document_id question temperature s = (Ok a, s3)
       /\ match index_query env (scoped_query document_id query_vec) (world s1) with
          | (Ok r, _) =>
              matches = get_default (r_matches r) []
              /\ index_queries (trace s3)
                 = index_queries (trace s1) ++ [scoped_query document_id query_vec]
          | (Raise _, w2) =>
              matches = match index_query env (unscoped_query query_vec) w2 with
                        | (Ok r', _) => get_default (r_matches r') []
                        | (Raise _, _) => []
                        end
              /\ index_queries (trace s3)
                 = index_queries (trace s1)
                   ++ [scoped_query document_id query_vec; unscoped_query query_vec]
          end.
Proof.
  intros Hi Hc Hnow Hemb.
  split; [reflexivity|split; [reflexivity|]].
  assert (Hstep : forall matches s2,
             retrieve_matches env document_id query_vec s1 = (Ok matches, s2) ->
             reaches_context env self document_id question s start matches s2).
  { intros matches s2 Hr; split; [exact Hi|split; [exact Hc|]].
    exists s0, query_vec, others, s1; auto. }
  pose proof (retrieve_matches_run env document_id query_vec s1) as Hrun.
  destruct (index_query env (scoped_query document_id query_vec) (world s1))
    as [[r|e] w2].
  - destruct (chat_tail_run env self question temperature start
                (get_default (r_matches r) []) (mk_state w2 (trace s1 ++
                   [EvQuery (scoped_query document_id query_vec) (Ok r)])))
      as (a & s3 & Htail & Hq).
    eexists; eexists; exists a, s3.
    split; [exact Hrun|].
    rewrite (@chat_after_retrieval _ env self _ _ temperature _ _ _ _ (Hstep _ _ Hrun)).
    split; [reflexivity|split; [exact Htail|split; [reflexivity|]]].
    rewrite Hq; simpl; rewrite index_queries_app; reflexivity.
  - destruct (index_query env (unscoped_query query_vec) w2) as [[r'|e'] w3];
      match type of Hrun with
      | _ = (Ok ?ms, ?st) =>
          destruct (chat_tail_run env self question temperature start ms st)
            as (a & s3 & Htail & Hq);
          exists ms, st, a, s3
      end;
      (split; [exact Hrun|]);
      rewrite (@chat_after_retrieval _ env self _ _ temperature _ _ _ _ (Hstep _ _ Hrun));
      (split; [reflexivity|split; [exact Htail|split; [reflexivity|]]]);
      rewrite Hq; simpl; rewrite !index_queries_app; simpl;
      rewrite <- app_assoc; reflexivity.
Qed.

(** The scoped query is rejected and the unscoped one answers: two queries,
    and the chat answers from the matches of the second. *)
Lemma chat_retrieval_scoped_then_unscoped_witness :
  exists a s3,
    chat_with_document (scripted filter_rejected_script) configured 7 the_question
      0.1%float initial = (Ok a, s3)
    /\ index_queries (trace s3) = [scoped_query 7 unit_vector; unscoped_query unit_vector]
    /\ sources a = [mk_source 0 0.9%float; mk_source 1 0.5%float].
Proof.
  destruct (@chat_retrieval_scoped_then_unscoped float (scripted filter_rejected_script)
              configured 7 the_question 0.1%float initial 0%float
              (mk_state 1%float []) unit_vector []
              (after_embed filter_rejected_script the_question))
    as (_ & _ & matches & s2 & a & s3 & Hret & Hcont & Hrun & Hq).
  - discriminate.
  - discriminate.
  - reflexivity.
  - reflexivity.
  - exists a, s3; split; [exact Hrun|].
    simpl in Hq; destruct Hq as [Hm Hq].
    split; [exact Hq|].
    assert (E : (Ok a, s3) =
                chat_with_document (scripted filter_rejected_script) configured 7
                  the_question 0.1%float initial) by (symmetry; exact Hrun).
    vm_compute in E; injection E as -> _; reflexivity.
Defined.

(* ================================================================== *)
(** ** Document analysis *)
(* ================================================================== *)

(** C7.  When no model client is configured, or the text is empty or made
    of white space only, [analyze_document] returns exactly the canned
    fallback (the fixed summary, empty key points, clauses and risks, the one
    recommendation, a processing time of 0.0), with no [error] key, and
    touches nothing: the state, trace included, is the one it started from,
    so the model is not called. *)
Theorem analyze_blank_is_fallback {W : Type} (env : Env W) (self : AIProcessor)
    (text : str) (s : state W) :
  client self = None \/ blank text ->
  analyze_document env self text s =
    (Ok [ (lit "summary", VStr (lit "Analysis unavailable. Manual legal review required."));
          (lit "key_points", VList []);
          (lit "clauses", VList []);
          (lit "risks", VList []);
          (lit "recommendations", VList [VStr (lit "Manual legal review required")]);
          (lit "processing_time", VFloat 0%float) ],
     s)
  /\ dict_has (lit "error") _fallback_analysis = false
  /\ dict_get (lit "processing_time") _fallback_analysis = Some (VFloat 0%float).
Proof.
  intros H; apply (analyze_guard self) in H.
  unfold analyze_document; rewrite H.
  split; [reflexivity|split; reflexivity].
Qed.

(** A text of spaces, a tab and a newline, with the model configured. *)
Lemma analyze_blank_is_fallback_witness :
  analyze_document (scripted base_script) configured [SPACE; 9%N; NL; SPACE] initial =
    (Ok [ (lit "summary", VStr (lit "Analysis unavailable. Manual legal review required."));
          (lit "key_points", VList []);
          (lit "clauses", VList []);
          (lit "risks", VList []);
          (lit "recommendations", VList [VStr (lit "Manual legal review required")]);
          (lit "processing_time", VFloat 0%float) ],
     initial)
  /\ dict_has (lit "error") _fallback_analysis = false
  /\ dict_get (lit "processing_time") _fallback_analysis = Some (VFloat 0%float).
Proof.
  apply (analyze_blank_is_fallback (scripted base_script) configured
           [SPACE; 9%N; NL; SPACE] initial).
  right; repeat constructor.
Defined.

(** C6.  [analyze_document] always returns a dictionary that has the keys
    [summary], [key_points], [clauses], [risks], [recommendations] and
    [processing_time].  When the model was called: if the call raised, or
    [json.loads] raised on the cleaned response, or the parsed value is not
    an object, the result is the fallback with the elapsed time as
    [processing_time] and an [error] field; otherwise it is the parsed
    object, in which each of the five keys that was missing now holds the
    empty string ([summary]) or the empty list (the others), with the elapsed
    time as [processing_time]. *)
Theorem analyze_result_is_complete {W : Type} (env : Env W) (self : AIProcessor)
    (text : str) (s : state W) :
  exists d s',
    analyze_document env self text s = (Ok d, s')
    /\ Forall (fun k => dict_has k d = true)
         [ lit "summary"; lit "key_points"; lit "clauses"; lit "risks";
           lit "recommendations"; lit "processing_time" ]
    /\ (forall start s0,
          client self <> None -> ~ blank text ->
          now env s = (Ok start, s0) ->
          match _call_groq_api env self (analysis_messages (truncate_text text))
                  0.1%float s0 with
          | (Raise e, s1) =>
              d = degraded (PrimFloat.sub (fst (time_time env (world s1))) start) e
          | (Ok response_text, s1) =>
              let processing_time := PrimFloat.sub (fst (time_time env (world s1))) start in
              match json_loads env (clean_response response_text) with
              | Raise e => d = degraded processing_time e
              | Ok (VDict data) =>
                  d = dict_set (lit "processing_time") (VFloat processing_time) (backfill data)
                  /\ (forall k, In k analysis_keys ->
                        dict_get k (backfill data)
                        = Some (get_default (dict_get k data) (default_for k)))
                  /\ (forall k, ~ In k analysis_keys ->
                        dict_get k (backfill data) = dict_get k data)
              | Ok other => d = degraded processing_time (no_attribute other (lit "setdefault"))
              end
          end).
Proof.
  change [ lit "summary"; lit "key_points"; lit "clauses"; lit "risks";
           lit "recommendations"; lit "processing_time" ] with result_keys.
  destruct (negb (is_some (client self)) || negb (nonempty (strip text))) eqn:G.
  - exists _fallback_analysis, s; unfold analyze_document; rewrite G.
    split; [reflexivity|split; [apply fallback_has_keys|]].
    apply (analyze_guard self) in G; intros; tauto.
  - assert (Hc : client self <> None).
    { intros E; rewrite E in G; discriminate. }
    assert (Hb : ~ blank text).
    { intros E; apply orb_false_iff in G as [_ G].
      rewrite (strip_blank text E) in G; discriminate. }
    rewrite (analyze_document_unfold env self text s Hc Hb).
    unfold try_except; rewrite analyze_attempt_run.
    set (start := fst (time_time env (world s))).
    set (s0 := mk_state (snd (time_time env (world s))) (trace s)).
    assert (Hnow : forall start' s0', now env s = (Ok start', s0') ->
                                      start' = start /\ s0' = s0).
    { intros start' s0' E; rewrite now_run in E; injection E as <- <-; auto. }
    destruct (_call_groq_api env self (analysis_messages (truncate_text text))
                0.1%float s0) as [[response_text|e] s1] eqn:Ecall.
    + destruct (json_loads env (clean_response response_text)) as [data|e] eqn:Ejson.
      * destruct data as [| | | | |l|data];
          try (rewrite analyze_handler_run; eexists; eexists;
               split; [reflexivity|split; [apply degraded_has_keys|]];
               intros start' s0' _ _ E; apply Hnow in E as [-> ->];
               rewrite Ecall; cbv zeta; rewrite Ejson; reflexivity).
        eexists; eexists; split; [reflexivity|split; [apply backfilled_has_keys|]].
        intros start' s0' _ _ E; apply Hnow in E as [-> ->].
        rewrite Ecall; cbv zeta; rewrite Ejson.
        split; [reflexivity|split]; intros k Hk; rewrite backfill_get.
        -- assert (E : existsb (str_eqb k) analysis_keys = true).
           { apply existsb_exists; exists k; split; [exact Hk | apply str_eqb_refl]. }
           rewrite E; reflexivity.
        -- destruct (existsb (str_eqb k) analysis_keys) eqn:E; [|reflexivity].
           apply existsb_exists in E as (k' & Hk' & E).
           apply str_eqb_eq in E; subst; tauto.
      * rewrite analyze_handler_run; eexists; eexists.
        split; [reflexivity|split; [apply degraded_has_keys|]].
        intros start' s0' _ _ E; apply Hnow in E as [-> ->].
        rewrite Ecall; cbv zeta; rewrite Ejson; reflexivity.
    + rewrite analyze_handler_run; eexists; eexists.
      split; [reflexivity|split; [apply degraded_has_keys|]].
      intros start' s0' _ _ E; apply Hnow in E as [-> ->].
      rewrite Ecall; reflexivity.
Qed.

(** With the model unreachable the result is the fallback with the error of
    the transport and one second of processing time. *)
Lemma analyze_result_is_complete_witness :
  exists s',
    analyze_document (scripted model_down_script) configured lease_text initial
    = (Ok (degraded 1%float no_such_service), s').
Proof.
  destruct (analyze_result_is_complete (scripted model_down_script) configured
              lease_text initial) as (d & s' & Hrun & _ & Hcases).
  specialize (Hcases 0%float (mk_state 1%float [])).
  exists s'; rewrite Hrun.
  assert (Hd : d = degraded 1%float no_such_service).
  { apply Hcases.
    - discriminate.
    - intros H; inversion H as [|? ? Hc _]; vm_compute in Hc; discriminate.
    - reflexivity. }
  rewrite Hd; reflexivity.
Defined.

(** A fenced answer that has a summary only: the other keys are backfilled. *)
Example analyze_backfills_missing_keys :
  fst (analyze_document (scripted summary_only_script) configured lease_text initial)
  = Ok [ (K_SUMMARY, VStr (lit "A lease."));
         (K_KEY_POINTS, VList []); (K_CLAUSES, VList []); (K_RISKS, VList []);
         (K_RECOMMENDATIONS, VList []); (K_PROCESSING_TIME, VFloat 1%float) ].
Proof. vm_compute. reflexivity. Qed.

Example analyze_reports_parse_failure :
  fst (analyze_document (scripted bad_json_script) configured lease_text initial)
  = Ok (degraded 1%float
          (mk_exn JSONDecodeError (lit "Expecting value: line 1 column 1 (char 0)"))).
Proof. vm_compute. reflexivity. Qed.

Example clean_response_strips_fence :
  clean_response fenced_reply
  = lit "{" ++ quoted (lit "summary") ++ lit ": " ++ quoted (lit "A lease.") ++ lit "}".
Proof. vm_compute. reflexivity. Qed.

(* ================================================================== *)
(** ** Ingestion *)
(* ================================================================== *)

(** C4.  [store_document_embeddings] never raises: it always returns a
    boolean.  It returns [True] only after it has split the text, embedded
    the chunks, uploaded the whole payload in consecutive batches of 50
    records (the last one holds what is left, at least one record), waited,
    and got at least one match from a verification query scoped to the
    document id.  It returns [False] when
    the index is not configured, when the text is empty or blank, when the
    splitter produces no chunk, when no vector is valid, and when the
    verification query raises or returns no match. *)
Theorem store_true_only_if_verified {W : Type} (env : Env W) (self : AIProcessor)
    (document_id : Z) (text : str) (metadata : dict) (s : state W) :
  (exists b s', store_document_embeddings env self document_id text metadata s = (Ok b, s'))
  /\ (forall s',
        store_document_embeddings env self document_id text metadata s = (Ok true, s') ->
        index self <> None /\ ~ blank text /\
        exists chunks raw resp m ms,
          trace s' = trace s
                     ++ [EvSplit text (Ok chunks); EvEncode chunks (Ok raw)]
                     ++ map (fun b => EvUpsert b (Ok tt))
                            (batches_of (payload_of document_id metadata chunks raw))
                     ++ [EvSleep 2;
                         EvQuery (verification_query document_id (stored_vectors chunks raw))
                                 (Ok resp)]
          /\ payload_of document_id metadata chunks raw <> []
          /\ concat (batches_of (payload_of document_id metadata chunks raw))
             = payload_of document_id metadata chunks raw
          /\ Forall (fun b => 1 <= length b <= 50)
                    (batches_of (payload_of document_id metadata chunks raw))
          /\ (forall k b,
                nth_error (batches_of (payload_of document_id metadata chunks raw)) k
                = Some b ->
                S k < length (batches_of (payload_of document_id metadata chunks raw)) ->
                length b = 50)
          /\ q_filter (verification_query document_id (stored_vectors chunks raw))
             = Some document_id
          /\ r_matches resp = Some (m :: ms))
  /\ (index self = None ->
      store_document_embeddings env self document_id text metadata s = (Ok false, s))
  /\ (blank text ->
      store_document_embeddings env self document_id text metadata s = (Ok false, s))
  /\ (forall w1,
        index self <> None -> ~ blank text ->
        split_text env text (world s) = (Ok [], w1) ->
        store_document_embeddings env self document_id text metadata s
        = (Ok false, mk_state w1 (trace s ++ [EvSplit text (Ok [])])))
  /\ (forall chunks w1 raw w2,
        index self <> None -> ~ blank text ->
        split_text env text (world s) = (Ok chunks, w1) -> chunks <> [] ->
        encode env chunks w1 = (Ok raw, w2) ->
        filter valid_vector raw = [] ->
        store_document_embeddings env self document_id text metadata s
        = (Ok false,
           mk_state w2 (trace s ++ [EvSplit text (Ok chunks)] ++ [EvEncode chunks (Ok raw)])))
  /\ (forall b s' tr q r,
        store_document_embeddings env self document_id text metadata s = (Ok b, s') ->
        trace s' = tr ++ [EvQuery q r] ->
        match r with
        | Raise _ => True
        | Ok resp => get_default (r_matches resp) [] = []
        end ->
        b = false).
Proof.
  assert (Htrue : forall s',
    store_document_embeddings env self document_id text metadata s = (Ok true, s') ->
    index self <> None /\ ~ blank text /\
    exists chunks raw resp m ms,
      trace s' = trace s
                 ++ [EvSplit text (Ok chunks); EvEncode chunks (Ok raw)]
                 ++ map (fun b => EvUpsert b (Ok tt))
                        (batches_of (payload_of document_id metadata chunks raw))
                 ++ [EvSleep 2;
                     EvQuery (verification_query document_id (stored_vectors chunks raw))
                             (Ok resp)]
      /\ payload_of document_id metadata chunks raw <> []
      /\ r_matches resp = Some (m :: ms)).
  { intros s'; unfold store_document_embeddings.
    destruct (index self) as [ih|]; simpl; [|discriminate].
    destruct (negb (nonempty text) || negb (nonempty (strip text))) eqn:G;
      [discriminate|].
    unfold try_except.
    destruct (store_attempt env document_id text metadata s) as [[b|e] s1] eqn:E;
      [|discriminate].
    intros H; injection H as -> <-.
    split; [discriminate|split; [now apply store_guard_false|]].
    eapply store_attempt_true; exact E. }
  split; [|split; [|split; [|split; [|split; [|split]]]]].
  - unfold store_document_embeddings.
    destruct (negb (is_some (index self))); [eexists; eexists; reflexivity|].
    destruct (negb (nonempty text) || negb (nonempty (strip text)));
      [eexists; eexists; reflexivity|].
    unfold try_except.
    destruct (store_attempt env document_id text metadata s) as [[b|e] s1];
      eexists; eexists; reflexivity.
  - intros s' H; destruct (Htrue s' H)
      as (Hi & Hb & chunks & raw & resp & m & ms & Ht & Hp & Hm).
    split; [exact Hi|split; [exact Hb|]].
    exists chunks, raw, resp, m, ms.
    split; [exact Ht|split; [exact Hp|split; [apply batches_concat|]]].
    split; [apply batches_sizes|split; [apply batches_full|split; [reflexivity|exact Hm]]].
  - intros Hi; unfold store_document_embeddings; rewrite Hi; reflexivity.
  - intros Hb; unfold store_document_embeddings.
    rewrite (store_guard text Hb).
    destruct (negb (is_some (index self))); reflexivity.
  - intros w1 Hi Hb Hs; unfold store_document_embeddings.
    destruct (index self); [simpl|congruence].
    rewrite (not_blank_guard text Hb).
    unfold try_except, store_attempt; unfold bind at 1, do_split, call.
    rewrite Hs; reflexivity.
  - intros chunks w1 raw w2 Hi Hb Hs Hne He Hv; unfold store_document_embeddings.
    destruct (index self); [simpl|congruence].
    rewrite (not_blank_guard text Hb).
    unfold try_except, store_attempt; unfold bind at 1, do_split, call.
    rewrite Hs, len_zero.
    apply nonempty_true in Hne; rewrite Hne; simpl.
    unfold bind at 1, _embed; rewrite Hne; simpl.
    unfold bind at 1, do_encode, call; simpl.
    rewrite He; unfold ret at 1; rewrite validate_vectors_filter; simpl.
    rewrite Hv, <- app_assoc; reflexivity.
  - intros b s' tr q r Hrun Htr Hr.
    destruct b; [exfalso|reflexivity].
    destruct (Htrue s' Hrun) as (_ & _ & chunks & raw & resp & m & ms & Ht & _ & Hm).
    rewrite Htr in Ht.
    change [EvSleep 2;
            EvQuery (verification_query document_id (stored_vectors chunks raw)) (Ok resp)]
      with ([EvSleep 2] ++
            [EvQuery (verification_query document_id (stored_vectors chunks raw)) (Ok resp)])
      in Ht.
    rewrite !app_assoc in Ht.
    apply app_inj_tail in Ht as [_ Hev].
    injection Hev as _ ->.
    rewrite Hm in Hr; discriminate.
Qed.

(** A short document, one chunk, one vector, one batch, and an index that
    confirms the upload. *)
Lemma store_true_only_if_verified_witness :
  index configured <> None /\ ~ blank lease_text /\
  exists chunks raw resp m ms,
    trace (snd (store_document_embeddings (scripted stored_script) configured 7
                  lease_text [] initial))
    = trace initial
      ++ [EvSplit lease_text (Ok chunks); EvEncode chunks (Ok raw)]
      ++ map (fun b => EvUpsert b (Ok tt)) (batches_of (payload_of 7 [] chunks raw))
      ++ [EvSleep 2; EvQuery (verification_query 7 (stored_vectors chunks raw)) (Ok resp)]
    /\ payload_of 7 [] chunks raw <> []
    /\ concat (batches_of (payload_of 7 [] chunks raw)) = payload_of 7 [] chunks raw
    /\ Forall (fun b => 1 <= length b <= 50) (batches_of (payload_of 7 [] chunks raw))
    /\ (forall k b,
          nth_error (batches_of (payload_of 7 [] chunks raw)) k = Some b ->
          S k < length (batches_of (payload_of 7 [] chunks raw)) ->
          length b = 50)
    /\ q_filter (verification_query 7 (stored_vectors chunks raw)) = Some 7%Z
    /\ r_matches resp = Some (m :: ms).
Proof.
  destruct (store_true_only_if_verified (scripted stored_script) configured 7
              lease_text [] initial) as (_ & Htrue & _).
  apply Htrue.
  vm_compute; reflexivity.
Defined.

Example store_confirms_upload :
  fst (store_document_embeddings (scripted stored_script) configured 7 lease_text [] initial)
  = Ok true.
Proof. vm_compute. reflexivity. Qed.

Example store_unverified_is_false :
  fst (store_document_embeddings (scripted base_script) configured 7 lease_text [] initial)
  = Ok false.
Proof. vm_compute. reflexivity. Qed.

(** One hundred and twenty records go up as batches of 50, 50 and 20. *)
Example batches_of_120 :
  map (@length _) (batches_of (repeat (mk_record [] [] []) 120)) = [50; 50; 20].
Proof. vm_compute. reflexivity. Qed.

(* ================================================================== *)
(** ** Sanity checks of the embedding *)
(* ================================================================== *)

Example record_id_example :
  rec_id (make_record 7 [] 3 (lit "text") [])
  = lit "doc-7-chunk-3".
Proof. vm_compute. reflexivity. Qed.

Example str_of_negative : str_of_Z (-12) = lit "-12".
Proof. vm_compute. reflexivity. Qed.

Example strip_example :
  strip ([SPACE; NL] ++ lit "a b" ++ [9%N; 160%N]) = lit "a b".
Proof. vm_compute. reflexivity. Qed.

Example fence_only_opening :
  re_sub_fence (lit "```json{}") = lit "{}".
Proof. vm_compute. reflexivity. Qed.

Example fence_bare :
  re_sub_fence (lit "```") = [].
Proof. vm_compute. reflexivity. Qed.

Example caller_metadata_overrides :
  dict_get (lit "text")
    (rec_metadata (make_record 7 [(lit "text", VStr (lit "mine"))] 0 (lit "chunk") []))
  = Some (VStr (lit "mine")).
Proof. vm_compute. reflexivity. Qed.

Example timeout_is_translated :
  fst (_call_groq_api
         (scripted (with_post (Raise (mk_exn TimeoutException (lit "read timeout")))
                              base_script))
         configured [] 0.1%float initial)
  = Raise (mk_exn RuntimeError (lit "AI service timeout. Please try again.")).
Proof. vm_compute. reflexivity. Qed.

Example bad_status_is_an_error :
  fst (_call_groq_api
         (scripted (with_post (Ok (mk_response 429 (lit "slow down") (Ok []))) base_script))
         configured [] 0.1%float initial)
  = Raise (mk_exn RuntimeError (lit "Groq API error 429: slow down")).
Proof. vm_compute. reflexivity. Qed.


(* ================================================================== *)
(** ** The generative-model client *)
(* ================================================================== *)

(** The whole run of [_call_groq_api] with a client: one request, and the
    outcome read off the outcome of the transport. *)
Lemma call_groq_run {W : Type} (env : Env W) (self : AIProcessor)
    (messages : list message) (temperature : float) (s : state W) (c : groq_client) :
  client self = Some c ->
  _call_groq_api env self messages temperature s =
    (groq_outcome (fst (http_post env (groq_request c messages temperature) (world s))),
     mk_state (snd (http_post env (groq_request c messages temperature) (world s)))
       (trace s ++ [EvPost (groq_request c messages temperature)
                      (fst (http_post env (groq_request c messages temperature) (world s)))])).
Proof.
  intros Hc; unfold _call_groq_api; rewrite Hc; run_monad.
  fold (groq_request c messages temperature).
  destruct (http_post env (groq_request c messages temperature) (world s))
    as [[resp|e] w']; simpl.
  - destruct (negb (status_code resp =? 200)%Z); simpl; [reflexivity|].
    destruct (resp_content resp) as [text|e]; simpl; [reflexivity|].
    unfold translate_exn; destruct (is_timeout e); reflexivity.
  - unfold translate_exn; destruct (is_timeout e); reflexivity.
Qed.

Lemma call_groq_unconfigured {W : Type} (env : Env W) (self : AIProcessor)
    (messages : list message) (temperature : float) (s : state W) :
  client self = None ->
  _call_groq_api env self messages temperature s =
    (Raise (mk_exn RuntimeError (lit "Groq client not initialized")), s).
Proof. intros Hc; unfold _call_groq_api; rewrite Hc; reflexivity. Qed.

Lemma translate_exn_not_timeout (e : exn) : exn_cls (translate_exn e) <> TimeoutException.
Proof.
  unfold translate_exn, is_timeout.
  destruct (exn_cls e) eqn:E; simpl; try (rewrite E; discriminate); discriminate.
Qed.

(** X1.  [_call_groq_api] never retries: without a client it raises
    [RuntimeError("Groq client not initialized")] and sends nothing; with a
    client it sends exactly one request, whatever comes back, to
    [base_url + "/chat/completions"], with the bearer key, the client's
    model, the messages and temperature it was given, [max_tokens] 4000 and
    the client's timeout. *)
Theorem call_groq_sends_exactly_one_request {W : Type} (env : Env W) (self : AIProcessor)
    (messages : list message) (temperature : float) (s : state W) :
  match client self with
  | None =>
      _call_groq_api env self messages temperature s =
        (Raise (mk_exn RuntimeError (lit "Groq client not initialized")), s)
  | Some c =>
      exists r s' outcome,
        _call_groq_api env self messages temperature s = (r, s')
        /\ trace s' =
             trace s ++
             [EvPost
                (mk_request
                   (base_url c ++ lit "/chat/completions")
                   [ (lit "Authorization", lit "Bearer " ++ api_key c);
                     (lit "Content-Type", lit "application/json") ]
                   (mk_payload (model c) messages temperature 4000)
                   (timeout c))
                outcome]
  end.
Proof.
  destruct (client self) as [c|] eqn:Hc.
  - rewrite (call_groq_run env self messages temperature s c Hc).
    eexists; eexists; eexists; split; reflexivity.
  - now apply call_groq_unconfigured.
Qed.

Lemma call_groq_sends_exactly_one_request_witness :
  exists r s' outcome,
    _call_groq_api (scripted model_down_script) configured [] 0.1%float initial = (r, s')
    /\ trace s' =
         trace initial ++
         [EvPost
            (mk_request
               (lit "https://api.groq.com/openai/v1" ++ lit "/chat/completions")
               [ (lit "Authorization", lit "Bearer " ++ lit "key");
                 (lit "Content-Type", lit "application/json") ]
               (mk_payload (lit "llama") [] 0.1%float 4000)
               60%float)
            outcome].
Proof.
  exact (call_groq_sends_exactly_one_request (scripted model_down_script) configured
           [] 0.1%float initial).
Defined.

(** X2.  The outcomes of [_call_groq_api] with a client: it returns a text
    only when the transport answered with status 200 and that text as the
    completion; a response with another status raises [RuntimeError] with
    the status and the body in its message; a time-out of the transport
    raises [RuntimeError("AI service timeout. Please try again.")]; and no
    exception that leaves it is an [httpx.TimeoutException]. *)
Theorem call_groq_outcomes {W : Type} (env : Env W) (self : AIProcessor)
    (messages : list message) (temperature : float) (s : state W) (c : groq_client) :
  client self = Some c ->
  (forall text s',
      _call_groq_api env self messages temperature s = (Ok text, s') ->
      exists resp w',
        http_post env (groq_request c messages temperature) (world s) = (Ok resp, w')
        /\ status_code resp = 200%Z
        /\ resp_content resp = Ok text)
  /\ (forall resp w',
        http_post env (groq_request c messages temperature) (world s) = (Ok resp, w') ->
        status_code resp <> 200%Z ->
        fst (_call_groq_api env self messages temperature s) =
          Raise (mk_exn RuntimeError
                   (lit "Groq API error " ++ str_of_Z (status_code resp)
                    ++ lit ": " ++ resp_text resp)))
  /\ (forall e w',
        http_post env (groq_request c messages temperature) (world s) = (Raise e, w') ->
        exn_cls e = TimeoutException ->
        fst (_call_groq_api env self messages temperature s) =
          Raise (mk_exn RuntimeError (lit "AI service timeout. Please try again.")))
  /\ (forall e w',
        http_post env (groq_request c messages temperature) (world s) = (Raise e, w') ->
        exn_cls e <> TimeoutException ->
        fst (_call_groq_api env self messages temperature s) = Raise e)
  /\ (forall e s',
        _call_groq_api env self messages temperature s = (Raise e, s') ->
        exn_cls e <> TimeoutException).
Proof.
  intros Hc; rewrite (call_groq_run env self messages temperature s c Hc).
  destruct (http_post env (groq_request c messages temperature) (world s))
    as [r w] eqn:Hp; simpl.
  split; [|split; [|split; [|split]]].
  - intros text s' H; injection H as H _.
    destruct r as [resp|e]; simpl in H.
    + destruct (status_code resp =? 200)%Z eqn:Es; simpl in H; [|discriminate].
      destruct (resp_content resp) as [t|e] eqn:Ec; [|discriminate].
      injection H as ->; exists resp, w; split; [reflexivity|].
      split; [now apply Z.eqb_eq | exact Ec].
    + discriminate.
  - intros resp w' H Hs; injection H as -> _; simpl.
    apply Z.eqb_neq in Hs; rewrite Hs; reflexivity.
  - intros e w' H He; injection H as -> _; simpl.
    unfold translate_exn, is_timeout; rewrite He; reflexivity.
  - intros e w' H He; injection H as -> _; simpl.
    unfold translate_exn, is_timeout.
    destruct (exn_cls e); try reflexivity; congruence.
  - intros e s' H; injection H as H _.
    destruct r as [resp|e0]; simpl in H.
    + destruct (negb (status_code resp =? 200)%Z); [injection H as <-; discriminate|].
      destruct (resp_content resp) as [t|e1]; [discriminate|].
      injection H as <-; apply translate_exn_not_timeout.
    + injection H as <-; apply translate_exn_not_timeout.
Qed.

(** A 429 from the service. *)
Lemma call_groq_outcomes_witness :
  fst (_call_groq_api
         (scripted (with_post (Ok (mk_response 429 (lit "slow down") (Ok []))) base_script))
         configured [] 0.1%float initial)
  = Raise (mk_exn RuntimeError
             (lit "Groq API error " ++ str_of_Z 429 ++ lit ": " ++ lit "slow down")).
Proof.
  destruct (call_groq_outcomes
              (scripted (with_post (Ok (mk_response 429 (lit "slow down") (Ok []))) base_script))
              configured [] 0.1%float initial demo_client eq_refl)
    as (_ & H & _).
  apply (H (mk_response 429 (lit "slow down") (Ok [])) 0%float).
  - reflexivity.
  - discriminate.
Defined.

(* ================================================================== *)
(** ** Footprints *)
(* ================================================================== *)

Lemma encode_calls_app (a b : list event) :
  encode_calls (a ++ b) = encode_calls a ++ encode_calls b.
Proof.
  induction a as [|ev a IH]; simpl; [reflexivity|].
  destruct ev; simpl; rewrite IH; reflexivity.
Qed.

Lemma index_writes_app (a b : list event) :
  index_writes (a ++ b) = index_writes a ++ index_writes b.
Proof.
  induction a as [|ev a IH]; simpl; [reflexivity|].
  destruct ev; simpl; rewrite IH; reflexivity.
Qed.

Lemma within_nil : within 0 0 0 [].
Proof. repeat split; simpl; lia. Qed.

Lemma within_app (e1 q1 m1 e2 q2 m2 : nat) (a b : list event) :
  within e1 q1 m1 a -> within e2 q2 m2 b -> within (e1 + e2) (q1 + q2) (m1 + m2) (a ++ b).
Proof.
  unfold within; intros (A1 & A2 & A3 & A4) (B1 & B2 & B3 & B4).
  rewrite encode_calls_app, index_queries_app, model_calls_app, !length_app; lia.
Qed.

Lemma within_weaken (e q m e' q' m' : nat) (evs : list event) :
  e <= e' -> q <= q' -> m <= m' -> within e q m evs -> within e' q' m' evs.
Proof. unfold within; intros ? ? ? (A1 & A2 & A3 & A4); lia. Qed.

Lemma counted_events_le (evs : list event) :
  length (encode_calls evs) + length (index_queries evs) + length (model_calls evs)
  <= length evs.
Proof. induction evs as [|ev evs IH]; [simpl; lia|]; destruct ev; simpl; lia. Qed.

Lemma within_no_writes (e q m : nat) (evs : list event) :
  within e q m evs -> index_writes evs = [].
Proof.
  unfold within; intros (_ & _ & _ & H).
  induction evs as [|ev evs IH]; [reflexivity|].
  pose proof (counted_events_le evs) as Hle.
  destruct ev; simpl in *; try lia; apply IH; lia.
Qed.

Section Footprints.

Context {W : Type} (env : Env W) (self : AIProcessor).

Lemma embed_within (texts : list str) (s s' : state W) (r : result (list vector)) :
  _embed env texts s = (r, s') ->
  exists evs, trace s' = trace s ++ evs /\ within 1 0 0 evs.
Proof.
  unfold _embed; run_monad.
  destruct (nonempty texts); simpl.
  - destruct (encode env texts (world s)) as [[raw|e] w']; simpl;
      intros H; injection H as <- <-; simpl;
      eexists; (split; [reflexivity|]); repeat split; simpl; lia.
  - intros H; injection H as <- <-; exists []; rewrite app_nil_r.
    split; [reflexivity|]; apply (within_weaken 0 0 0); try lia; apply within_nil.
Qed.

Lemma retrieve_within (document_id : Z) (query_vec : vector) (s1 s2 : state W)
    (r : result (list index_match)) :
  retrieve_matches env document_id query_vec s1 = (r, s2) ->
  exists evs, trace s2 = trace s1 ++ evs /\ within 0 2 0 evs.
Proof.
  pose proof (retrieve_matches_run env document_id query_vec s1) as H.
  destruct (index_query env (scoped_query document_id query_vec) (world s1))
    as [[r1|e] w2].
  - rewrite H; intros E; injection E as <- <-; simpl.
    eexists; split; [reflexivity|]; repeat split; simpl; lia.
  - destruct (index_query env (unscoped_query query_vec) w2) as [[r'|e'] w3];
      rewrite H; intros E; injection E as <- <-; simpl;
      rewrite <- app_assoc; eexists; (split; [reflexivity|]);
      repeat split; simpl; lia.
Qed.

Lemma call_groq_within (messages : list message) (temperature : float)
    (s s' : state W) (r : result str) :
  _call_groq_api env self messages temperature s = (r, s') ->
  exists evs, trace s' = trace s ++ evs /\ within 0 0 1 evs.
Proof.
  destruct (client self) as [c|] eqn:Hc.
  - rewrite (call_groq_run env self messages temperature s c Hc).
    intros H; injection H as _ <-; simpl.
    eexists; split; [reflexivity|]; repeat split; simpl; lia.
  - rewrite (call_groq_unconfigured env self messages temperature s Hc).
    intros H; injection H as _ <-; exists []; rewrite app_nil_r.
    split; [reflexivity|]; apply (within_weaken 0 0 0); try lia; apply within_nil.
Qed.

Lemma answer_from_matches_within (question : str) (temperature start : float)
    (matches : list index_match) (s s' : state W) (r : result ChatAnswer) :
  answer_from_matches env self question temperature start matches s = (r, s') ->
  exists evs, trace s' = trace s ++ evs /\ within 0 0 1 evs.
Proof.
  rewrite answer_from_matches_eq.
  destruct (negb _ || _); unfold bind.
  - rewrite elapsed_run; intros H; injection H as <- <-; simpl.
    exists []; rewrite app_nil_r; split; [reflexivity|].
    apply (within_weaken 0 0 0); try lia; apply within_nil.
  - destruct (_call_groq_api env self _ temperature s) as [[text|e] s1] eqn:E;
      apply call_groq_within in E as (evs & E1 & E2).
    + rewrite elapsed_run; intros H; injection H as <- <-; simpl; eauto.
    + intros H; injection H as <- <-; eauto.
Qed.

Lemma chat_attempt_within (document_id : Z) (question : str)
    (temperature start : float) (s0 s1 : state W) (r : result ChatAnswer) :
  chat_attempt env self document_id question temperature start s0 = (r, s1) ->
  exists evs, trace s1 = trace s0 ++ evs /\ within 1 2 1 evs.
Proof.
  assert (Hidle : forall t : list event, exists evs, t = t ++ evs /\ within 1 2 1 evs).
  { intros t; exists []; rewrite app_nil_r; split; [reflexivity|].
    apply (within_weaken 0 0 0); try lia; apply within_nil. }
  unfold chat_attempt.
  destruct (negb (is_some (index self))).
  { unfold bind; rewrite elapsed_run; intros H; injection H as _ <-; simpl; apply Hidle. }
  destruct (negb (is_some (client self))).
  { unfold bind; rewrite elapsed_run; intros H; injection H as _ <-; simpl; apply Hidle. }
  unfold bind at 1.
  destruct (_embed env [question] s0) as [[vs|e] sa] eqn:Ee;
    apply embed_within in Ee as (ev1 & T1 & I1).
  - destruct vs as [|qv others].
    + unfold bind; rewrite elapsed_run; intros H; injection H as _ <-; simpl.
      exists ev1; split; [exact T1|].
      apply (within_weaken 1 0 0); try lia; exact I1.
    + unfold bind at 1.
      destruct (retrieve_matches env document_id qv sa) as [[ms|e] sb] eqn:Er;
        apply retrieve_within in Er as (ev2 & T2 & I2).
      * intros H; apply answer_from_matches_within in H as (ev3 & T3 & I3).
        exists (ev1 ++ ev2 ++ ev3); split.
        -- rewrite T3, T2, T1, <- !app_assoc; reflexivity.
        -- apply (@within_app 1 0 0 0 2 1 ev1 (ev2 ++ ev3) I1
                    (@within_app 0 2 0 0 0 1 ev2 ev3 I2 I3)).
      * intros H; injection H as _ <-.
        exists (ev1 ++ ev2); split; [rewrite T2, T1, <- app_assoc; reflexivity|].
        apply (within_weaken 1 2 0); try lia.
        apply (@within_app 1 0 0 0 2 0 ev1 ev2 I1 I2).
  - intros H; injection H as _ <-.
    exists ev1; split; [exact T1|].
    apply (within_weaken 1 0 0); try lia; exact I1.
Qed.

End Footprints.

(** X3.  Whatever the collaborators do, one call of [chat_with_document]
    returns an answer after at most one call to the embedding model, at most
    two queries to the index and at most one request to the generative model,
    and nothing else: it never writes to the index, never splits, never
    sleeps, never retries the model. *)
Theorem chat_footprint {W : Type} (env : Env W) (self : AIProcessor)
    (document_id : Z) (question : str) (temperature : float) (s : state W) :
  exists a s' evs,
    chat_with_document env self document_id question temperature s = (Ok a, s')
    /\ trace s' = trace s ++ evs
    /\ length (encode_calls evs) <= 1
    /\ length (index_queries evs) <= 2
    /\ length (model_calls evs) <= 1
    /\ length evs
       = length (encode_calls evs) + length (index_queries evs) + length (model_calls evs)
    /\ index_writes evs = [].
Proof.
  rewrite chat_with_document_unfold; unfold try_except.
  destruct (chat_attempt env self document_id question temperature _ _)
    as [[a|e] s1] eqn:E;
    apply chat_attempt_within in E as (evs & T & I); simpl in T.
  - exists a, s1, evs; split; [reflexivity|split; [exact T|]].
    pose proof (@within_no_writes _ _ _ _ I) as Hw; destruct I as (I1 & I2 & I3 & I4); auto 10.
  - rewrite chat_handler_run; eexists; eexists; exists evs.
    split; [reflexivity|split; [exact T|]].
    pose proof (@within_no_writes _ _ _ _ I) as Hw; destruct I as (I1 & I2 & I3 & I4); auto 10.
Qed.

(** With the scoped query rejected: one encode, two queries, one request. *)
Lemma chat_footprint_witness :
  exists a s' evs,
    chat_with_document (scripted filter_rejected_script) configured 7 the_question
      0.1%float initial = (Ok a, s')
    /\ trace s' = trace initial ++ evs
    /\ length (encode_calls evs) <= 1
    /\ length (index_queries evs) <= 2
    /\ length (model_calls evs) <= 1
    /\ length evs
       = length (encode_calls evs) + length (index_queries evs) + length (model_calls evs)
    /\ index_writes evs = [].
Proof.
  exact (chat_footprint (scripted filter_rejected_script) configured 7 the_question
           0.1%float initial).
Defined.

(* ================================================================== *)
(** ** More on the chat *)
(* ================================================================== *)

Section ChatAnswers.

Context {W : Type} (env : Env W) (self : AIProcessor).

(** An answer of the [try] body either has no sources or is the completion
    of a model call, made after the retrieval, with the first five usable
    matches as sources. *)
Lemma chat_attempt_answer (document_id : Z) (question : str)
    (temperature start : float) (s0 s1 : state W) (a : ChatAnswer) :
  chat_attempt env self document_id question temperature start s0 = (Ok a, s1) ->
  sources a = []
  \/ exists matches s2 s3,
       sources a = firstn 5 (map source_of (filter usable matches))
       /\ _call_groq_api env self (chat_messages (context_of matches) question)
            temperature s2 = (Ok (answer a), s3)
       /\ trace s1 = trace s3.
Proof.
  unfold chat_attempt.
  destruct (negb (is_some (index self))).
  { unfold bind; rewrite elapsed_run; intros H; injection H as <- _; now left. }
  destruct (negb (is_some (client self))).
  { unfold bind; rewrite elapsed_run; intros H; injection H as <- _; now left. }
  unfold bind at 1.
  destruct (_embed env [question] s0) as [[vs|e] sa]; [|discriminate].
  destruct vs as [|qv others].
  { unfold bind; rewrite elapsed_run; intros H; injection H as <- _; now left. }
  unfold bind at 1.
  destruct (retrieve_matches env document_id qv sa) as [[ms|e] sb]; [|discriminate].
  rewrite answer_from_matches_eq.
  destruct (negb _ || _); unfold bind.
  { rewrite elapsed_run; intros H; injection H as <- _; now left. }
  destruct (_call_groq_api env self _ temperature sb) as [[text|e] sc] eqn:E;
    [|discriminate].
  rewrite elapsed_run; intros H; injection H as <- <-; right.
  exists ms, sb, sc; simpl; auto.
Qed.

End ChatAnswers.

Lemma usable_sources_above_threshold (n : nat) (matches : list index_match) :
  Forall (fun src => float_gtb (score src) 0.3%float = true)
         (firstn n (map source_of (filter usable matches))).
Proof.
  apply Forall_forall; intros src Hsrc.
  apply in_firstn, in_map_iff in Hsrc as (m & <- & Hm).
  apply filter_In in Hm as [_ Hm]; apply usable_iff in Hm as [Hm _]; exact Hm.
Qed.

(** X4.  On every path of [chat_with_document] the answer carries at most
    five sources, each with a score strictly above 0.3; and sources come
    only with a completion: when the list is not empty, the last thing the
    chat did was a request to the model that was answered with status 200,
    and [answer] is that completion, unchanged. *)
Theorem chat_sources_bounded {W : Type} (env : Env W) (self : AIProcessor)
    (document_id : Z) (question : str) (temperature : float) (s : state W) :
  exists a s',
    chat_with_document env self document_id question temperature s = (Ok a, s')
    /\ length (sources a) <= 5
    /\ Forall (fun src => float_gtb (score src) 0.3%float = true) (sources a)
    /\ (sources a <> [] ->
        exists tr req resp,
          trace s' = tr ++ [EvPost req (Ok resp)]
          /\ status_code resp = 200%Z
          /\ resp_content resp = Ok (answer a)).
Proof.
  rewrite chat_with_document_unfold; unfold try_except.
  destruct (chat_attempt env self document_id question temperature _ _)
    as [[a|e] s1] eqn:E.
  - exists a, s1; split; [reflexivity|].
    apply chat_attempt_answer in E as [E|(ms & s2 & s3 & Es & Ec & Et)].
    + rewrite E; split; [simpl; lia|split; [constructor|congruence]].
    + rewrite Es; split; [apply firstn_le_length|].
      split; [apply usable_sources_above_threshold|]; intros _.
      destruct (client self) as [c|] eqn:Hc.
      * rewrite (call_groq_run env self _ temperature s2 c Hc) in Ec.
        injection Ec as Ho <-; rewrite Et; simpl.
        destruct (http_post env _ (world s2)) as [[resp|e] w']; simpl in *;
          [|discriminate].
        destruct (status_code resp =? 200)%Z eqn:Hs; simpl in Ho; [|discriminate].
        destruct (resp_content resp) as [t|e] eqn:Hr; [|discriminate].
        injection Ho as <-.
        eexists; eexists; exists resp; split; [reflexivity|].
        split; [now apply Z.eqb_eq | exact Hr].
      * rewrite (call_groq_unconfigured env self _ temperature s2 Hc) in Ec.
        discriminate.
  - rewrite chat_handler_run; eexists; eexists; split; [reflexivity|]; simpl.
    split; [lia|split; [constructor|congruence]].
Qed.

(** Three ranked matches: two sources, after a request answered with 200. *)
Lemma chat_sources_bounded_witness :
  exists a s',
    chat_with_document (scripted ranked_script) configured 7 the_question 0.1%float initial
      = (Ok a, s')
    /\ length (sources a) <= 5
    /\ Forall (fun src => float_gtb (score src) 0.3%float = true) (sources a)
    /\ (sources a <> [] ->
        exists tr req resp,
          trace s' = tr ++ [EvPost req (Ok resp)]
          /\ status_code resp = 200%Z
          /\ resp_content resp = Ok (answer a)).
Proof.
  exact (chat_sources_bounded (scripted ranked_script) configured 7 the_question
           0.1%float initial).
Defined.

(** X5.  The chat gives up before the retrieval in two more cases.  With
    the index configured but no model client it answers that the AI model is
    not configured, without calling any collaborator.  With both configured,
    when the embedding model returns no valid vector for the question it
    answers that it failed to process the question: the index is not queried
    and the model is not called. *)
Theorem chat_gives_up_before_retrieval {W : Type} (env : Env W) (self : AIProcessor)
    (document_id : Z) (question : str) (temperature : float) (s : state W) :
  (index self <> None -> client self = None ->
   exists t s',
     chat_with_document env self document_id question temperature s
       = (Ok (mk_answer ANSWER_NO_MODEL [] t), s')
     /\ trace s' = trace s)
  /\ (forall start w0 raw w1,
        index self <> None -> client self <> None ->
        time_time env (world s) = (start, w0) ->
        encode env [question] w0 = (Ok raw, w1) ->
        filter valid_vector raw = [] ->
        exists t s',
          chat_with_document env self document_id question temperature s
            = (Ok (mk_answer ANSWER_NO_EMBEDDING [] t), s')
          /\ trace s' = trace s ++ [EvEncode [question] (Ok raw)]).
Proof.
  split.
  - intros Hi Hc; rewrite chat_with_document_unfold.
    unfold try_except, chat_attempt.
    destruct (index self); [|congruence]; rewrite Hc; simpl.
    unfold bind; rewrite elapsed_run; simpl.
    eexists; eexists; split; reflexivity.
  - intros start w0 raw w1 Hi Hc Ht He Hv; rewrite chat_with_document_unfold.
    unfold try_except, chat_attempt.
    destruct (index self); [|congruence].
    destruct (client self); [|congruence]; simpl.
    rewrite Ht; simpl.
    unfold bind at 1, _embed; simpl.
    unfold bind at 1, do_encode, call; simpl.
    rewrite He; unfold ret at 1; rewrite validate_vectors_filter, Hv; simpl.
    unfold bind; rewrite elapsed_run; simpl.
    eexists; eexists; split; reflexivity.
Qed.

(** An embedding model that returns a zero vector for the question. *)
Lemma chat_gives_up_before_retrieval_witness :
  exists t s',
    chat_with_document (scripted zero_encode_script) configured 7 the_question
      0.1%float initial
      = (Ok (mk_answer ANSWER_NO_EMBEDDING [] t), s')
    /\ trace s' = trace initial ++ [EvEncode [the_question] (Ok [zero_vector])].
Proof.
  destruct (chat_gives_up_before_retrieval (scripted zero_encode_script) configured
              7 the_question 0.1%float initial) as [_ H].
  apply (H 0%float 1%float [zero_vector] 1%float).
  - discriminate.
  - discriminate.
  - reflexivity.
  - reflexivity.
  - vm_compute; reflexivity.
Defined.

(** X6.  When the chat reaches the context step with at least 50
    characters of context, the one request it sends to the model carries the
    caller's temperature and two messages: the fixed system prompt and a user
    prompt that embeds the context and the question unchanged.  A completion
    comes back as the answer with the first five usable sources; any failure
    of the call gives the error answer and no sources. *)
Theorem chat_request_and_outcome {W : Type} (env : Env W) (self : AIProcessor)
    (document_id : Z) (question : str) (temperature : float) (s : state W)
    (start : float) (matches : list index_match) (s2 : state W) (c : groq_client) :
  reaches_context env self document_id question s start matches s2 ->
  client self = Some c ->
  context_of matches <> [] ->
  50 <= length (strip (context_of matches)) ->
  exists a s',
    chat_with_document env self document_id question temperature s = (Ok a, s')
    /\ model_calls (trace s')
       = model_calls (trace s)
         ++ [groq_request c
               [ mk_message (lit "system") chat_system_prompt;
                 mk_message (lit "user") (chat_user_prompt (context_of matches) question) ]
               temperature]
    /\ match groq_outcome
               (fst (http_post env
                       (groq_request c (chat_messages (context_of matches) question)
                          temperature)
                       (world s2))) with
       | Ok text =>
           answer a = text
           /\ sources a = firstn 5 (map source_of (filter usable matches))
       | Raise _ => answer a = ANSWER_ERROR /\ sources a = []
       end.
Proof.
  intros Hreach Hc Hne Hlen.
  rewrite (@chat_after_retrieval _ env self _ _ temperature _ _ _ _ Hreach).
  unfold try_except; rewrite answer_from_matches_eq.
  assert (Hg : negb (nonempty (context_of matches))
               || (len (strip (context_of matches)) <? 50)%Z = false).
  { apply orb_false_iff; split.
    - apply negb_false_iff, nonempty_true; exact Hne.
    - unfold len; apply Z.ltb_ge; lia. }
  rewrite Hg; unfold bind at 1.
  rewrite (call_groq_run env self _ temperature s2 c Hc).
  pose proof (@reaches_context_trace _ env self _ _ _ _ _ _ Hreach) as Hm.
  destruct (groq_outcome _) as [text|e] eqn:Ho.
  - unfold bind; rewrite elapsed_run; unfold ret.
    eexists; eexists; split; [reflexivity|]; simpl.
    rewrite model_calls_app, Hm; split; [reflexivity|auto].
  - rewrite chat_handler_run.
    eexists; eexists; split; [reflexivity|]; simpl.
    rewrite model_calls_app, Hm; split; [reflexivity|auto].
Qed.

(** The model is down after a good retrieval: the request went out with the
    caller's temperature, and the answer is the error message. *)
Lemma chat_request_and_outcome_witness :
  exists a s',
    chat_with_document (scripted model_down_script) configured 7 the_question
      0.7%float initial = (Ok a, s')
    /\ model_calls (trace s')
       = [groq_request demo_client
            [ mk_message (lit "system") chat_system_prompt;
              mk_message (lit "user")
                (chat_user_prompt (context_of ranked_matches) the_question) ]
            0.7%float]
    /\ answer a = ANSWER_ERROR /\ sources a = [].
Proof.
  destruct (@chat_request_and_outcome float (scripted model_down_script) configured 7
              the_question 0.7%float initial 0%float ranked_matches
              (mk_state 1%float
                 (trace (after_embed model_down_script the_question)
                  ++ [EvQuery (scoped_query 7 unit_vector) (found ranked_matches)]))
              demo_client)
    as (a & s' & Hrun & Hcalls & Hout).
  - apply scripted_reaches_context; reflexivity.
  - reflexivity.
  - vm_compute; discriminate.
  - vm_compute; lia.
  - exists a, s'; split; [exact Hrun|split; [exact Hcalls|exact Hout]].
Defined.

(* ================================================================== *)
(** ** More on document analysis *)
(* ================================================================== *)

Lemma truncate_text_firstn (text : str) : truncate_text text = firstn 5000 text.
Proof.
  unfold truncate_text, len.
  destruct (5000 <? Z.of_nat (length text))%Z eqn:E; [reflexivity|].
  apply Z.ltb_ge in E; symmetry; apply firstn_all2; lia.
Qed.

Lemma analyze_attempt_trace {W : Type} (env : Env W) (self : AIProcessor)
    (truncated_text : str) (start : float) (s0 s1 : state W) (r : result dict)
    (c : groq_client) :
  client self = Some c ->
  analyze_attempt env self truncated_text start s0 = (r, s1) ->
  trace s1 =
    trace s0 ++
    [EvPost (groq_request c (analysis_messages truncated_text) 0.1%float)
       (fst (http_post env (groq_request c (analysis_messages truncated_text) 0.1%float)
               (world s0)))].
Proof.
  intros Hc; rewrite analyze_attempt_run.
  rewrite (call_groq_run env self _ 0.1%float s0 c Hc).
  destruct (groq_outcome _) as [response_text|e].
  - destruct (json_loads env (clean_response response_text)) as [data|e].
    + destruct data; intros H; injection H as _ <-; reflexivity.
    + intros H; injection H as _ <-; reflexivity.
  - intros H; injection H as _ <-; reflexivity.
Qed.

(** X7.  With a client and a text that is not blank, [analyze_document]
    makes exactly one request to the model and calls nothing else: the
    temperature is 0.1, the system message is the fixed analysis prompt, and
    the user message is [Document to analyze:], a newline, and the first 5000
    characters of the text (the whole text when it is shorter). *)
Theorem analyze_sends_truncated_text {W : Type} (env : Env W) (self : AIProcessor)
    (text : str) (s : state W) (c : groq_client) :
  client self = Some c ->
  ~ blank text ->
  exists d s' outcome,
    analyze_document env self text s = (Ok d, s')
    /\ trace s' =
         trace s ++
         [EvPost
            (groq_request c
               [ mk_message (lit "system") analysis_system_prompt;
                 mk_message (lit "user")
                   (lit "Document to analyze:" ++ [NL] ++ firstn 5000 text) ]
               0.1%float)
            outcome]
    /\ length (firstn 5000 text) <= 5000.
Proof.
  intros Hc Hb.
  assert (Hc' : client self <> None) by congruence.
  rewrite (analyze_document_unfold env self text s Hc' Hb).
  unfold try_except.
  destruct (analyze_attempt env self (truncate_text text) _ _) as [[d|e] s1] eqn:E;
    apply (analyze_attempt_trace env self _ _ _ _ _ c Hc) in E;
    unfold analysis_messages in E; rewrite truncate_text_firstn in E;
    cbn [trace world] in E.
  - exists d, s1; eexists; split; [reflexivity|split; [exact E|apply firstn_le_length]].
  - rewrite analyze_handler_run; eexists; eexists; eexists.
    split; [reflexivity|split; [exact E|apply firstn_le_length]].
Qed.

Lemma analyze_sends_truncated_text_witness :
  exists d s' outcome,
    analyze_document (scripted model_down_script) configured lease_text initial = (Ok d, s')
    /\ trace s' =
         trace initial ++
         [EvPost
            (groq_request demo_client
               [ mk_message (lit "system") analysis_system_prompt;
                 mk_message (lit "user")
                   (lit "Document to analyze:" ++ [NL] ++ firstn 5000 lease_text) ]
               0.1%float)
            outcome]
    /\ length (firstn 5000 lease_text) <= 5000.
Proof.
  apply (analyze_sends_truncated_text (scripted model_down_script) configured
           lease_text initial demo_client).
  - reflexivity.
  - intros H; inversion H as [|? ? Hc _]; vm_compute in Hc; discriminate.
Defined.

(* ------------------------------------------------------------------ *)
(** *** Stripping *)

Lemma blank_rev_inv (s : str) : blank s -> blank (rev s).
Proof. intros H; apply blank_rev; now rewrite rev_involutive. Qed.

Lemma lstrip_app_blank (a s : str) : blank a -> lstrip (a ++ s) = lstrip s.
Proof.
  induction 1 as [|c a Hc _ IH]; simpl; [reflexivity|].
  now rewrite Hc.
Qed.

Lemma rstrip_app_blank (s b : str) : blank b -> rstrip (s ++ b) = rstrip s.
Proof.
  intros Hb; unfold rstrip; rewrite rev_app_distr, lstrip_app_blank; [reflexivity|].
  now apply blank_rev_inv.
Qed.

Lemma lstrip_length (s : str) : length (lstrip s) <= length s.
Proof.
  induction s as [|c s IH]; simpl; [lia|].
  destruct (is_space c); simpl; lia.
Qed.

Lemma rstrip_length (s : str) : length (rstrip s) <= length s.
Proof.
  unfold rstrip; rewrite length_rev.
  pose proof (lstrip_length (rev s)) as H; rewrite length_rev in H; exact H.
Qed.

Lemma lstrip_same_length (s : str) : length (lstrip s) = length s -> lstrip s = s.
Proof.
  destruct s as [|c s]; simpl; [reflexivity|].
  destruct (is_space c); [|reflexivity].
  intros H; pose proof (lstrip_length s); lia.
Qed.

Lemma stripped_lstrip (s : str) : stripped s -> lstrip s = s.
Proof.
  unfold stripped, strip; intros H.
  apply lstrip_same_length.
  pose proof (rstrip_length (lstrip s)) as H1; rewrite H in H1.
  pose proof (lstrip_length s); lia.
Qed.

Lemma stripped_rstrip (s : str) : stripped s -> rstrip s = s.
Proof.
  intros H; pose proof (stripped_lstrip s H) as Hl.
  unfold stripped, strip in H; now rewrite Hl in H.
Qed.

Lemma lstrip_stripped_app (body b : str) :
  stripped body -> body <> [] -> lstrip (body ++ b) = body ++ b.
Proof.
  intros H Hne; apply stripped_lstrip in H.
  destruct body as [|c r]; [congruence|]; simpl in *.
  destruct (is_space c); [|reflexivity].
  pose proof (lstrip_length r) as Hl; rewrite H in Hl; simpl in Hl; lia.
Qed.

(** A stripped text between two runs of white space strips to itself. *)
Lemma strip_padded (a body b : str) :
  blank a -> blank b -> stripped body -> strip (a ++ body ++ b) = body.
Proof.
  intros Ha Hb Hs; unfold strip; rewrite lstrip_app_blank by exact Ha.
  destruct body as [|c r] eqn:E.
  - simpl; rewrite (lstrip_blank b Hb); reflexivity.
  - rewrite <- E in *.
    rewrite lstrip_stripped_app by (auto; congruence).
    rewrite rstrip_app_blank by exact Hb.
    now apply stripped_rstrip.
Qed.

Lemma rstrip_last (t : str) (y : char) : is_space y = false -> rstrip (t ++ [y]) = t ++ [y].
Proof.
  intros Hy; unfold rstrip; rewrite rev_app_distr; simpl; rewrite Hy; simpl.
  rewrite rev_involutive; reflexivity.
Qed.

Lemma stripped_enclosed (x y : char) (t : str) :
  is_space x = false -> is_space y = false -> stripped (x :: t ++ [y]).
Proof.
  intros Hx Hy; unfold stripped, strip; simpl; rewrite Hx.
  apply (rstrip_last (x :: t) y Hy).
Qed.

Lemma startswith_app (p s : str) : startswith p (p ++ s) = true.
Proof.
  induction p as [|c p IH]; simpl; [reflexivity|].
  now rewrite N.eqb_refl.
Qed.

Lemma endswith_app (s p : str) : endswith p (s ++ p) = true.
Proof. unfold endswith; rewrite rev_app_distr; apply startswith_app. Qed.

Lemma drop_suffix (s p : str) : firstn (length (s ++ p) - length p) (s ++ p) = s.
Proof.
  rewrite length_app, Nat.add_sub, firstn_app, Nat.sub_diag, firstn_all; simpl.
  apply app_nil_r.
Qed.

(** X8.  [clean_response] unwraps a fenced JSON answer: for a stripped
    [body], the response made of an opening fence with the [json] tag, white
    space, [body], white space and a closing fence, itself surrounded by any
    white space, cleans to [body]; and a response that does not open with a
    fence cleans to its stripped text. *)
Theorem clean_response_unwraps_json_fence (w0 a body b w3 : str) :
  blank w0 -> blank a -> blank b -> blank w3 -> stripped body ->
  clean_response (w0 ++ (lit "```json" ++ a ++ body ++ b ++ lit "```") ++ w3) = body
  /\ (forall response, startswith (lit "```") (strip response) = false ->
                       clean_response response = strip response).
Proof.
  intros H0 Ha Hb H3 Hs; split.
  - unfold clean_response.
    assert (Hraw : stripped (lit "```json" ++ a ++ body ++ b ++ lit "```")).
    { change (lit "```json" ++ a ++ body ++ b ++ lit "```")
        with (96%N :: (lit "``json" ++ a ++ body ++ b ++ lit "``" ++ [96%N])).
      replace (lit "``json" ++ a ++ body ++ b ++ lit "``" ++ [96%N])
        with ((lit "``json" ++ a ++ body ++ b ++ lit "``") ++ [96%N])
        by (rewrite <- !app_assoc; reflexivity).
      apply stripped_enclosed; reflexivity. }
    rewrite (strip_padded w0 _ w3 H0 H3 Hraw).
    change (startswith FENCE (lit "```json" ++ a ++ body ++ b ++ lit "```")) with true.
    cbv iota; unfold re_sub_fence.
    change (startswith FENCE_JSON (lit "```json" ++ a ++ body ++ b ++ lit "```")) with true.
    cbv iota.
    change (skipn (length FENCE_JSON) (lit "```json" ++ a ++ body ++ b ++ lit "```"))
      with (a ++ body ++ b ++ FENCE).
    replace (a ++ body ++ b ++ FENCE) with ((a ++ body ++ b) ++ FENCE)
      by (rewrite <- !app_assoc; reflexivity).
    rewrite endswith_app, drop_suffix.
    apply strip_padded; assumption.
  - intros response H; unfold clean_response; unfold FENCE; rewrite H; reflexivity.
Qed.

Lemma clean_response_unwraps_json_fence_witness :
  clean_response ([SPACE] ++ (lit "```json" ++ [NL] ++ summary_json ++ [NL] ++ lit "```")
                  ++ [NL])
  = summary_json
  /\ (forall response, startswith (lit "```") (strip response) = false ->
                       clean_response response = strip response).
Proof.
  apply (clean_response_unwraps_json_fence [SPACE] [NL] summary_json [NL] [NL]).
  - repeat constructor.
  - repeat constructor.
  - repeat constructor.
  - repeat constructor.
  - vm_compute; reflexivity.
Defined.

(** X9.  Only the [json] tag is recognised: a response fenced with a bare
    opening fence (followed by white space) keeps that fence.  For a
    stripped, non-empty [body], the closing fence and the white space before
    it go, the opening fence and the white space after it stay. *)
Theorem clean_response_keeps_bare_fence (a body b : str) :
  blank a -> a <> [] -> blank b -> stripped body -> body <> [] ->
  clean_response (lit "```" ++ a ++ body ++ b ++ lit "```") = lit "```" ++ a ++ body.
Proof.
  intros Ha Hne Hb Hs Hbody; unfold clean_response.
  assert (Hraw : stripped (lit "```" ++ a ++ body ++ b ++ lit "```")).
  { change (lit "```" ++ a ++ body ++ b ++ lit "```")
      with (96%N :: (lit "``" ++ a ++ body ++ b ++ lit "``" ++ [96%N])).
    replace (lit "``" ++ a ++ body ++ b ++ lit "``" ++ [96%N])
      with ((lit "``" ++ a ++ body ++ b ++ lit "``") ++ [96%N])
      by (rewrite <- !app_assoc; reflexivity).
    apply stripped_enclosed; reflexivity. }
  rewrite Hraw.
  change (startswith FENCE (lit "```" ++ a ++ body ++ b ++ lit "```")) with true.
  cbv iota; unfold re_sub_fence.
  assert (Hj : startswith FENCE_JSON (lit "```" ++ a ++ body ++ b ++ lit "```") = false).
  { destruct a as [|x a']; [congruence|].
    inversion Ha as [|? ? Hx _]; subst.
    change (startswith FENCE_JSON (lit "```" ++ (x :: a') ++ body ++ b ++ lit "```"))
      with ((106 =? x)%N && startswith (lit "son") (a' ++ body ++ b ++ lit "```")).
    destruct (N.eqb_spec 106 x) as [<-|N]; [discriminate Hx|reflexivity]. }
  rewrite Hj.
  replace (lit "```" ++ a ++ body ++ b ++ lit "```")
    with ((lit "```" ++ a ++ body ++ b) ++ FENCE)
    by (unfold FENCE; rewrite <- !app_assoc; reflexivity).
  rewrite endswith_app, drop_suffix.
  replace (lit "```" ++ a ++ body ++ b) with ([] ++ (lit "```" ++ a ++ body) ++ b)
    by (simpl; rewrite <- !app_assoc; reflexivity).
  apply strip_padded; [constructor|exact Hb|].
  destruct (exists_last Hbody) as (r & y & ->).
  assert (Hy : is_space y = false).
  { apply stripped_rstrip in Hs; unfold rstrip in Hs.
    rewrite rev_app_distr in Hs; simpl in Hs.
    destruct (is_space y) eqn:E; [|reflexivity].
    apply (f_equal (@length _)) in Hs; rewrite length_rev, length_app in Hs; simpl in Hs.
    pose proof (lstrip_length (rev r)) as Hl; rewrite length_rev in Hl; lia. }
  change (lit "```" ++ a ++ r ++ [y]) with (96%N :: (lit "``" ++ a ++ r ++ [y])).
  replace (lit "``" ++ a ++ r ++ [y]) with ((lit "``" ++ a ++ r) ++ [y])
    by (rewrite <- !app_assoc; reflexivity).
  apply stripped_enclosed; [reflexivity|exact Hy].
Qed.

Lemma clean_response_keeps_bare_fence_witness :
  clean_response (lit "```" ++ [NL] ++ summary_json ++ [NL] ++ lit "```")
  = lit "```" ++ [NL] ++ summary_json.
Proof.
  apply (clean_response_keeps_bare_fence [NL] summary_json [NL]).
  - repeat constructor.
  - discriminate.
  - repeat constructor.
  - vm_compute; reflexivity.
  - discriminate.
Defined.

(* ================================================================== *)
(** ** More on ingestion *)
(* ================================================================== *)

Section StoreShapes.

Context {W : Type} (env : Env W) (self : AIProcessor).

(** The upload loop either sends every batch, or stops at the first one
    that is refused. *)
Lemma for_each_upsert_cases {A} (f : A -> list vector_record) (xs : list A)
    (s s' : state W) (r : result unit) :
  for_each xs (fun i => do_upsert env (f i)) s = (r, s') ->
  match r with
  | Ok _ => trace s' = trace s ++ map (fun i => uploaded (f i)) xs
  | Raise e =>
      exists before x after,
        xs = before ++ x :: after
        /\ trace s' = trace s ++ map (fun i => uploaded (f i)) before
                      ++ [EvUpsert (f x) (Raise e)]
  end.
Proof.
  revert s; induction xs as [|x xs IH]; intros s; simpl.
  - unfold ret; intros H; injection H as <- <-; now rewrite app_nil_r.
  - unfold bind at 1, do_upsert at 1, call.
    destruct (index_upsert env (f x) (world s)) as [[[]|e] w'].
    + intros H; apply IH in H; simpl in H.
      destruct r as [u|e].
      * rewrite H, <- app_assoc; reflexivity.
      * destruct H as (before & y & after & -> & H).
        exists (x :: before), y, after; split; [reflexivity|].
        rewrite H, <- !app_assoc; reflexivity.
    + intros H; injection H as <- <-.
      exists [], x, xs; split; reflexivity.
Qed.

Lemma upload_and_verify_cases (document_id : Z) (vectors : list vector)
    (payload : list vector_record) (s s' : state W) (r : result bool) :
  upload_and_verify env document_id vectors payload s = (r, s') ->
  (exists before batch after e,
      batches_of payload = before ++ batch :: after
      /\ trace s' = trace s ++ map uploaded before ++ [EvUpsert batch (Raise e)]
      /\ r = Raise e)
  \/ (exists o,
        trace s' = trace s ++ map uploaded (batches_of payload)
                   ++ [EvSleep 2; EvQuery (verification_query document_id vectors) o]
        /\ match r with Ok b => b = verdict o | Raise _ => verdict o = false end).
Proof.
  unfold upload_and_verify; unfold bind at 1.
  destruct (upload_batches env payload s) as [[u|e] s1] eqn:E;
    unfold upload_batches in E; apply for_each_upsert_cases in E.
  - intros H; right.
    assert (E' : trace s1 = trace s ++ map uploaded (batches_of payload)).
    { rewrite E; unfold batches_of; rewrite map_map; reflexivity. }
    clear E; revert H; run_monad; simpl.
    destruct (index_query env _ _) as [[resp|e] w'] eqn:Eq; simpl.
    + destruct (nonempty (get_default (r_matches resp) [])) eqn:En; simpl;
        intros H; injection H as <- <-; simpl;
        exists (Ok resp); rewrite E', <- !app_assoc; simpl; rewrite En; auto.
    + intros H; injection H as <- <-; simpl.
      exists (Raise e); rewrite E', <- !app_assoc; simpl; auto.
  - intros H; injection H as <- <-; left.
    destruct E as (before & x & after & Hxs & Ht).
    exists (map (fun i => slice i (i + BATCH_SIZE) payload) before),
           (slice x (x + BATCH_SIZE) payload),
           (map (fun i => slice i (i + BATCH_SIZE) payload) after), e.
    split; [unfold batches_of; rewrite Hxs, map_app; reflexivity|].
    split; [rewrite Ht, map_map; reflexivity|reflexivity].
Qed.

Lemma store_attempt_shape (document_id : Z) (text : str) (metadata : dict)
    (s s' : state W) (r : result bool) :
  store_attempt env document_id text metadata s = (r, s') ->
  exists evs,
    trace s' = trace s ++ evs
    /\ store_shape document_id text metadata evs
         (match r with Ok b => b | Raise _ => false end).
Proof.
  unfold store_attempt; unfold bind at 1, do_split, call.
  destruct (split_text env text (world s)) as [[chunks|e] w1]; simpl.
  2:{ intros H; injection H as <- <-; eexists; split; [reflexivity|constructor]. }
  rewrite len_zero; destruct (nonempty chunks) eqn:Hch; simpl.
  2:{ apply nonempty_false in Hch; subst chunks.
      unfold ret; intros H; injection H as <- <-; eexists; split; [reflexivity|constructor]. }
  apply nonempty_true in Hch.
  unfold bind at 1, _embed.
  assert (Hch' := Hch); apply nonempty_true in Hch'; rewrite Hch'; simpl.
  unfold bind at 1, do_encode, call; simpl.
  destruct (encode env chunks w1) as [[raw|e] w2].
  2:{ intros H; injection H as <- <-; simpl; rewrite <- app_assoc.
      eexists; split; [reflexivity|]; now constructor. }
  unfold ret at 1; rewrite validate_vectors_filter; simpl.
  rewrite len_zero.
  destruct (nonempty (filter valid_vector raw)) eqn:Hv; simpl.
  2:{ apply nonempty_false in Hv.
      unfold ret; intros H; injection H as <- <-; simpl; rewrite <- app_assoc.
      eexists; split; [reflexivity|]; now constructor. }
  assert (Hpair :
    (if negb (len (filter valid_vector raw) =? len chunks)%Z
     then (firstn (Nat.min (length (filter valid_vector raw)) (length chunks))
                  (filter valid_vector raw),
           firstn (Nat.min (length (filter valid_vector raw)) (length chunks)) chunks)
     else (filter valid_vector raw, chunks))
    = (stored_vectors chunks raw, stored_chunks chunks raw)).
  { destruct (len (filter valid_vector raw) =? len chunks)%Z eqn:E; simpl.
    - destruct (stored_lists_same chunks raw E) as [-> ->]; reflexivity.
    - reflexivity. }
  rewrite Hpair; fold (payload_of document_id metadata chunks raw).
  rewrite len_zero.
  destruct (nonempty (payload_of document_id metadata chunks raw)) eqn:Hp; simpl.
  2:{ exfalso.
      apply nonempty_false in Hp; apply (f_equal (@length _)) in Hp.
      unfold payload_of in Hp; rewrite build_payload_length, length_combine in Hp.
      unfold stored_chunks, stored_vectors in Hp; rewrite !length_firstn in Hp.
      simpl in Hp.
      destruct chunks; [congruence|].
      destruct (filter valid_vector raw); [discriminate|simpl in Hp; lia]. }
  apply nonempty_true in Hp.
  unfold try_except.
  destruct (upload_and_verify env document_id (stored_vectors chunks raw)
              (payload_of document_id metadata chunks raw) _) as [r1 s2] eqn:E.
  apply upload_and_verify_cases in E; simpl in E.
  destruct E as [(before & batch & after & e & Hb & Ht & ->)|(o & Ht & Hr)].
  - unfold ret; intros H; injection H as <- <-.
    eexists; split; [rewrite Ht, <- !app_assoc; reflexivity|].
    now apply (shape_upload_failed _ _ _ _ _ _ _ _ e Hch Hb).
  - assert (Hres : (match r1 with Ok a => (Ok a, s2) | Raise _ => ret false s2 end)
                   = (Ok (verdict o), s2)).
    { destruct r1 as [b|e]; [now rewrite Hr | unfold ret; now rewrite Hr]. }
    rewrite Hres; intros H; injection H as <- <-.
    eexists; split; [rewrite Ht, <- !app_assoc; reflexivity|].
    now apply shape_verified.
Qed.

End StoreShapes.

Lemma store_document_embeddings_shape {W : Type} (env : Env W) (self : AIProcessor)
    (document_id : Z) (text : str) (metadata : dict) (s : state W) :
  exists b s' evs,
    store_document_embeddings env self document_id text metadata s = (Ok b, s')
    /\ trace s' = trace s ++ evs
    /\ store_shape document_id text metadata evs b.
Proof.
  unfold store_document_embeddings.
  destruct (negb (is_some (index self))).
  { exists false, s, []; rewrite app_nil_r; repeat split; constructor. }
  destruct (negb (nonempty text) || negb (nonempty (strip text))).
  { exists false, s, []; rewrite app_nil_r; repeat split; constructor. }
  unfold try_except.
  destruct (store_attempt env document_id text metadata s) as [[b|e] s'] eqn:E;
    apply store_attempt_shape in E as (evs & Ht & Hs).
  - exists b, s', evs; auto.
  - exists false, s', evs; auto.
Qed.

(** X10.  Every call of [store_document_embeddings] returns a boolean and
    does one of seven things: nothing (index absent or blank text); the split
    alone (it raised or gave no chunk); the split and one embedding call (it
    raised or no vector was valid); these two and the upload of the batches up
    to the first one that is refused; or these two, the upload of every batch,
    a 2-second sleep and the verification query, whose answer alone decides
    the result.  Only the last can return [True]. *)
Theorem store_run_has_a_shape {W : Type} (env : Env W) (self : AIProcessor)
    (document_id : Z) (text : str) (metadata : dict) (s : state W) :
  exists b s' evs,
    store_document_embeddings env self document_id text metadata s = (Ok b, s')
    /\ trace s' = trace s ++ evs
    /\ store_shape document_id text metadata evs b.
Proof. exact (store_document_embeddings_shape env self document_id text metadata s). Qed.

Lemma store_run_has_a_shape_witness :
  exists b s' evs,
    store_document_embeddings flaky_upsert_env configured 7 lease_text [] (mk_state 0 [])
      = (Ok b, s')
    /\ trace s' = [] ++ evs
    /\ store_shape 7 lease_text [] evs b.
Proof.
  exact (store_run_has_a_shape flaky_upsert_env configured 7 lease_text []
           (mk_state 0 [])).
Defined.

Lemma failed_upsert_is_last (l : list event) (x : event) (pre : list event)
    (y : event) (post : list event) :
  Forall (fun ev => failed_upsert ev = false) l ->
  failed_upsert y = true ->
  l ++ [x] = pre ++ y :: post ->
  post = [] /\ x = y.
Proof.
  intros Hl Hy E.
  destruct (exists_last (l:=y :: post)) as (q & z & Hq); [discriminate|].
  destruct post as [|p post'].
  - change (pre ++ [y]) with (pre ++ [y]) in E.
    apply app_inj_tail in E as [_ E]; auto.
  - exfalso.
    destruct (exists_last (l:=p :: post')) as (q' & z' & Hq'); [discriminate|].
    rewrite Hq' in E.
    change (pre ++ y :: q' ++ [z']) with (pre ++ (y :: q') ++ [z']) in E.
    rewrite app_assoc in E; apply app_inj_tail in E as [E _].
    rewrite Forall_forall in Hl.
    assert (Hin : In y l) by (rewrite E; apply in_or_app; right; now left).
    apply Hl in Hin; congruence.
Qed.

Lemma uploaded_not_failed (bs : list (list vector_record)) :
  Forall (fun ev => failed_upsert ev = false) (map uploaded bs).
Proof. apply Forall_forall; intros ev H; apply in_map_iff in H as (b & <- & _); reflexivity. Qed.

(** X11.  A refused upsert ends the call: when any upsert of a call of
    [store_document_embeddings] raises, it is the last thing the call does (no
    later batch is sent, no sleep, no verification query), the call returns
    [False], and every batch sent before it in the call was accepted, so the
    index is left with part of the document. *)
Theorem store_stops_at_refused_upsert {W : Type} (env : Env W) (self : AIProcessor)
    (document_id : Z) (text : str) (metadata : dict) (s : state W)
    (b : bool) (s' : state W) (pre : list event) (batch : list vector_record)
    (e : exn) (post : list event) :
  store_document_embeddings env self document_id text metadata s = (Ok b, s') ->
  trace s' = trace s ++ pre ++ EvUpsert batch (Raise e) :: post ->
  post = [] /\ b = false
  /\ Forall (fun ev => failed_upsert ev = false) pre.
Proof.
  intros Hrun Ht.
  destruct (store_document_embeddings_shape env self document_id text metadata s)
    as (b0 & s0 & evs & Hrun0 & Ht0 & Hs).
  rewrite Hrun in Hrun0; injection Hrun0 as <- <-.
  rewrite Ht in Ht0; apply app_inv_head in Ht0.
  assert (Hin : In (EvUpsert batch (Raise e)) evs).
  { rewrite <- Ht0; apply in_or_app; right; now left. }
  destruct Hs as [ | e0 | | chunks e0 Hc | chunks raw Hc Hv
                 | chunks raw before bt after e0 Hc Hb
                 | chunks raw o Hc Hp ].
  - destruct Hin.
  - destruct Hin as [H|[]]; discriminate.
  - destruct Hin as [H|[]]; discriminate.
  - destruct Hin as [H|[H|[]]]; discriminate.
  - destruct Hin as [H|[H|[]]]; discriminate.
  - assert (Hl : Forall (fun ev => failed_upsert ev = false)
                   ([EvSplit text (Ok chunks); EvEncode chunks (Ok raw)]
                    ++ map uploaded before)).
    { apply Forall_app; split; [repeat constructor|apply uploaded_not_failed]. }
    rewrite app_assoc in Ht0.
    destruct (failed_upsert_is_last
                ([EvSplit text (Ok chunks); EvEncode chunks (Ok raw)] ++ map uploaded before)
                (EvUpsert bt (Raise e0)) pre (EvUpsert batch (Raise e)) post
                Hl eq_refl (eq_sym Ht0)) as [-> Hx].
    apply app_inj_tail in Ht0 as [-> _].
    split; [reflexivity|split; [reflexivity|exact Hl]].
  - exfalso.
    assert (Hl : Forall (fun ev => failed_upsert ev = false)
                   (([EvSplit text (Ok chunks); EvEncode chunks (Ok raw)]
                     ++ map uploaded
                          (batches_of (payload_of document_id metadata chunks raw)))
                    ++ [EvSleep 2;
                        EvQuery (verification_query document_id (stored_vectors chunks raw))
                                o])).
    { apply Forall_app; split; [apply Forall_app; split|];
        [repeat constructor|apply uploaded_not_failed|repeat constructor]. }
    rewrite <- app_assoc in Hl; rewrite Forall_forall in Hl.
    apply Hl in Hin; discriminate.
Qed.

(** 120 chunks make three batches; the second is refused. *)
Lemma store_stops_at_refused_upsert_witness :
  ([] : list event) = [] /\ false = false
  /\ Forall (fun ev => failed_upsert ev = false)
       [ EvSplit lease_text (Ok many_chunks);
         EvEncode many_chunks (Ok many_vectors);
         uploaded (firstn 50 many_records) ].
Proof.
  apply (@store_stops_at_refused_upsert nat flaky_upsert_env configured 7 lease_text []
           (mk_state 0 []) false
           (snd (store_document_embeddings flaky_upsert_env configured 7 lease_text []
                   (mk_state 0 [])))
           [ EvSplit lease_text (Ok many_chunks);
             EvEncode many_chunks (Ok many_vectors);
             uploaded (firstn 50 many_records) ]
           (firstn 50 (skipn 50 many_records)) no_such_service []).
  - vm_compute; reflexivity.
  - vm_compute; reflexivity.
Defined.

(* ------------------------------------------------------------------ *)
(** *** The records *)

Lemma nth_error_combine {A B} (l1 : list A) (l2 : list B) (i : nat) (a : A) (b : B) :
  nth_error (combine l1 l2) i = Some (a, b) <->
  nth_error l1 i = Some a /\ nth_error l2 i = Some b.
Proof.
  revert l2 i; induction l1 as [|x l1 IH]; intros [|y l2] [|i]; simpl;
    try (split; [discriminate | intros [? ?]; discriminate]).
  - split; [intros H; injection H as -> ->; auto | intros [H1 H2]; congruence].
  - apply IH.
Qed.

Lemma nth_error_firstn_some {A} (n : nat) (l : list A) (i : nat) (x : A) :
  nth_error (firstn n l) i = Some x -> nth_error l i = Some x.
Proof.
  rewrite nth_error_firstn; destruct (i <? n)%nat; [trivial|discriminate].
Qed.

Lemma payload_of_map (document_id : Z) (metadata : dict) (chunks : list str)
    (raw : list vector) :
  payload_of document_id metadata chunks raw =
    map (fun kp => make_record document_id metadata (fst kp) (fst (snd kp)) (snd (snd kp)))
        (combine (seq 0 (length (combine (stored_chunks chunks raw)
                                         (stored_vectors chunks raw))))
                 (combine (stored_chunks chunks raw) (stored_vectors chunks raw))).
Proof. unfold payload_of; rewrite build_payload_map; reflexivity. Qed.

(** X12.  The records are paired by position after validation: the [i]-th
    record of the payload is made of the [i]-th chunk and of the [i]-th
    vector that passed validation, which is the vector of a later chunk as
    soon as an earlier vector was dropped; and there are as many records as
    the smaller of the number of chunks and the number of valid vectors. *)
Theorem payload_pairs_by_position (document_id : Z) (metadata : dict)
    (chunks : list str) (raw : list vector) :
  length (payload_of document_id metadata chunks raw)
  = Nat.min (length chunks) (length (filter valid_vector raw))
  /\ (forall i r,
        nth_error (payload_of document_id metadata chunks raw) i = Some r ->
        exists chunk vec,
          nth_error chunks i = Some chunk
          /\ nth_error (filter valid_vector raw) i = Some vec
          /\ r = make_record document_id metadata i chunk vec).
Proof.
  split.
  - unfold payload_of; rewrite build_payload_length, length_combine.
    unfold stored_chunks, stored_vectors; rewrite !length_firstn; lia.
  - intros i r; rewrite payload_of_map, nth_error_map.
    destruct (nth_error _ i) as [[k [chunk vec]]|] eqn:E; [|discriminate].
    simpl; intros H; injection H as <-.
    apply nth_error_combine in E as [Hk E].
    apply nth_error_combine in E as [Hc Hv].
    apply nth_error_firstn_some in Hc, Hv.
    assert (k = i).
    { rewrite nth_error_seq in Hk.
      destruct (i <? _)%nat; [injection Hk as <-; reflexivity|discriminate]. }
    subst k; exists chunk, vec; auto.
Qed.

(** The vector of the first chunk is dropped: the first chunk is stored
    with the vector of the second, and the second chunk is not stored. *)
Lemma payload_pairs_by_position_witness :
  payload_of 7 [] [first_chunk; second_chunk] [zero_vector; unit_vector]
  = [make_record 7 [] 0 first_chunk unit_vector].
Proof.
  destruct (payload_pairs_by_position 7 [] [first_chunk; second_chunk]
              [zero_vector; unit_vector]) as [Hlen Hnth].
  destruct (payload_of 7 [] [first_chunk; second_chunk] [zero_vector; unit_vector])
    as [|r [|r' rest]] eqn:E.
  - vm_compute in Hlen; discriminate.
  - destruct (Hnth 0 r eq_refl) as (chunk & vec & Hc & Hv & ->).
    vm_compute in Hc, Hv.
    injection Hc as <-; injection Hv as <-; reflexivity.
  - vm_compute in Hlen; discriminate.
Defined.

Lemma lit_inj (a b : string) : lit a = lit b -> a = b.
Proof.
  unfold lit; intros H.
  rewrite <- (string_of_list_ascii_of_string a), <- (string_of_list_ascii_of_string b).
  f_equal.
  revert H; generalize (list_ascii_of_string a) (list_ascii_of_string b).
  induction l as [|x l IH]; intros [|y l']; simpl; try discriminate; [reflexivity|].
  intros H; injection H as Hx Hl.
  f_equal; [|now apply IH].
  rewrite <- (ascii_N_embedding x), <- (ascii_N_embedding y), Hx; reflexivity.
Qed.

Lemma to_int_not_nil (z : Z) : Z.to_int z <> Decimal.Pos Decimal.Nil
                               /\ Z.to_int z <> Decimal.Neg Decimal.Nil.
Proof.
  destruct z; simpl; split; try discriminate;
    intros H; injection H as H; now apply DecimalPos.Unsigned.to_uint_nonnil in H.
Qed.

(** The decimal rendering of integers is one to one. *)
Lemma str_of_Z_inj (a b : Z) : str_of_Z a = str_of_Z b -> a = b.
Proof.
  unfold str_of_Z; intros H; apply lit_inj in H.
  destruct (to_int_not_nil a) as [A1 A2], (to_int_not_nil b) as [B1 B2].
  pose proof (NilZero.isi (Z.to_int a) A1 A2) as Ha.
  pose proof (NilZero.isi (Z.to_int b) B1 B2) as Hb.
  rewrite H, Hb in Ha; injection Ha as Ha.
  rewrite <- (DecimalZ.of_to a), <- (DecimalZ.of_to b), Ha; reflexivity.
Qed.

Lemma record_id_eq (document_id : Z) (metadata : dict) (i : nat) (c : str) (v : vector) :
  rec_id (make_record document_id metadata i c v)
  = lit "doc-" ++ str_of_Z document_id ++ lit "-chunk-" ++ str_of_Z (Z.of_nat i).
Proof. reflexivity. Qed.

Lemma record_id_tail_inj (document_id : Z) (i j : nat) :
  lit "doc-" ++ str_of_Z document_id ++ lit "-chunk-" ++ str_of_Z (Z.of_nat i)
  = lit "doc-" ++ str_of_Z document_id ++ lit "-chunk-" ++ str_of_Z (Z.of_nat j) ->
  i = j.
Proof.
  intros H.
  apply (app_inv_head (lit "doc-")) in H.
  apply (app_inv_head (str_of_Z document_id)) in H.
  apply (app_inv_head (lit "-chunk-")) in H.
  apply str_of_Z_inj in H; lia.
Qed.

(** X13.  The ids of the records of one payload are [doc-<document id>-chunk-<i>]
    for [i] the position of the record, and they are pairwise distinct, so no
    record of a document overwrites another in an upsert. *)
Theorem payload_ids_distinct (document_id : Z) (metadata : dict)
    (chunks : list str) (raw : list vector) :
  NoDup (map rec_id (payload_of document_id metadata chunks raw))
  /\ (forall i r,
        nth_error (payload_of document_id metadata chunks raw) i = Some r ->
        rec_id r = lit "doc-" ++ str_of_Z document_id ++ lit "-chunk-"
                   ++ str_of_Z (Z.of_nat i)).
Proof.
  assert (Hid : forall i r,
             nth_error (payload_of document_id metadata chunks raw) i = Some r ->
             rec_id r = lit "doc-" ++ str_of_Z document_id ++ lit "-chunk-"
                        ++ str_of_Z (Z.of_nat i)).
  { intros i r H.
    rewrite payload_of_map, nth_error_map in H.
    destruct (nth_error _ i) as [[k [chunk vec]]|] eqn:E; [|discriminate].
    simpl in H; injection H as <-.
    apply nth_error_combine in E as [Hk _].
    rewrite nth_error_seq in Hk.
    destruct (i <? _)%nat; [injection Hk as <-; apply record_id_eq|discriminate]. }
  split; [|exact Hid].
  apply NoDup_nth_error; intros i j Hi E.
  rewrite length_map in Hi.
  rewrite !nth_error_map in E.
  destruct (nth_error (payload_of document_id metadata chunks raw) i) as [r|] eqn:Er.
  - destruct (nth_error (payload_of document_id metadata chunks raw) j) as [r'|] eqn:Er';
      [|discriminate].
    simpl in E; injection E as E.
    rewrite (Hid i r Er), (Hid j r' Er') in E.
    now apply record_id_tail_inj in E.
  - apply nth_error_None in Er; lia.
Qed.

Lemma payload_ids_distinct_witness :
  NoDup (map rec_id many_records)
  /\ (forall i r,
        nth_error many_records i = Some r ->
        rec_id r = lit "doc-" ++ str_of_Z 7 ++ lit "-chunk-" ++ str_of_Z (Z.of_nat i)).
Proof.
  exact (payload_ids_distinct 7 [] many_chunks many_vectors).
Defined.

(* ------------------------------------------------------------------ *)
(** *** The metadata of a record *)

Lemma dict_get_absent_keys (k : str) (d : dict) :
  ~ In k (map fst d) -> dict_get k d = None.
Proof.
  induction d as [|[k0 v0] d IH]; simpl; [reflexivity|].
  intros H; destruct (str_eqb_spec k k0) as [->|N]; [tauto|].
  apply IH; tauto.
Qed.

(** Merging a dictionary with unique keys: its bindings win. *)
Lemma dict_get_update (k : str) (d extra : dict) :
  NoDup (map fst extra) ->
  dict_get k (dict_update d extra) =
    match dict_get k extra with
    | Some v => Some v
    | None => dict_get k d
    end.
Proof.
  unfold dict_update; revert d.
  induction extra as [|[k0 v0] extra IH]; intros d Hnd; simpl; [reflexivity|].
  inversion Hnd as [|? ? Hnot Hnd']; subst.
  rewrite (IH _ Hnd'), dict_get_set.
  destruct (str_eqb_spec k k0) as [->|N]; [|reflexivity].
  now rewrite (dict_get_absent_keys k0 extra Hnot).
Qed.

Lemma replace_newlines_gone (s : str) : ~ In NL (replace_char NL SPACE s).
Proof.
  unfold replace_char; intros H; apply in_map_iff in H as (c & Hc & _).
  destruct (N.eqb_spec c NL); [discriminate Hc|congruence].
Qed.

Lemma lstrip_incl (s : str) (c : char) : In c (lstrip s) -> In c s.
Proof.
  induction s as [|x s IH]; simpl; [trivial|].
  destruct (is_space x); [right; auto|trivial].
Qed.

Lemma strip_incl (s : str) (c : char) : In c (strip s) -> In c s.
Proof.
  unfold strip, rstrip; intros H.
  apply in_rev, lstrip_incl in H.
  apply in_rev in H; now apply lstrip_incl.
Qed.

(** X14.  The metadata of a record is the four built-in fields
    ([document_id], [chunk_index], [text], [chunk_length]) overridden by the
    caller's: a key the caller supplies wins, [document_id] included, and a
    built-in field survives exactly when the caller does not supply its key.
    The built-in [text] is the chunk with newlines turned into spaces,
    stripped and cut to 800 characters: it is at most 800 characters long and
    holds no newline; [chunk_length] is the length of the chunk as it was. *)
Theorem record_metadata_merge (document_id : Z) (metadata : dict) (i : nat)
    (chunk : str) (vec : vector) :
  NoDup (map fst metadata) ->
  (forall k,
      dict_get k (rec_metadata (make_record document_id metadata i chunk vec)) =
        match dict_get k metadata with
        | Some v => Some v
        | None => dict_get k (base_metadata document_id i chunk)
        end)
  /\ dict_get (lit "document_id") (base_metadata document_id i chunk)
     = Some (VInt document_id)
  /\ dict_get (lit "chunk_index") (base_metadata document_id i chunk)
     = Some (VInt (Z.of_nat i))
  /\ dict_get (lit "chunk_length") (base_metadata document_id i chunk)
     = Some (VInt (len chunk))
  /\ exists preview,
       dict_get (lit "text") (base_metadata document_id i chunk) = Some (VStr preview)
       /\ length preview <= 800
       /\ ~ In NL preview
       /\ preview = firstn 800 (strip (replace_char NL SPACE chunk)).
Proof.
  intros Hnd; split; [|split; [|split; [|split]]]; try reflexivity.
  - intros k; unfold make_record; cbn [rec_metadata].
    apply (dict_get_update k (base_metadata document_id i chunk) metadata Hnd).
  - eexists; split; [reflexivity|].
    split; [apply firstn_le_length|split; [|reflexivity]].
    intros H; apply in_firstn, strip_incl in H.
    now apply replace_newlines_gone in H.
Qed.

(** A caller that supplies [document_id] replaces the one of the record. *)
Lemma record_metadata_merge_witness :
  dict_get (lit "document_id")
    (rec_metadata (make_record 7 [(lit "document_id", VInt 999)] 0 first_chunk unit_vector))
  = Some (VInt 999).
Proof.
  destruct (record_metadata_merge 7 [(lit "document_id", VInt 999)] 0 first_chunk
              unit_vector) as [H _].
  - repeat constructor; simpl; tauto.
  - rewrite H; reflexivity.
Defined.

(* ================================================================== *)
(** ** Construction and deletion *)
(* ================================================================== *)

Ltac run_admin :=
  unfold admin_call, admin_wait, log_of in *;
  unfold bind, ret, raise, try_except in *.

Lemma existsb_str_eqb_In (k : str) (l : list str) :
  existsb (str_eqb k) l = true <-> In k l.
Proof.
  rewrite existsb_exists; split.
  - intros (x & Hx & E); apply str_eqb_eq in E; now subst.
  - intros H; exists k; split; [exact H|apply str_eqb_refl].
Qed.

Lemma init_pinecone_run {W : Type} (adm : AdminEnv W) (settings : Settings)
    (s : state (logged W)) :
  exists idx s' evs,
    _init_pinecone adm settings s = (Ok idx, s')
    /\ log_of s' = log_of s ++ evs
    /\ pinecone_init_shape settings evs idx
    /\ (truthy_str (PINECONE_API_KEY settings) = false
        \/ truthy_str (PINECONE_ENVIRONMENT settings) = false ->
        evs = [] /\ idx = None)
    /\ wanted_index settings
       = mk_index_spec (PINECONE_INDEX_NAME settings) 768 (lit "cosine") (lit "aws")
           (get_default (PINECONE_ENVIRONMENT settings) []).
Proof.
  unfold _init_pinecone.
  destruct (truthy_str (PINECONE_API_KEY settings)) eqn:Hk; simpl.
  2:{ exists None, s, []; unfold log_of; rewrite app_nil_r.
      repeat split; constructor. }
  destruct (truthy_str (PINECONE_ENVIRONMENT settings)) eqn:He; simpl.
  2:{ exists None, s, []; unfold log_of; rewrite app_nil_r.
      repeat split; constructor. }
  run_admin.
  destruct (pc_connect adm (pinecone_key settings) (inner (world s))) as [[[]|e] w1]; simpl.
  2:{ eexists; eexists; eexists; split; [reflexivity|]; simpl.
      split; [reflexivity|split; [constructor|split; [intros [X|X]; discriminate X|reflexivity]]]. }
  destruct (pc_list_indexes adm w1) as [[names|e] w2]; simpl.
  2:{ eexists; eexists; eexists; split; [reflexivity|]; simpl.
      rewrite <- app_assoc; split; [reflexivity|].
      split; [constructor|split; [intros [X|X]; discriminate X|reflexivity]]. }
  destruct (existsb (str_eqb (PINECONE_INDEX_NAME settings)) names) eqn:Hin; simpl.
  - destruct (pc_open_index adm (PINECONE_INDEX_NAME settings) w2) as [[h|e] w3]; simpl.
    + destruct (pc_describe_index_stats adm w3) as [[[]|e] w4]; simpl;
        (eexists; eexists; eexists; split; [reflexivity|]; simpl;
         rewrite <- !app_assoc; split; [reflexivity|];
         split; [|split; [intros [X|X]; discriminate X|reflexivity]]).
      * pose proof (init_ready settings names h (Ok tt)) as S.
        unfold creation in S; rewrite Hin in S; exact S.
      * pose proof (init_ready settings names h (Raise e)) as S.
        unfold creation in S; rewrite Hin in S; exact S.
    + eexists; eexists; eexists; split; [reflexivity|]; simpl.
      rewrite <- !app_assoc; split; [reflexivity|].
      split; [|split; [intros [X|X]; discriminate X|reflexivity]].
      pose proof (init_open_raised settings names e) as S.
      unfold creation in S; rewrite Hin in S; exact S.
  - assert (Hnot : ~ In (PINECONE_INDEX_NAME settings) names).
    { intros X; apply existsb_str_eqb_In in X; congruence. }
    destruct (pc_create_index adm (wanted_index settings) w2) as [[[]|e] w3]; simpl.
    2:{ eexists; eexists; eexists; split; [reflexivity|]; simpl.
        rewrite <- !app_assoc; split; [reflexivity|].
        split; [now constructor|split; [intros [X|X]; discriminate X|reflexivity]]. }
    destruct (pc_open_index adm (PINECONE_INDEX_NAME settings) _) as [[h|e] w4]; simpl.
    + destruct (pc_describe_index_stats adm w4) as [[[]|e] w5]; simpl;
        (eexists; eexists; eexists; split; [reflexivity|]; simpl;
         rewrite <- !app_assoc; split; [reflexivity|];
         split; [|split; [intros [X|X]; discriminate X|reflexivity]]).
      * pose proof (init_ready settings names h (Ok tt)) as S.
        unfold creation in S; rewrite Hin in S; exact S.
      * pose proof (init_ready settings names h (Raise e)) as S.
        unfold creation in S; rewrite Hin in S; exact S.
    + eexists; eexists; eexists; split; [reflexivity|]; simpl.
      rewrite <- !app_assoc; split; [reflexivity|].
      split; [|split; [intros [X|X]; discriminate X|reflexivity]].
      pose proof (init_open_raised settings names e) as S.
      unfold creation in S; rewrite Hin in S; exact S.
Qed.



Example init_fresh_account_log :
  log_of (snd (_init_pinecone (scripted_admin fresh_account) full_settings admin_initial))
  = [ AdConnect (lit "pc-key") (Ok tt);
      AdListIndexes (Ok [lit "other-index"]);
      AdCreateIndex (wanted_index full_settings) (Ok tt);
      AdSleep 30;
      AdOpenIndex (lit "legal-documents") (Ok (mk_index (lit "legal-documents")));
      AdDescribe (Raise no_such_service) ]
  /\ fst (_init_pinecone (scripted_admin fresh_account) full_settings admin_initial)
     = Ok (Some (mk_index (lit "legal-documents"))).
Proof. split; vm_compute; reflexivity. Qed.

Lemma init_embeddings_run {W : Type} (adm : AdminEnv W) (s : state (logged W)) :
  _init_embeddings adm s =
    (fst (load_model adm EMBEDDING_MODEL_NAME (inner (world s))),
     mk_state
       (mk_logged (snd (load_model adm EMBEDDING_MODEL_NAME (inner (world s))))
                  (log_of s ++ [AdLoadModel EMBEDDING_MODEL_NAME
                                  (fst (load_model adm EMBEDDING_MODEL_NAME
                                          (inner (world s))))]))
       (trace s)).
Proof.
  unfold _init_embeddings; run_admin.
  destruct (load_model adm EMBEDDING_MODEL_NAME (inner (world s))) as [[u|e] w'];
    reflexivity.
Qed.

(** X16.  [AIProcessor()] raises exactly when the embedding model cannot
    be loaded, and then nothing else is called; otherwise it returns a
    processor whose index handle is the one [_init_pinecone] leaves, and whose
    client is absent exactly when [GROQ_API_KEY] is unset or empty, and
    otherwise holds the key, base URL and model of the settings and a timeout
    of 60 seconds. *)
Theorem processor_construction {W : Type} (adm : AdminEnv W) (settings : Settings)
    (s : state (logged W)) :
  match load_model adm EMBEDDING_MODEL_NAME (inner (world s)) with
  | (Raise e, w') =>
      AIProcessor_init adm settings s =
        (Raise e,
         mk_state (mk_logged w' (log_of s ++ [AdLoadModel EMBEDDING_MODEL_NAME (Raise e)]))
                  (trace s))
  | (Ok _, _) =>
      exists idx s' evs,
        AIProcessor_init adm settings s = (Ok (mk_processor (_init_groq settings) idx), s')
        /\ log_of s' = log_of s ++ [AdLoadModel EMBEDDING_MODEL_NAME (Ok tt)] ++ evs
        /\ pinecone_init_shape settings evs idx
  end
  /\ (_init_groq settings = None <->
      GROQ_API_KEY settings = None \/ GROQ_API_KEY settings = Some [])
  /\ (forall c, _init_groq settings = Some c ->
        GROQ_API_KEY settings = Some (api_key c)
        /\ base_url c = GROQ_BASE_URL settings
        /\ model c = GROQ_MODEL settings
        /\ timeout c = 60%float).
Proof.
  split; [|split].
  - destruct (load_model adm EMBEDDING_MODEL_NAME (inner (world s))) as [[[]|e] w'] eqn:E;
      unfold AIProcessor_init; unfold bind at 1; rewrite init_embeddings_run, E;
      cbn [fst snd].
    + unfold bind.
      destruct (init_pinecone_run adm settings
                  (mk_state (mk_logged w' (log_of s
                                           ++ [AdLoadModel EMBEDDING_MODEL_NAME (Ok tt)]))
                            (trace s)))
        as (idx & s' & evs & Hrun & Hlog & Hshape & _).
      rewrite Hrun; exists idx, s', evs.
      split; [reflexivity|split; [|exact Hshape]].
      rewrite Hlog; unfold log_of; simpl; rewrite <- app_assoc; reflexivity.
    + reflexivity.
  - unfold _init_groq, truthy_str.
    destruct (GROQ_API_KEY settings) as [[|c k]|]; simpl; split;
      try discriminate; auto; intros [H|H]; discriminate.
  - intros c; unfold _init_groq, truthy_str.
    destruct (GROQ_API_KEY settings) as [[|x k]|]; simpl; try discriminate.
    intros H; injection H as <-; simpl; auto.
Qed.

Lemma processor_construction_witness :
  exists idx s' evs,
    AIProcessor_init (scripted_admin fresh_account) full_settings admin_initial
      = (Ok (mk_processor (_init_groq full_settings) idx), s')
    /\ log_of s' = log_of admin_initial ++ [AdLoadModel EMBEDDING_MODEL_NAME (Ok tt)] ++ evs
    /\ pinecone_init_shape full_settings evs idx.
Proof.
  destruct (processor_construction (scripted_admin fresh_account) full_settings
              admin_initial) as [H _].
  exact H.
Defined.

Lemma delete_document_embeddings_run {W : Type} (adm : AdminEnv W) (self : AIProcessor)
    (document_id : Z) (s : state (logged W)) :
  exists b s' evs,
    delete_document_embeddings adm self document_id s = (Ok b, s')
    /\ log_of s' = log_of s ++ evs
    /\ (index self = None /\ evs = [] /\ b = false
        \/ index self <> None
           /\ evs = [AdDelete (FilterPlain document_id) (Ok tt)] /\ b = true
        \/ exists e r,
             index self <> None
             /\ evs = [AdDelete (FilterPlain document_id) (Raise e);
                       AdDelete (FilterEq document_id) r]
             /\ b = match r with Ok _ => true | Raise _ => false end).
Proof.
  unfold delete_document_embeddings.
  destruct (index self) as [h|]; simpl.
  2:{ exists false, s, []; unfold log_of; rewrite app_nil_r; auto 10. }
  run_admin.
  destruct (index_delete adm (FilterPlain document_id) (inner (world s)))
    as [[[]|e] w1]; simpl.
  - eexists; eexists; eexists; split; [reflexivity|]; simpl.
    split; [reflexivity|]; right; left; repeat split; discriminate.
  - destruct (index_delete adm (FilterEq document_id) w1) as [[[]|e'] w2]; simpl;
      (eexists; eexists; eexists; split; [reflexivity|]; simpl;
       rewrite <- app_assoc; split; [reflexivity|]; right; right).
    + exists e, (Ok tt); repeat split; discriminate.
    + exists e, (Raise e'); repeat split; discriminate.
Qed.

(** X17.  [delete_document_embeddings] never raises.  Without an index
    handle it returns [False] and calls nothing.  With one it asks the index
    to delete by the plain filter on the document id and returns [True] when
    that is accepted; only when it is refused does it ask again with the
    [$eq] filter on the same id, and it returns [True] exactly when this
    second request is accepted.  It makes no other call. *)
Theorem delete_embeddings_cases {W : Type} (adm : AdminEnv W) (self : AIProcessor)
    (document_id : Z) (s : state (logged W)) :
  exists b s' evs,
    delete_document_embeddings adm self document_id s = (Ok b, s')
    /\ log_of s' = log_of s ++ evs
    /\ (index self = None /\ evs = [] /\ b = false
        \/ index self <> None
           /\ evs = [AdDelete (FilterPlain document_id) (Ok tt)] /\ b = true
        \/ exists e r,
             index self <> None
             /\ evs = [AdDelete (FilterPlain document_id) (Raise e);
                       AdDelete (FilterEq document_id) r]
             /\ b = match r with Ok _ => true | Raise _ => false end).
Proof. exact (delete_document_embeddings_run adm self document_id s). Qed.

(** The plain filter is refused, the [$eq] one accepted. *)
Lemma delete_embeddings_cases_witness :
  exists b s' evs,
    delete_document_embeddings (scripted_admin plain_filter_refused) configured 7
      admin_initial = (Ok b, s')
    /\ log_of s' = log_of admin_initial ++ evs
    /\ (index configured = None /\ evs = [] /\ b = false
        \/ index configured <> None
           /\ evs = [AdDelete (FilterPlain 7) (Ok tt)] /\ b = true
        \/ exists e r,
             index configured <> None
             /\ evs = [AdDelete (FilterPlain 7) (Raise e); AdDelete (FilterEq 7) r]
             /\ b = match r with Ok _ => true | Raise _ => false end).
Proof.
  exact (delete_embeddings_cases (scripted_admin plain_filter_refused) configured 7
           admin_initial).
Defined.

Example delete_with_refused_plain_filter :
  fst (delete_document_embeddings (scripted_admin plain_filter_refused) configured 7
         admin_initial) = Ok true
  /\ log_of (snd (delete_document_embeddings (scripted_admin plain_filter_refused)
                    configured 7 admin_initial))
     = [AdDelete (FilterPlain 7) (Raise no_such_service); AdDelete (FilterEq 7) (Ok tt)].
Proof. split; vm_compute; reflexivity. Qed.

(** X18.  A processor built from settings without a Pinecone key (or
    without a Pinecone environment) has no index, and everything that needs
    the index degrades without calling a collaborator: the chat answers that
    the vector database is not configured, with no sources;
    [store_document_embeddings] returns [False]; [delete_document_embeddings]
    returns [False]. *)
Theorem processor_without_pinecone_degrades {W V : Type} (adm : AdminEnv W) (env : Env V)
    (settings : Settings) (s0 s1 : state (logged W)) (self : AIProcessor) :
  truthy_str (PINECONE_API_KEY settings) = false
  \/ truthy_str (PINECONE_ENVIRONMENT settings) = false ->
  AIProcessor_init adm settings s0 = (Ok self, s1) ->
  index self = None
  /\ (forall document_id question temperature s,
        exists t s',
          chat_with_document env self document_id question temperature s
            = (Ok (mk_answer ANSWER_NO_INDEX [] t), s')
          /\ trace s' = trace s)
  /\ (forall document_id text metadata s,
        store_document_embeddings env self document_id text metadata s = (Ok false, s))
  /\ (forall document_id s,
        delete_document_embeddings adm self document_id s = (Ok false, s)).
Proof.
  intros Hunset Hinit.
  assert (Hi : index self = None).
  { unfold AIProcessor_init in Hinit; unfold bind at 1 in Hinit.
    destruct (_init_embeddings adm s0) as [[[]|e] sa]; [|discriminate].
    unfold bind in Hinit.
    destruct (init_pinecone_run adm settings sa)
      as (idx & sb & evs & Hrun & _ & _ & Hnone & _).
    rewrite Hrun in Hinit; unfold ret in Hinit; injection Hinit as <- _.
    destruct (Hnone Hunset) as [_ ->]; reflexivity. }
  split; [exact Hi|split; [|split]].
  - intros document_id question temperature s.
    rewrite chat_with_document_unfold.
    unfold try_except, chat_attempt; rewrite Hi; simpl.
    unfold bind; rewrite elapsed_run; simpl.
    eexists; eexists; split; reflexivity.
  - intros; unfold store_document_embeddings; rewrite Hi; reflexivity.
  - intros; unfold delete_document_embeddings; rewrite Hi; reflexivity.
Qed.

Lemma processor_without_pinecone_degrades_witness :
  index (mk_processor (_init_groq no_pinecone_settings) None) = None
  /\ (forall document_id question temperature s,
        exists t s',
          chat_with_document (scripted base_script)
            (mk_processor (_init_groq no_pinecone_settings) None)
            document_id question temperature s
            = (Ok (mk_answer ANSWER_NO_INDEX [] t), s')
          /\ trace s' = trace s)
  /\ (forall document_id text metadata s,
        store_document_embeddings (scripted base_script)
          (mk_processor (_init_groq no_pinecone_settings) None)
          document_id text metadata s = (Ok false, s))
  /\ (forall document_id s,
        delete_document_embeddings (scripted_admin fresh_account)
          (mk_processor (_init_groq no_pinecone_settings) None) document_id s
        = (Ok false, s)).
Proof.
  apply (@processor_without_pinecone_degrades unit float (scripted_admin fresh_account)
           (scripted base_script) no_pinecone_settings admin_initial
           (snd (AIProcessor_init (scripted_admin fresh_account) no_pinecone_settings
                   admin_initial))).
  - left; reflexivity.
  - vm_compute; reflexivity.
Defined.

(* ================================================================== *)
(** ** The routes without the database *)
(* ================================================================== *)

(** [analyze_document] always returns a dictionary. *)
Lemma analyze_document_returns {W : Type} (env : Env W) (self : AIProcessor)
    (text : str) (s : state W) :
  exists d s', analyze_document env self text s = (Ok d, s').
Proof.
  unfold analyze_document.
  destruct (negb (is_some (client self)) || negb (nonempty (strip text))).
  - eexists; eexists; reflexivity.
  - unfold bind; rewrite now_run; unfold try_except.
    destruct (analyze_attempt env self _ _ _) as [[d|e] s1].
    + eexists; eexists; reflexivity.
    + rewrite analyze_handler_run; eexists; eexists; reflexivity.
Qed.

Lemma analyze_document_unconfigured {W : Type} (env : Env W) (self : AIProcessor)
    (text : str) (s : state W) :
  client self = None ->
  analyze_document env self text s = (Ok _fallback_analysis, s).
Proof. intros H; unfold analyze_document; rewrite H; reflexivity. Qed.

(** X19.  The health report and the chat agree.  [ai_health_check] says
    [healthy], with no recommendation, exactly when both the model client and
    the index are configured; otherwise it says [degraded] and recommends, in
    this order, the Groq key when the client is missing and Pinecone when the
    index is missing.  And whenever it says [degraded], every chat is
    answered with one of the two not-configured messages, with no sources and
    without calling any collaborator. *)
Theorem health_report_matches_chat {W : Type} (env : Env W) (self : AIProcessor) :
  dict_get (lit "status") (ai_health_check self)
  = Some (VStr (if is_some (client self) && is_some (index self)
                then lit "healthy" else lit "degraded"))
  /\ dict_get (lit "recommendations") (ai_health_check self)
     = Some (VList ((if is_some (client self) then []
                     else [VStr (lit "Groq API key not configured")])
                    ++ (if is_some (index self) then []
                        else [VStr (lit "Pinecone not configured")])))
  /\ dict_get (lit "model") (ai_health_check self)
     = Some (VStr (match client self with
                   | Some c => model c
                   | None => lit "Not configured"
                   end))
  /\ (dict_get (lit "status") (ai_health_check self) = Some (VStr (lit "degraded")) ->
      forall document_id question temperature (s : state W),
      exists t s',
        chat_with_document env self document_id question temperature s
          = (Ok (mk_answer (if is_some (index self) then ANSWER_NO_MODEL
                            else ANSWER_NO_INDEX) [] t), s')
        /\ trace s' = trace s).
Proof.
  unfold ai_health_check, chat_model_or.
  destruct (client self) as [c|] eqn:Hc, (index self) as [h|] eqn:Hi; simpl;
    (split; [reflexivity|split; [reflexivity|split; [reflexivity|]]]).
  - intros H; vm_compute in H; discriminate.
  - intros _ document_id question temperature s.
    rewrite chat_with_document_unfold; unfold try_except, chat_attempt.
    rewrite Hi; simpl; unfold bind; rewrite elapsed_run; simpl.
    eexists; eexists; split; reflexivity.
  - intros _ document_id question temperature s.
    rewrite chat_with_document_unfold; unfold try_except, chat_attempt.
    rewrite Hi, Hc; simpl; unfold bind; rewrite elapsed_run; simpl.
    eexists; eexists; split; reflexivity.
  - intros _ document_id question temperature s.
    rewrite chat_with_document_unfold; unfold try_except, chat_attempt.
    rewrite Hi; simpl; unfold bind; rewrite elapsed_run; simpl.
    eexists; eexists; split; reflexivity.
Qed.

(** The client without the index: degraded, one recommendation, and the
    chat answers that the vector database is not configured. *)
Lemma health_report_matches_chat_witness :
  dict_get (lit "status") (ai_health_check client_only) = Some (VStr (lit "degraded"))
  /\ dict_get (lit "recommendations") (ai_health_check client_only)
     = Some (VList [VStr (lit "Pinecone not configured")])
  /\ exists t s',
       chat_with_document (scripted base_script) client_only 7 the_question 0.1%float
         initial
       = (Ok (mk_answer ANSWER_NO_INDEX [] t), s')
       /\ trace s' = trace initial.
Proof.
  destruct (health_report_matches_chat (scripted base_script) client_only)
    as (Hs & Hr & _ & Hchat).
  split; [exact Hs|split; [exact Hr|]].
  apply (Hchat Hs 7%Z the_question 0.1%float initial).
Defined.

(** X20.  [test_ai_configuration] reports [ai_test_passed = True] on every
    processor and whatever the collaborators do: its [except] branch is never
    taken because the analysis never raises.  In particular, with no model
    client it calls nothing and still reports a passed test, with
    [has_error = False], the canned summary and no [error] field; the
    [error] field of the report is there exactly when the analysis result has
    one. *)
Theorem test_configuration_always_passes {W : Type} (env : Env W) (self : AIProcessor)
    (s : state W) :
  exists report result s',
    test_ai_configuration env self s = (Ok report, s')
    /\ analyze_document env self TEST_TEXT s = (Ok result, s')
    /\ dict_get (lit "ai_test_passed") report = Some (VBool true)
    /\ dict_get (lit "groq_configured") report = Some (VBool (is_some (client self)))
    /\ dict_get (lit "pinecone_configured") report = Some (VBool (is_some (index self)))
    /\ dict_get (lit "test_result") report
       = Some (VDict [ (lit "summary",
                        get_default (dict_get (lit "summary") result) (VStr []));
                       (lit "has_error", VBool (dict_has (lit "error") result)) ])
    /\ dict_has (lit "error") report = dict_has (lit "error") result
    /\ (client self = None ->
        s' = s
        /\ dict_get (lit "test_result") report
           = Some (VDict [ (lit "summary",
                            VStr (lit "Analysis unavailable. Manual legal review required."));
                           (lit "has_error", VBool false) ])
        /\ dict_has (lit "error") report = false).
Proof.
  destruct (analyze_document_returns env self TEST_TEXT s) as (result & s' & Hrun).
  unfold test_ai_configuration, try_except, bind; rewrite Hrun; unfold ret.
  eexists; exists result, s'; split; [reflexivity|split; [reflexivity|]].
  assert (Hcommon :
    forall report,
      report = (if dict_has (lit "error") result
                then dict_set (lit "error")
                       (get_default (dict_get (lit "error") result) VNone)
                       (dict_set (lit "test_result")
                          (VDict [ (lit "summary",
                                    get_default (dict_get (lit "summary") result) (VStr []));
                                   (lit "has_error", VBool (dict_has (lit "error") result)) ])
                          (dict_set (lit "ai_test_passed") (VBool true)
                             [ (lit "groq_configured", VBool (is_some (client self)));
                               (lit "pinecone_configured", VBool (is_some (index self)));
                               (lit "embedding_model",
                                VStr (lit "sentence-transformers/all-mpnet-base-v2"));
                               (lit "groq_model",
                                VStr (chat_model_or self (lit "Not configured"))) ]))
                else dict_set (lit "test_result")
                       (VDict [ (lit "summary",
                                 get_default (dict_get (lit "summary") result) (VStr []));
                                (lit "has_error", VBool (dict_has (lit "error") result)) ])
                       (dict_set (lit "ai_test_passed") (VBool true)
                          [ (lit "groq_configured", VBool (is_some (client self)));
                            (lit "pinecone_configured", VBool (is_some (index self)));
                            (lit "embedding_model",
                             VStr (lit "sentence-transformers/all-mpnet-base-v2"));
                            (lit "groq_model",
                             VStr (chat_model_or self (lit "Not configured"))) ])) ->
      dict_get (lit "ai_test_passed") report = Some (VBool true)
      /\ dict_get (lit "groq_configured") report = Some (VBool (is_some (client self)))
      /\ dict_get (lit "pinecone_configured") report = Some (VBool (is_some (index self)))
      /\ dict_get (lit "test_result") report
         = Some (VDict [ (lit "summary",
                          get_default (dict_get (lit "summary") result) (VStr []));
                         (lit "has_error", VBool (dict_has (lit "error") result)) ])
      /\ dict_has (lit "error") report = dict_has (lit "error") result).
  { intros report ->.
    destruct (dict_has (lit "error") result); repeat split; reflexivity. }
  destruct (Hcommon _ eq_refl) as (H1 & H2 & H3 & H4 & H5).
  split; [exact H1|split; [exact H2|split; [exact H3|split; [exact H4|split; [exact H5|]]]]].
  intros Hc.
  rewrite (analyze_document_unconfigured env self TEST_TEXT s Hc) in Hrun.
  injection Hrun as <- <-.
  split; [reflexivity|split; reflexivity].
Qed.

(** No client at all: the test is reported as passed. *)
Lemma test_configuration_always_passes_witness :
  exists report,
    fst (test_ai_configuration (scripted base_script) unconfigured initial) = Ok report
    /\ dict_get (lit "ai_test_passed") report = Some (VBool true)
    /\ dict_get (lit "groq_configured") report = Some (VBool false)
    /\ dict_has (lit "error") report = false.
Proof.
  destruct (test_configuration_always_passes (scripted base_script) unconfigured initial)
    as (report & result & s' & Hrun & _ & Hp & Hg & _ & _ & _ & Hnone).
  exists report; rewrite Hrun; split; [reflexivity|].
  split; [exact Hp|split; [exact Hg|]].
  now destruct (Hnone eq_refl) as (_ & _ & H).
Defined.

(** X21.  [analyze_text] never answers with an HTTP error: its [except]
    branch is never taken, and the body it returns is the result of
    [analyze_document] on the text, with the same effects. *)
Theorem analyze_text_never_fails {W : Type} (env : Env W) (self : AIProcessor)
    (text : str) (s : state W) :
  exists result s',
    analyze_text env self text s = (Ok (Returned result), s')
    /\ analyze_document env self text s = (Ok result, s').
Proof.
  destruct (analyze_document_returns env self text s) as (result & s' & Hrun).
  exists result, s'; split; [|exact Hrun].
  unfold analyze_text, try_except, bind; rewrite Hrun; reflexivity.
Qed.

Lemma analyze_text_never_fails_witness :
  exists result s',
    analyze_text (scripted model_down_script) configured lease_text initial
      = (Ok (Returned result), s')
    /\ analyze_document (scripted model_down_script) configured lease_text initial
       = (Ok result, s').
Proof.
  exact (analyze_text_never_fails (scripted model_down_script) configured lease_text
           initial).
Defined.

(* ================================================================== *)
(** ** The document service *)
(* ================================================================== *)

Lemma lstrip_idempotent (s : str) : lstrip (lstrip s) = lstrip s.
Proof.
  induction s as [|c s IH]; simpl; [reflexivity|].
  destruct (is_space c) eqn:E; [exact IH|].
  simpl; rewrite E; reflexivity.
Qed.

Lemma lstrip_app (x y : str) :
  lstrip (x ++ y) = match lstrip x with [] => lstrip y | l => l ++ y end.
Proof.
  induction x as [|c x IH]; simpl; [destruct (lstrip y); reflexivity|].
  destruct (is_space c); [exact IH|reflexivity].
Qed.

Lemma rstrip_cons (c : char) (r : str) :
  rstrip (c :: r)
  = match rstrip r with
    | [] => if is_space c then [] else [c]
    | l => c :: l
    end.
Proof.
  unfold rstrip; simpl; rewrite lstrip_app.
  destruct (lstrip (rev r)) as [|x l] eqn:E; simpl.
  - destruct (is_space c); reflexivity.
  - rewrite rev_app_distr; simpl.
    destruct (rev l ++ [x]) eqn:E'; [destruct (rev l); discriminate|reflexivity].
Qed.

Lemma lstrip_rstrip (s : str) : lstrip (rstrip s) = rstrip (lstrip s).
Proof.
  induction s as [|c s IH]; [reflexivity|].
  rewrite rstrip_cons; simpl.
  destruct (is_space c) eqn:E.
  - destruct (rstrip s) as [|x l] eqn:Er; simpl.
    + rewrite <- IH; reflexivity.
    + rewrite E, <- IH; reflexivity.
  - rewrite rstrip_cons.
    destruct (rstrip s) as [|x l]; simpl; rewrite E; reflexivity.
Qed.

(** [s.strip()] is stripped. *)
Lemma strip_stripped (s : str) : stripped (strip s).
Proof.
  unfold stripped, strip.
  rewrite lstrip_rstrip, lstrip_idempotent.
  unfold rstrip at 1 2; rewrite rev_involutive, lstrip_idempotent; reflexivity.
Qed.

Ltac conjs := repeat match goal with |- _ /\ _ => split end.

Section DocumentRuns.

Context {V : Type} (env : Env V) (adm : AdminEnv V) (docs : DocEnv V)
        (self : AIProcessor).

Lemma doc_call_run {A} (f : V -> result A * V) (ev : result A -> doc_event)
    (s : state (backend V)) :
  doc_call f ev s
  = (fst (f (shared (world s))),
     mk_state (mk_backend (snd (f (shared (world s)))) (index_log (world s))
                          (doc_log (world s) ++ [ev (fst (f (shared (world s))))]))
              (trace s)).
Proof. unfold doc_call; destruct (f (shared (world s))); reflexivity. Qed.

(** What [_extract_pdf_text] does, whatever the libraries do. *)
Lemma extract_pdf_run (content : bytes) (s : state (backend V)) :
  exists reply s' devs,
    _extract_pdf_text docs content s = (Ok reply, s')
    /\ doc_log (world s') = doc_log (world s) ++ devs
    /\ index_log (world s') = index_log (world s)
    /\ trace s' = trace s
    /\ pdf_shape content devs reply.
Proof.
  unfold _extract_pdf_text, bind, try_except.
  rewrite doc_call_run.
  destruct (fitz_pages docs content (shared (world s))) as [r1 v1]; cbn [fst snd].
  assert (Hfirst :
    (exists pages, r1 = Ok pages /\ long_enough (page_lines pages) = true)
    \/ fitz_of_no_use r1).
  { destruct r1 as [pages|e]; [|right; exact I].
    destruct (long_enough (page_lines pages)) eqn:E.
    - left; exists pages; auto.
    - right; exact E. }
  destruct Hfirst as [(pages & -> & Hlong)|Hno1].
  { unfold long_enough in Hlong; rewrite Hlong; unfold ret, hret; cbn.
    eexists; eexists; eexists; split; [reflexivity|].
    cbn; repeat split; now constructor. }
  assert (Hnone :
    (let '(r, s0) :=
       match r1 with
       | Ok a =>
           (if (len (strip (page_lines a)) >? 100)%Z
            then ret (Some (strip (page_lines a))) else ret None)
             (mk_state (mk_backend v1 (index_log (world s))
                          (doc_log (world s) ++ [PdfFitz content r1])) (trace s))
       | Raise e =>
           (Raise e, mk_state (mk_backend v1 (index_log (world s))
                                (doc_log (world s) ++ [PdfFitz content r1])) (trace s))
       end in
     match r with
     | Ok a => (Ok a, s0)
     | Raise e => ret None s0
     end)
    = (Ok None, mk_state (mk_backend v1 (index_log (world s))
                            (doc_log (world s) ++ [PdfFitz content r1])) (trace s))).
  { destruct r1 as [pages|e]; [|reflexivity].
    unfold fitz_of_no_use, long_enough in Hno1; rewrite Hno1; reflexivity. }
  match goal with
  | |- context [let '(r, s0) := ?c in _] =>
      match type of Hnone with ?lhs = _ => change (let '(r, s0) := c in
                                                    match r with
                                                    | Ok a => (Ok a, s0)
                                                    | Raise e => ret None s0
                                                    end) with lhs end
  end.
  rewrite Hnone; clear Hnone.
  rewrite doc_call_run; cbn [world shared index_log doc_log trace fst snd].
  destruct (pdfplumber_pages docs content v1) as [r2 v2]; cbn [fst snd].
  assert (Hsecond :
    (exists pages, r2 = Ok pages /\ long_enough (page_lines (kept_pages pages)) = true)
    \/ plumber_of_no_use r2).
  { destruct r2 as [pages|e]; [|right; exact I].
    destruct (long_enough (page_lines (kept_pages pages))) eqn:E.
    - left; exists pages; auto.
    - right; exact E. }
  destruct Hsecond as [(pages & -> & Hlong)|Hno2].
  { unfold long_enough in Hlong; rewrite Hlong; unfold ret, hret; cbn.
    eexists; eexists; eexists; split; [reflexivity|].
    cbn; rewrite <- app_assoc; repeat split; now constructor. }
  destruct r2 as [pages2|e2].
  - unfold plumber_of_no_use, long_enough in Hno2; rewrite Hno2; unfold ret at 1; cbn.
    rewrite doc_call_run; cbn [world shared index_log doc_log trace fst snd].
    destruct (pypdf2_pages docs content v2) as [[pages3|e3] v3]; cbn;
      (eexists; eexists; eexists; split; [reflexivity|]);
      cbn; rewrite <- !app_assoc; repeat split; now constructor.
  - cbn.
    rewrite doc_call_run; cbn [world shared index_log doc_log trace fst snd].
    destruct (pypdf2_pages docs content v2) as [[pages3|e3] v3]; cbn;
      (eexists; eexists; eexists; split; [reflexivity|]);
      cbn; rewrite <- !app_assoc; repeat split; now constructor.
Qed.

Lemma utcnow_run (s : state (backend V)) :
  utcnow docs s
  = (Ok (fst (utc_now docs (shared (world s)))),
     mk_state (mk_backend (snd (utc_now docs (shared (world s)))) (index_log (world s))
                          (doc_log (world s)))
              (trace s)).
Proof. unfold utcnow; destruct (utc_now docs (shared (world s))); reflexivity. Qed.

Lemma extract_docx_run (content : bytes) (s : state (backend V)) :
  exists reply s' devs,
    _extract_docx_text docs content s = (Ok reply, s')
    /\ doc_log (world s') = doc_log (world s) ++ devs
    /\ index_log (world s') = index_log (world s)
    /\ trace s' = trace s.
Proof.
  unfold _extract_docx_text, try_except, bind; rewrite doc_call_run.
  destruct (docx_paragraphs docs content (shared (world s))) as [[ps|e] v]; cbn;
    eexists; eexists; eexists; (split; [reflexivity|]); cbn; auto.
Qed.

Lemma extract_text_run (file_type : str) (content : bytes) (s : state (backend V)) :
  exists r s' devs,
    extract_text docs file_type content s = (r, s')
    /\ doc_log (world s') = doc_log (world s) ++ devs
    /\ index_log (world s') = index_log (world s)
    /\ trace s' = trace s.
Proof.
  unfold extract_text.
  destruct (str_eqb file_type (lit ".pdf")).
  { destruct (extract_pdf_run content s) as (reply & s' & devs & H & Hd & Hi & Ht & _).
    exists (Ok reply), s', devs; auto. }
  destruct (str_eqb file_type (lit ".docx")).
  { destruct (extract_docx_run content s) as (reply & s' & devs & H & Hd & Hi & Ht).
    exists (Ok reply), s', devs; auto. }
  destruct (str_eqb file_type (lit ".txt")).
  - eexists; exists s, []; rewrite app_nil_r; split; [reflexivity|auto].
  - eexists; exists s, []; rewrite app_nil_r; split; [reflexivity|auto].
Qed.

(** The three forms of a result of [analyze_document]. *)
Lemma analyze_document_forms {W : Type} (ai : Env W) (text : str) (s : state W) :
  exists d s',
    analyze_document ai self text s = (Ok d, s')
    /\ (d = _fallback_analysis
        \/ (exists t e, d = degraded t e)
        \/ (exists v data, d = dict_set K_PROCESSING_TIME v (backfill data)))
    /\ (client self = None -> d = _fallback_analysis /\ s' = s).
Proof.
  destruct (negb (is_some (client self)) || negb (nonempty (strip text))) eqn:G.
  - exists _fallback_analysis, s; unfold analyze_document; rewrite G.
    split; [reflexivity|split; [left; reflexivity|auto]].
  - assert (Hc : client self <> None).
    { intros E; rewrite E in G; discriminate. }
    assert (Hb : ~ blank text).
    { intros E; apply orb_false_iff in G as [_ G].
      rewrite (strip_blank text E) in G; discriminate. }
    rewrite (analyze_document_unfold ai self text s Hc Hb).
    unfold try_except; rewrite analyze_attempt_run.
    destruct (_call_groq_api ai self _ _ _) as [[response_text|e] s1].
    + destruct (json_loads ai (clean_response response_text)) as [[| | | | |l|data]|e];
        try (rewrite analyze_handler_run; eexists; eexists;
             split; [reflexivity|split; [right; left; eauto|tauto]]).
      eexists; eexists; split; [reflexivity|split; [right; right; eauto|tauto]].
    + rewrite analyze_handler_run; eexists; eexists.
      split; [reflexivity|split; [right; left; eauto|tauto]].
Qed.

Lemma analysis_not_empty (d : dict) :
  d = _fallback_analysis
  \/ (exists t e, d = degraded t e)
  \/ (exists v data, d = dict_set K_PROCESSING_TIME v (backfill data)) ->
  d <> [].
Proof.
  intros [->|[(t & e & ->)|(v & data & ->)]]; try discriminate.
  destruct (backfill data) as [|[k x] r]; cbn [dict_set]; [intros E; inversion E|].
  destruct (str_eqb K_PROCESSING_TIME k); intros E; inversion E.
Qed.

Lemma analysis_step_run (document : Document) (text : str) (s : state (backend V)) :
  exists d' s' a,
    analysis_step env docs self document text s = (Ok d', s')
    /\ doc_log (world s') = doc_log (world s)
    /\ index_log (world s') = index_log (world s)
    /\ doc_status d' = doc_status document
    /\ doc_extracted_text d' = doc_extracted_text document
    /\ doc_processing_error d' = doc_processing_error document
    /\ doc_ai_analysis d' = Some a
    /\ a <> []
    /\ (client self = None -> a = _fallback_analysis /\ doc_summary d' = CANNED_SUMMARY).
Proof.
  unfold analysis_step, try_except, bind, with_processor.
  destruct (analyze_document_forms env text (mk_state (shared (world s)) (trace s)))
    as (d & s1 & Hrun & Hforms & Hnone).
  rewrite Hrun.
  pose proof (analysis_not_empty d Hforms) as Hne.
  destruct (dict_has K_ERROR d) eqn:Herr.
  { unfold ret; eexists; eexists; exists d; split; [reflexivity|]; cbn.
    conjs; auto.
    intros Hc; destruct (Hnone Hc) as [Hd _]; rewrite Hd in Herr; discriminate. }
  destruct (truthy (get_default (dict_get K_SUMMARY d) VNone)) eqn:Htruthy.
  2:{ unfold ret; eexists; eexists; exists d; split; [reflexivity|]; cbn.
      conjs; auto.
      intros Hc; destruct (Hnone Hc) as [Hd _]; rewrite Hd in Htruthy; discriminate. }
  destruct (sliceable (get_default (dict_get K_SUMMARY d) VNone)) eqn:Hslice.
  { unfold ret; eexists; eexists; exists d; split; [reflexivity|]; cbn.
    conjs; auto.
    intros Hc; destruct (Hnone Hc) as [Hd _]; rewrite Hd; split; reflexivity. }
  unfold ret; eexists; eexists; eexists; split; [reflexivity|]; cbn.
  conjs; auto; [intros E; inversion E|].
  intros Hc; destruct (Hnone Hc) as [Hd _]; rewrite Hd in Hslice; discriminate.
Qed.

Lemma embeddings_step_run (document : Document) (text : str) (s : state (backend V)) :
  exists s',
    embeddings_step env self document text s = (Ok tt, s')
    /\ doc_log (world s') = doc_log (world s)
    /\ index_log (world s') = index_log (world s).
Proof.
  unfold embeddings_step, try_except, bind, with_processor.
  destruct (store_document_embeddings env self _ _ _ _) as [[b|e] s1]; cbn;
    eexists; (split; [reflexivity|]); cbn; auto.
Qed.

Lemma step_lift_run {A} (document : Document) (c : M (backend V) A)
    (k : A -> M (backend V) (Document * option caught)) (s : state (backend V)) :
  step document (hlift c) k s
  = match c s with
    | (Ok a, s') => k a s'
    | (Raise e, s') => (Ok (document, Some (CaughtExn e)), s')
    end.
Proof. unfold step, hlift, bind; destruct (c s) as [[a|e] s']; reflexivity. Qed.

Lemma process_found_run (document : Document) (s : state (backend V)) :
  exists d' stop s' devs,
    process_found env docs self document s = (Ok (d', stop), s')
    /\ doc_log (world s') = doc_log (world s) ++ devs
    /\ index_log (world s') = index_log (world s)
    /\ doc_processing_error d' = doc_processing_error document
    /\ ((stop = None /\ doc_status d' = PROCESSED /\ analysed self d'
         /\ exists pre, devs = pre ++ [DbCommit [d'] (Ok tt)])
        \/ (exists c, stop = Some c /\ trace s' = trace s)
        \/ (exists e pre, stop = Some (CaughtExn e) /\ doc_status d' = PROCESSED
              /\ devs = pre ++ [DbCommit [d'] (Raise e)])).
Proof.
  unfold process_found, bind at 1; rewrite utcnow_run.
  set (d0 := set_processing_started_at _ (set_status PROCESSING document)).
  rewrite step_lift_run; unfold commit at 1; rewrite doc_call_run.
  cbn [world shared index_log doc_log trace fst snd].
  destruct (db_commit docs [d0] _) as [[[]|e1] v1]; cbn [fst snd].
  2:{ exists d0, (Some (CaughtExn e1)); eexists; eexists.
      split; [reflexivity|]; cbn; conjs; auto.
      right; left; eauto. }
  rewrite step_lift_run, doc_call_run.
  cbn [world shared index_log doc_log trace fst snd].
  destruct (storage_read_file docs (doc_file_path d0) v1) as [[content|e2] v2];
    cbn [fst snd].
  2:{ exists d0, (Some (CaughtExn e2)); eexists; eexists.
      split; [reflexivity|]; cbn; rewrite <- app_assoc; conjs; auto.
      right; left; eauto. }
  unfold step at 1.
  match goal with
  | |- context [extract_text docs ?ft ?ct ?st] =>
      destruct (extract_text_run ft ct st) as (rx & sx & xevs & Hx & Hxd & Hxi & Hxt);
      rewrite Hx
  end.
  cbn [world shared index_log doc_log trace] in Hxd, Hxi, Hxt.
  destruct rx as [[extracted_text|status_code detail]|e3].
  2:{ exists d0, (Some (CaughtHTTP status_code detail)); eexists; eexists.
      split; [reflexivity|]; rewrite Hxd, Hxi, Hxt, <- !app_assoc; conjs; auto.
      right; left; eauto. }
  2:{ exists d0, (Some (CaughtExn e3)); eexists; eexists.
      split; [reflexivity|]; rewrite Hxd, Hxi, Hxt, <- !app_assoc; conjs; auto.
      right; left; eauto. }
  unfold bind at 1.
  destruct (analysis_step_run (set_extracted_text extracted_text d0) extracted_text sx)
    as (d1 & s1 & a & Ha & Had & Hai & Hst & Htx & Hpe & Haa & Hne & Hnone).
  rewrite Ha; unfold bind at 1.
  destruct (embeddings_step_run d1 extracted_text s1) as (s2 & He & Hed & Hei).
  rewrite He; unfold bind at 1; rewrite utcnow_run.
  set (d2 := set_processing_completed_at _ (set_status PROCESSED d1)).
  rewrite step_lift_run; unfold commit; rewrite doc_call_run.
  cbn [world shared index_log doc_log trace fst snd].
  assert (Hlog : doc_log (world s2)
                 = doc_log (world s)
                   ++ [DbCommit [d0] (Ok tt); StRead (doc_file_path d0) (Ok content)]
                   ++ xevs).
  { rewrite Hed, Had, Hxd, <- !app_assoc; reflexivity. }
  assert (Hilog : index_log (world s2) = index_log (world s)).
  { rewrite Hei, Hai, Hxi; reflexivity. }
  assert (Hd2 : analysed self d2).
  { exists extracted_text, a; cbn; rewrite Htx, Haa; cbn; conjs; auto. }
  destruct (db_commit docs [d2] _) as [[[]|e4] v4]; cbn [fst snd].
  - exists d2, None; eexists; eexists; split; [reflexivity|].
    cbn; rewrite Hlog, Hilog, <- !app_assoc; conjs; auto.
    left; conjs; auto.
    exists ([DbCommit [d0] (Ok tt); StRead (doc_file_path d0) (Ok content)] ++ xevs).
    rewrite <- !app_assoc; reflexivity.
  - exists d2, (Some (CaughtExn e4)); eexists; eexists; split; [reflexivity|].
    cbn; rewrite Hlog, Hilog, <- !app_assoc; conjs; auto.
    right; right; exists e4.
    exists ([DbCommit [d0] (Ok tt); StRead (doc_file_path d0) (Ok content)] ++ xevs).
    conjs; auto; rewrite <- !app_assoc; reflexivity.
Qed.

Lemma process_document_run (document_id : Z) (s : state (backend V)) :
  exists r s' devs,
    _process_document_async env docs self document_id s = (r, s')
    /\ doc_log (world s') = doc_log (world s) ++ devs
    /\ index_log (world s') = index_log (world s)
    /\ ((exists q, devs = [DbFirstDocument document_id None q]
                   /\ (q = Ok None \/ exists e, q = Raise e)
                   /\ r = Ok tt /\ trace s' = trace s)
        \/ (exists d pre d' rc,
              devs = DbFirstDocument document_id None (Ok (Some d))
                     :: pre ++ [DbCommit [d'] rc]
              /\ r = rc
              /\ ((doc_status d' = PROCESSED /\ rc = Ok tt
                   /\ doc_processing_error d' = doc_processing_error d
                   /\ analysed self d')
                  \/ (doc_status d' = FAILED
                      /\ exists msg,
                           doc_processing_error d' = Some msg
                           /\ (trace s' = trace s
                               \/ exists pre' dp e,
                                    pre = pre' ++ [DbCommit [dp] (Raise e)]
                                    /\ doc_status dp = PROCESSED
                                    /\ msg = exn_msg e))))).
Proof.
  unfold _process_document_async, bind at 1, try_except; rewrite doc_call_run.
  destruct (db_first_document docs document_id None (shared (world s)))
    as [[[d|]|e] v0]; cbn [fst snd].
  - unfold bind.
    match goal with
    | |- context [process_found env docs self d ?st] =>
        destruct (process_found_run d st)
          as (d' & stop & s1 & devs & Hrun & Hd & Hi & Hpe & Hcases)
    end.
    cbn [world shared index_log doc_log trace] in Hd, Hi.
    rewrite Hrun.
    destruct Hcases as [(-> & Hst & Han & pre & ->)
                       |[(c & -> & Ht)|(e & pre & -> & Hst & ->)]].
    + exists (Ok tt), s1; eexists; split; [reflexivity|].
      rewrite Hd, Hi, <- app_assoc; split; [reflexivity|split; [reflexivity|]].
      right; exists d, pre, d', (Ok tt); conjs; auto.
    + unfold commit; rewrite doc_call_run.
      eexists; eexists; eexists; split; [reflexivity|].
      cbn [world shared index_log doc_log trace fst snd].
      rewrite Hd, Hi, <- !app_assoc; split; [reflexivity|split; [reflexivity|]].
      right; exists d, devs; eexists; eexists; split; [reflexivity|].
      split; [reflexivity|right]; cbn; split; [reflexivity|].
      eexists; split; [reflexivity|left; exact Ht].
    + unfold commit; rewrite doc_call_run.
      eexists; eexists; eexists; split; [reflexivity|].
      cbn [world shared index_log doc_log trace fst snd].
      rewrite Hd, Hi, <- !app_assoc; split; [reflexivity|split; [reflexivity|]].
      right; exists d, (pre ++ [DbCommit [d'] (Raise e)]); eexists; eexists.
      split; [rewrite <- !app_assoc; reflexivity|].
      split; [reflexivity|right]; cbn; split; [reflexivity|].
      eexists; split; [reflexivity|right].
      exists pre, d', e; auto.
  - exists (Ok tt); eexists; eexists; split; [reflexivity|]; cbn.
    conjs; auto; left; eexists; conjs; eauto.
  - exists (Ok tt); eexists; eexists; split; [reflexivity|]; cbn.
    conjs; auto; left; eexists; conjs; eauto.
Qed.

End DocumentRuns.

(** X22.  [_extract_pdf_text] consults PyMuPDF, pdfplumber and PyPDF2 in this
    order and never raises a plain exception.  A library is consulted only
    when every earlier one raised or gave at most 100 characters once
    stripped; the text of PyMuPDF or pdfplumber is returned only when it has
    more than 100 characters once stripped, the text of PyPDF2 whatever its
    length (a short text found by an earlier library is then lost); the only
    error is HTTP 400, when PyPDF2 itself raises.  A returned text is
    stripped, and nothing but the document log is touched. *)
Theorem extract_pdf_fallback_chain {V : Type} (docs : DocEnv V) (content : bytes)
    (s : state (backend V)) :
  exists reply s' devs,
    _extract_pdf_text docs content s = (Ok reply, s')
    /\ doc_log (world s') = doc_log (world s) ++ devs
    /\ index_log (world s') = index_log (world s)
    /\ trace s' = trace s
    /\ pdf_shape content devs reply
    /\ (forall text, reply = Returned text -> stripped text)
    /\ (forall status_code detail,
          reply = HTTPException status_code detail ->
          status_code = 400%Z
          /\ exists r1 r2 e,
               devs = [PdfFitz content r1; PdfPlumber content r2;
                       PdfPyPDF2 content (Raise e)]).
Proof.
  destruct (extract_pdf_run docs content s) as (reply & s' & devs & H & Hd & Hi & Ht & Hs).
  exists reply, s', devs; conjs; auto.
  - intros text ->; inversion Hs; subst; apply strip_stripped.
  - intros status_code detail ->; inversion Hs; subst; split; [reflexivity|eauto].
Qed.

Lemma extract_pdf_fallback_chain_witness :
  exists reply s' devs,
    _extract_pdf_text (scripted_docs scanned_pdf) [] backend_initial = (Ok reply, s')
    /\ doc_log (world s') = doc_log (world backend_initial) ++ devs
    /\ index_log (world s') = index_log (world backend_initial)
    /\ trace s' = trace backend_initial
    /\ pdf_shape [] devs reply
    /\ (forall text, reply = Returned text -> stripped text)
    /\ (forall status_code detail,
          reply = HTTPException status_code detail ->
          status_code = 400%Z
          /\ exists r1 r2 e,
               devs = [PdfFitz [] r1; PdfPlumber [] r2; PdfPyPDF2 [] (Raise e)]).
Proof.
  exact (extract_pdf_fallback_chain (scripted_docs scanned_pdf) [] backend_initial).
Defined.

(** A scanned PDF: the six characters PyMuPDF finds are lost, the empty text
    of PyPDF2 is returned. *)
Example scanned_pdf_gives_empty_text :
  fst (_extract_pdf_text (scripted_docs scanned_pdf) [] backend_initial)
    = Ok (Returned [])
  /\ doc_log (world (snd (_extract_pdf_text (scripted_docs scanned_pdf) []
                            backend_initial)))
     = [PdfFitz [] (Ok [lit "Page 1"]); PdfPlumber [] (Raise no_such_service);
        PdfPyPDF2 [] (Ok [None; Some []])].
Proof. split; vm_compute; reflexivity. Qed.

(** X23.  [_process_document_async] and the status of the document.  When
    the query finds no document, or raises, nothing else is called and the
    function returns.  When it finds one, the last call of the function is
    the commit of that document as [PROCESSED] or as [FAILED], and the
    function raises only if that commit does.  [PROCESSED] is committed
    successfully and leaves [processing_error] as it was.  [FAILED] comes with
    a [processing_error] and only from the document side: either the failure
    happened before the processor was called at all, or it is the commit of
    [PROCESSED] that raised.  No failure of the model, of the embedding model
    or of the index makes a document [FAILED]. *)
Theorem process_document_statuses {V : Type} (env : Env V) (docs : DocEnv V)
    (self : AIProcessor) (document_id : Z) (s : state (backend V)) :
  exists r s' devs,
    _process_document_async env docs self document_id s = (r, s')
    /\ doc_log (world s') = doc_log (world s) ++ devs
    /\ index_log (world s') = index_log (world s)
    /\ ((exists q, devs = [DbFirstDocument document_id None q]
                   /\ (q = Ok None \/ exists e, q = Raise e)
                   /\ r = Ok tt /\ trace s' = trace s)
        \/ (exists d pre d' rc,
              devs = DbFirstDocument document_id None (Ok (Some d))
                     :: pre ++ [DbCommit [d'] rc]
              /\ r = rc
              /\ ((doc_status d' = PROCESSED /\ rc = Ok tt
                   /\ doc_processing_error d' = doc_processing_error d)
                  \/ (doc_status d' = FAILED
                      /\ exists msg,
                           doc_processing_error d' = Some msg
                           /\ (trace s' = trace s
                               \/ exists pre' dp e,
                                    pre = pre' ++ [DbCommit [dp] (Raise e)]
                                    /\ doc_status dp = PROCESSED
                                    /\ msg = exn_msg e))))).
Proof.
  destruct (process_document_run env docs self document_id s)
    as (r & s' & devs & Hrun & Hd & Hi & Hcases).
  exists r, s', devs; conjs; auto.
  destruct Hcases as [H|(d & pre & d' & rc & Hdevs & Hr & Hst)]; [left; exact H|].
  right; exists d, pre, d', rc; conjs; auto.
  destruct Hst as [(H1 & H2 & H3 & _)|H]; [left; auto|right; exact H].
Qed.

Lemma process_document_statuses_witness :
  exists r s' devs,
    _process_document_async (scripted base_script) (scripted_docs file_missing)
      configured 7 backend_initial = (r, s')
    /\ doc_log (world s') = doc_log (world backend_initial) ++ devs
    /\ index_log (world s') = index_log (world backend_initial)
    /\ ((exists q, devs = [DbFirstDocument 7 None q]
                   /\ (q = Ok None \/ exists e, q = Raise e)
                   /\ r = Ok tt /\ trace s' = trace backend_initial)
        \/ (exists d pre d' rc,
              devs = DbFirstDocument 7 None (Ok (Some d)) :: pre ++ [DbCommit [d'] rc]
              /\ r = rc
              /\ ((doc_status d' = PROCESSED /\ rc = Ok tt
                   /\ doc_processing_error d' = doc_processing_error d)
                  \/ (doc_status d' = FAILED
                      /\ exists msg,
                           doc_processing_error d' = Some msg
                           /\ (trace s' = trace backend_initial
                               \/ exists pre' dp e,
                                    pre = pre' ++ [DbCommit [dp] (Raise e)]
                                    /\ doc_status dp = PROCESSED
                                    /\ msg = exn_msg e))))).
Proof.
  exact (process_document_statuses (scripted base_script) (scripted_docs file_missing)
           configured 7 backend_initial).
Defined.

(** The file is missing: the document is committed as [FAILED] with the
    message of the storage, and the processor was never called. *)
Example missing_file_fails_the_document :
  doc_log (world (snd (_process_document_async (scripted base_script)
                         (scripted_docs file_missing) configured 7 backend_initial)))
  = [ DbFirstDocument 7 None (Ok (Some uploaded_txt));
      DbCommit [processing_txt] (Ok tt);
      StRead (lit "3/lease.txt")
             (Raise (mk_exn OtherException (lit "File not found: 3/lease.txt")));
      DbCommit [set_processing_error (lit "File not found: 3/lease.txt")
                  (set_status FAILED processing_txt)] (Ok tt) ]
  /\ trace (snd (_process_document_async (scripted base_script)
                   (scripted_docs file_missing) configured 7 backend_initial)) = [].
Proof. split; vm_compute; reflexivity. Qed.

Lemma get_document_analysis_found {V : Type} (docs : DocEnv V) (d : Document)
    (a : dict) (document_id user_id : Z) (s : state (backend V)) :
  fst (db_first_document docs document_id (Some user_id) (shared (world s)))
    = Ok (Some d) ->
  doc_ai_analysis d = Some a -> a <> [] ->
  exists s', get_document_analysis docs document_id user_id s = (Ok (Returned a), s').
Proof.
  intros Hq Ha Hne.
  unfold get_document_analysis, get_document, hbind, hlift, bind.
  rewrite doc_call_run, Hq; unfold ret, hret; cbn; rewrite Ha.
  destruct a; [congruence|]; cbn; eexists; reflexivity.
Qed.

(** X24.  What a document committed as [PROCESSED] carries.  When the last
    call of [_process_document_async] commits the document as [PROCESSED],
    the function returned normally, and the document has its extracted text
    and a non-empty analysis, whether or not the embeddings could be stored;
    without a model client the analysis is the fallback and the summary of
    the document is the canned summary of the fallback.  So
    [get_document_analysis], when its query finds this document, returns the
    analysis and never answers 404. *)
Theorem processed_document_is_analysed {V : Type} (env : Env V) (docs : DocEnv V)
    (self : AIProcessor) (document_id : Z) (s s' : state (backend V))
    (r : result unit) (pre : list doc_event) (d' : Document) (rc : result unit) :
  _process_document_async env docs self document_id s = (r, s') ->
  doc_log (world s') = doc_log (world s) ++ pre ++ [DbCommit [d'] rc] ->
  doc_status d' = PROCESSED ->
  r = Ok tt /\ rc = Ok tt
  /\ analysed self d'
  /\ forall (docs2 : DocEnv V) (user_id : Z) (s2 : state (backend V)),
       fst (db_first_document docs2 (doc_id d') (Some user_id) (shared (world s2)))
         = Ok (Some d') ->
       exists a s3,
         get_document_analysis docs2 (doc_id d') user_id s2 = (Ok (Returned a), s3)
         /\ doc_ai_analysis d' = Some a.
Proof.
  intros Hrun Hlog Hst.
  destruct (process_document_run env docs self document_id s)
    as (r0 & s0 & devs & Hrun0 & Hd & _ & Hcases).
  rewrite Hrun in Hrun0; injection Hrun0 as <- <-.
  rewrite Hlog in Hd; apply app_inv_head in Hd.
  destruct Hcases as [(q & -> & _)|(d & pre0 & d0 & rc0 & -> & Hr & Hcases)].
  { destruct pre as [|x pre]; cbn in Hd; [discriminate|].
    injection Hd as _ Hd; destruct pre; discriminate. }
  change (DbFirstDocument document_id None (Ok (Some d)) :: pre0 ++ [DbCommit [d0] rc0])
    with ((DbFirstDocument document_id None (Ok (Some d)) :: pre0) ++ [DbCommit [d0] rc0])
    in Hd.
  apply app_inj_tail in Hd as [_ Hd]; injection Hd as <- <-.
  destruct Hcases as [(_ & Hrc & _ & Han)|(Hf & _)]; [|congruence].
  subst rc; split; [exact Hr|split; [reflexivity|split; [exact Han|]]].
  intros docs2 user_id s2 Hq.
  destruct Han as (text & a & _ & Ha & Hne & _).
  destruct (get_document_analysis_found docs2 d' a (doc_id d') user_id s2 Hq Ha Hne)
    as (s3 & H3).
  exists a, s3; auto.
Qed.

(** A text file processed without a model client and without an index: the
    document is [PROCESSED], with the fallback analysis and its canned
    summary, and no collaborator of the processor was called. *)
Lemma processed_document_is_analysed_witness :
  analysed unconfigured processed_txt
  /\ trace (snd (_process_document_async (scripted base_script) (scripted_docs txt_on_disk)
                   unconfigured 7 backend_initial)) = []
  /\ exists a s3,
       get_document_analysis (scripted_docs (serving processed_txt)) 7 3 backend_initial
         = (Ok (Returned a), s3)
       /\ doc_ai_analysis processed_txt = Some a.
Proof.
  destruct (@processed_document_is_analysed float (scripted base_script)
              (scripted_docs txt_on_disk) unconfigured 7 backend_initial
              (snd (_process_document_async (scripted base_script)
                      (scripted_docs txt_on_disk) unconfigured 7 backend_initial))
              (Ok tt)
              [ DbFirstDocument 7 None (Ok (Some uploaded_txt));
                DbCommit [processing_txt] (Ok tt);
                StRead (lit "3/lease.txt") (Ok []) ]
              processed_txt (Ok tt))
    as (_ & _ & Han & Hget).
  - vm_compute; reflexivity.
  - vm_compute; reflexivity.
  - reflexivity.
  - split; [exact Han|split; [vm_compute; reflexivity|]].
    apply (Hget (scripted_docs (serving processed_txt)) 3%Z backend_initial).
    reflexivity.
Defined.

(* ------------------------------------------------------------------ *)
(** *** The routes over stored documents *)



Lemma hbind_run {V A B : Type} (c : Http (V:=V) A) (k : A -> Http (V:=V) B)
    (s : state (backend V)) :
  hbind c k s
  = match c s with
    | (Ok (Returned a), s') => k a s'
    | (Ok (HTTPException status_code detail), s') =>
        (Ok (HTTPException status_code detail), s')
    | (Raise e, s') => (Raise e, s')
    end.
Proof. unfold hbind, bind; destruct (c s) as [[[a|x y]|e] s']; reflexivity. Qed.

Lemma hlift_run {V A : Type} (c : M (backend V) A) (s : state (backend V)) :
  hlift c s
  = match c s with
    | (Ok a, s') => (Ok (Returned a), s')
    | (Raise e, s') => (Raise e, s')
    end.
Proof. unfold hlift, bind; destruct (c s) as [[a|e] s']; reflexivity. Qed.

Lemma get_document_run {V : Type} (docs : DocEnv V) (document_id user_id : Z)
    (s : state (backend V)) :
  get_document docs document_id user_id s
  = (match fst (db_first_document docs document_id (Some user_id) (shared (world s))) with
     | Ok (Some d) => Ok (Returned d)
     | Ok None => Ok (HTTPException 404 (lit "Document not found"))
     | Raise e => Raise e
     end,
     mk_state
       (mk_backend
          (snd (db_first_document docs document_id (Some user_id) (shared (world s))))
          (index_log (world s))
          (doc_log (world s)
           ++ [DbFirstDocument document_id (Some user_id)
                 (fst (db_first_document docs document_id (Some user_id)
                         (shared (world s))))]))
       (trace s)).
Proof.
  unfold get_document; rewrite hbind_run, hlift_run, doc_call_run.
  destruct (db_first_document docs document_id (Some user_id) (shared (world s)))
    as [[[d|]|e] v]; reflexivity.
Qed.

Ltac close_route :=
  eexists; eexists; eexists; split; [reflexivity|];
  cbn [world shared index_log doc_log trace fst snd];
  rewrite <- ?app_assoc; cbn [app];
  split; [reflexivity|split; [reflexivity|]].



(** With both services configured and nothing found in the index, the
    answer that is returned is the one that was persisted. *)
Example chat_route_persists_the_refusal :
  fst (chat_with_document_route (scripted base_script)
         (scripted_docs (serving processed_txt)) configured chat_request 3
         backend_initial)
  = Ok (Returned (mk_chat_response ANSWER_INSUFFICIENT [] 1000))
  /\ doc_log (world (snd (chat_with_document_route (scripted base_script)
                            (scripted_docs (serving processed_txt)) configured
                            chat_request 3 backend_initial)))
     = [ DbFirstDocument 7 (Some 3%Z) (Ok (Some processed_txt));
         DbAdd (mk_chat_history 7 3 the_question ANSWER_INSUFFICIENT (lit "llama")
                  0.1%float [] 1000) (Ok tt);
         DbCommit [] (Ok tt);
         DbRefresh (mk_chat_history 7 3 the_question ANSWER_INSUFFICIENT (lit "llama")
                      0.1%float [] 1000) (Ok tt) ].
Proof. split; vm_compute; reflexivity. Qed.

(** X26.  The summarize route, for a document the query finds.  It never
    raises a plain exception.  Without text it answers 400.  A document that
    has a summary gets it back as it is, the canned summary included: the
    processor is not called and nothing is written.  Otherwise the document
    is analysed once and the summary of the analysis is returned; it is first
    committed to the document when it is truthy and differs from
    [Analysis unavailable.], and the route answers 500 exactly when that
    commit raises.  The canned summary of the processor differs from that
    string: whenever the analysis is the fallback or the degraded result (no
    client, blank text, model or parse failure) the canned summary is
    committed as the summary of the document. *)
Theorem summarize_document_cases {V : Type} (env : Env V) (docs : DocEnv V)
    (self : AIProcessor) (document_id user_id : Z) (s : state (backend V))
    (d : Document) :
  let q := db_first_document docs document_id (Some user_id) (shared (world s)) in
  fst q = Ok (Some d) ->
  exists r s' devs,
    summarize_document env docs self document_id user_id s = (Ok r, s')
    /\ doc_log (world s')
       = doc_log (world s)
         ++ DbFirstDocument document_id (Some user_id) (Ok (Some d)) :: devs
    /\ index_log (world s') = index_log (world s)
    /\ (truthy_str (doc_extracted_text d) = false ->
        r = HTTPException 400 (lit "Document text not available")
        /\ devs = [] /\ trace s' = trace s)
    /\ (truthy_str (doc_extracted_text d) = true -> truthy (doc_summary d) = true ->
        r = Returned [(K_SUMMARY, doc_summary d)]
        /\ devs = [] /\ trace s' = trace s)
    /\ (truthy_str (doc_extracted_text d) = true -> truthy (doc_summary d) = false ->
        exists result summary,
          fst (analyze_document env self (get_default (doc_extracted_text d) [])
                 (mk_state (snd q) (trace s))) = Ok result
          /\ summary = get_default (dict_get K_SUMMARY result) (VStr [])
          /\ (if truthy summary && differs_from_str summary (lit "Analysis unavailable.")
              then exists rc,
                     devs = [DbCommit [set_summary summary d] rc]
                     /\ r = match rc with
                            | Ok _ => Returned [(K_SUMMARY, summary)]
                            | Raise e =>
                                HTTPException 500
                                  (lit "Failed to generate summary: " ++ exn_msg e)
                            end
              else devs = [] /\ r = Returned [(K_SUMMARY, summary)])
          /\ (result = _fallback_analysis \/ (exists t e, result = degraded t e) ->
              summary = CANNED_SUMMARY
              /\ exists rc, devs = [DbCommit [set_summary CANNED_SUMMARY d] rc])
          /\ (client self = None -> result = _fallback_analysis)).
Proof.
  intros q Hq; subst q.
  unfold summarize_document; rewrite hbind_run, get_document_run, Hq.
  destruct (db_first_document docs document_id (Some user_id) (shared (world s)))
    as [q0 v0]; cbn [fst snd] in *; subst q0.
  destruct (truthy_str (doc_extracted_text d)) eqn:Htext; cbn [negb].
  2:{ close_route; conjs; intros; try discriminate; auto. }
  destruct (truthy (doc_summary d)) eqn:Hsum.
  { close_route; conjs; intros; try discriminate; auto. }
  unfold except_Exception; rewrite hlift_run; unfold bind at 1, with_processor.
  cbn [world shared index_log doc_log trace].
  destruct (analyze_document_forms self env (get_default (doc_extracted_text d) [])
              (mk_state v0 (trace s))) as (result & s1 & Hrun & Hforms & Hnone).
  rewrite Hrun.
  set (summary := get_default (dict_get K_SUMMARY result) (VStr [])).
  assert (Hcanned : result = _fallback_analysis \/ (exists t e, result = degraded t e) ->
                    summary = CANNED_SUMMARY).
  { intros [->|(t & e & ->)]; reflexivity. }
  destruct (truthy summary && differs_from_str summary (lit "Analysis unavailable."))
    eqn:Hguard.
  - unfold bind at 1, commit; rewrite doc_call_run.
    cbn [world shared index_log doc_log trace fst snd].
    destruct (db_commit docs [set_summary summary d] (world s1)) as [[[]|e] v1];
      cbn [fst snd]; unfold hraise, ret;
      (close_route; conjs; intros; try discriminate;
       exists result, summary; rewrite Hguard; conjs; auto;
       [eexists; split; reflexivity
       |intros Hf; split; [auto|rewrite <- (Hcanned Hf); eauto]
       |intros Hc; now destruct (Hnone Hc)]).
  - unfold bind, ret.
    close_route; conjs; intros; try discriminate.
    exists result, summary; rewrite Hguard; conjs; auto.
    + intros Hf; rewrite (Hcanned Hf) in Hguard; discriminate.
    + intros Hc; now destruct (Hnone Hc).
Qed.

Lemma summarize_document_cases_witness :
  exists r s' devs,
    summarize_document (scripted base_script) (scripted_docs (serving unsummarised_txt))
      unconfigured 7 3 backend_initial = (Ok r, s')
    /\ doc_log (world s')
       = doc_log (world backend_initial)
         ++ DbFirstDocument 7 (Some 3%Z) (Ok (Some unsummarised_txt)) :: devs
    /\ exists rc, devs = [DbCommit [set_summary CANNED_SUMMARY unsummarised_txt] rc].
Proof.
  destruct (summarize_document_cases (scripted base_script)
              (scripted_docs (serving unsummarised_txt)) unconfigured 7 3
              backend_initial unsummarised_txt eq_refl)
    as (r & s' & devs & Hrun & Hd & _ & _ & _ & Hfresh).
  destruct (Hfresh eq_refl eq_refl)
    as (result & summary & _ & _ & _ & Hcanned & Hnone).
  exists r, s', devs; split; [exact Hrun|split; [exact Hd|]].
  exact (proj2 (Hcanned (or_introl (Hnone eq_refl)))).
Defined.

(** A processed document without a summary, a processor without a model
    client: the canned summary is committed and returned. *)
Example summarize_persists_the_canned_summary :
  fst (summarize_document (scripted base_script)
         (scripted_docs (serving unsummarised_txt)) unconfigured 7 3 backend_initial)
  = Ok (Returned [(K_SUMMARY, CANNED_SUMMARY)])
  /\ doc_log (world (snd (summarize_document (scripted base_script)
                            (scripted_docs (serving unsummarised_txt)) unconfigured
                            7 3 backend_initial)))
     = [ DbFirstDocument 7 (Some 3%Z) (Ok (Some unsummarised_txt));
         DbCommit [set_summary CANNED_SUMMARY unsummarised_txt] (Ok tt) ].
Proof. split; vm_compute; reflexivity. Qed.

Lemma delete_document_embeddings_trace {W : Type} (adm : AdminEnv W) (self : AIProcessor)
    (document_id : Z) (s : state (logged W)) :
  trace (snd (delete_document_embeddings adm self document_id s)) = trace s.
Proof.
  unfold delete_document_embeddings.
  destruct (index self) as [h|]; simpl; [|reflexivity].
  run_admin.
  destruct (index_delete adm (FilterPlain document_id) (inner (world s)))
    as [[[]|e] w1]; simpl; [reflexivity|].
  destruct (index_delete adm (FilterEq document_id) w1) as [[[]|e'] w2]; reflexivity.
Qed.

(** X27.  [delete_document].  It answers 404 when the query finds no
    document of this user, and then deletes nothing.  Otherwise it deletes
    the file, then the row, commits, and only then asks the processor to
    delete the embeddings.  It answers 500 exactly when the storage, the
    deletion of the row or the commit raises, and in that case the index is
    not touched (a failure after the file was deleted leaves the row without
    its file).  Once the commit went through it returns [True] whatever
    happens to the embeddings: whether there is no index, or the index
    refused both filters, the vectors that stay behind are not reported; nor
    is a file the storage did not delete. *)
Theorem delete_document_cases {V : Type} (adm : AdminEnv V) (docs : DocEnv V)
    (self : AIProcessor) (document_id user_id : Z) (s : state (backend V)) :
  let q := db_first_document docs document_id (Some user_id) (shared (world s)) in
  exists r s' devs ievs,
    delete_document adm docs self document_id user_id s = (r, s')
    /\ doc_log (world s')
       = doc_log (world s) ++ DbFirstDocument document_id (Some user_id) (fst q) :: devs
    /\ index_log (world s') = index_log (world s) ++ ievs
    /\ trace s' = trace s
    /\ match fst q with
       | Raise e => r = Raise e /\ devs = [] /\ ievs = []
       | Ok None =>
           r = Ok (HTTPException 404 (lit "Document not found"))
           /\ devs = [] /\ ievs = []
       | Ok (Some d) =>
           (r = Ok (Returned true)
            /\ (exists b, devs = [StDelete (doc_file_path d) (Ok b);
                                  DbDelete d (Ok tt); DbCommit [] (Ok tt)])
            /\ (index self = None /\ ievs = []
                \/ index self <> None
                   /\ ievs = [AdDelete (FilterPlain document_id) (Ok tt)]
                \/ exists e rr,
                     index self <> None
                     /\ ievs = [AdDelete (FilterPlain document_id) (Raise e);
                                AdDelete (FilterEq document_id) rr]))
           \/ (r = Ok (HTTPException 500 (lit "Failed to delete document"))
               /\ ievs = []
               /\ exists e,
                    devs = [StDelete (doc_file_path d) (Raise e)]
                    \/ (exists b, devs = [StDelete (doc_file_path d) (Ok b);
                                          DbDelete d (Raise e)])
                    \/ (exists b, devs = [StDelete (doc_file_path d) (Ok b);
                                          DbDelete d (Ok tt); DbCommit [] (Raise e)]))
       end.
Proof.
  intros q; subst q.
  unfold delete_document; rewrite hbind_run, get_document_run.
  destruct (db_first_document docs document_id (Some user_id) (shared (world s)))
    as [[[d|]|e] v0]; cbn [fst snd].
  3:{ exists (Raise e); eexists; exists [], []; rewrite app_nil_r; cbn; auto 10. }
  2:{ eexists; eexists; exists [], []; rewrite app_nil_r; cbn; auto 10. }
  unfold except_Exception; rewrite hlift_run; unfold bind at 1; rewrite doc_call_run.
  cbn [world shared index_log doc_log trace fst snd].
  destruct (storage_delete_file docs (doc_file_path d) v0) as [[b|e] v1]; cbn [fst snd].
  2:{ unfold hraise, ret; eexists; eexists.
      exists [StDelete (doc_file_path d) (Raise e)], [].
      split; [reflexivity|].
      cbn [world shared index_log doc_log trace]; rewrite <- ?app_assoc, ?app_nil_r.
      conjs; auto; right; conjs; auto; exists e; auto. }
  unfold bind at 1; rewrite doc_call_run.
  cbn [world shared index_log doc_log trace fst snd].
  destruct (db_delete docs d v1) as [[[]|e] v2]; cbn [fst snd].
  2:{ unfold hraise, ret; eexists; eexists.
      exists [StDelete (doc_file_path d) (Ok b); DbDelete d (Raise e)], [].
      split; [reflexivity|].
      cbn [world shared index_log doc_log trace]; rewrite <- ?app_assoc, ?app_nil_r.
      conjs; auto; right; conjs; auto; exists e; right; left; exists b; reflexivity. }
  unfold bind at 1, commit; rewrite doc_call_run.
  cbn [world shared index_log doc_log trace fst snd].
  destruct (db_commit docs [] v2) as [[[]|e] v3]; cbn [fst snd].
  2:{ unfold hraise, ret; eexists; eexists.
      exists [StDelete (doc_file_path d) (Ok b); DbDelete d (Ok tt);
              DbCommit [] (Raise e)], [].
      split; [reflexivity|].
      cbn [world shared index_log doc_log trace]; rewrite <- ?app_assoc, ?app_nil_r.
      conjs; auto; right; conjs; auto; exists e; right; right; exists b; reflexivity. }
  unfold bind at 1, with_index_admin.
  cbn [world shared index_log doc_log trace].
  pose proof (delete_document_embeddings_trace adm self document_id
                (mk_state (mk_logged v3 (index_log (world s))) (trace s))) as Htrace.
  destruct (delete_document_embeddings_run adm self document_id
              (mk_state (mk_logged v3 (index_log (world s))) (trace s)))
    as (ok & s1 & ievs & Hrun & Hlog & Hcases).
  rewrite Hrun in Htrace |- *; cbn [snd trace] in Htrace; unfold log_of in Hlog.
  cbn [world admin_log] in Hlog.
  unfold ret; eexists; eexists.
  exists [StDelete (doc_file_path d) (Ok b); DbDelete d (Ok tt); DbCommit [] (Ok tt)], ievs.
  split; [reflexivity|].
  cbn [world shared index_log doc_log trace]; rewrite <- ?app_assoc.
  conjs; auto; left; conjs; eauto.
  destruct Hcases as [(H1 & H2 & _)|[(H1 & H2 & _)|(e & rr & H1 & H2 & _)]]; eauto 10.
Qed.

Lemma delete_document_cases_witness :
  exists r s' devs ievs,
    delete_document (scripted_admin_in float index_refuses)
      (scripted_docs (serving processed_txt)) configured 7 3 backend_initial = (r, s')
    /\ doc_log (world s')
       = doc_log (world backend_initial)
         ++ DbFirstDocument 7 (Some 3%Z) (Ok (Some processed_txt)) :: devs
    /\ index_log (world s') = index_log (world backend_initial) ++ ievs
    /\ trace s' = trace backend_initial.
Proof.
  destruct (delete_document_cases (scripted_admin_in float index_refuses)
              (scripted_docs (serving processed_txt)) configured 7 3 backend_initial)
    as (r & s' & devs & ievs & Hrun & Hd & Hi & Ht & _).
  exists r, s', devs, ievs; auto.
Defined.

(** The index refuses both filters: the document is reported as deleted. *)
Example delete_reports_success_with_vectors_left :
  fst (delete_document (scripted_admin_in float index_refuses)
         (scripted_docs (serving processed_txt)) configured 7 3 backend_initial)
    = Ok (Returned true)
  /\ index_log (world (snd (delete_document (scripted_admin_in float index_refuses)
                              (scripted_docs (serving processed_txt)) configured 7 3
                              backend_initial)))
     = [AdDelete (FilterPlain 7) (Raise no_such_service);
        AdDelete (FilterEq 7) (Raise no_such_service)].
Proof. split; vm_compute; reflexivity. Qed.
